(** * Location resolution of the MCP weather server

    A shallow embedding of [weather_server/server.py] (class
    [GeolocationService] and the function [get_coordinates]) and of the
    older single-provider [weather_server/geolocation.py], together with the
    properties of the location-resolution chain.

    Conventions.
    - Python values that come out of [response.json()] are values of
      [pyval]; floats are IEEE-754 binary64 data ([spec_float]).
    - Python [str] is [string]; characters are code points below 256.
    - [async] functions run sequentially (every call is awaited at once), so
      they are state-passing functions over a trace of events: the HTTP
      requests issued and the log records written, oldest first.
    - The outside world is an environment [Env]: the answer of every HTTP
      GET, and the Python library functions the code calls
      ([ipaddress.ip_address(..).is_private], [float] on a [str], the text
      [str()] gives for a value).

    The file has the model first (Python strings and values, the world,
    [GeolocationService], [get_coordinates], the single-provider variant),
    then the definitions the properties are stated with and the example
    environments, then the properties. *)

From Stdlib Require Import ZArith List String Ascii Bool Arith Lia.
From Stdlib Require Import Floats.SpecFloat.
From Stdlib Require Import DecimalString.
From Equations Require Import Equations.
Import ListNotations.

Set Warnings "-register-all".

Local Open Scope string_scope.
Local Open Scope list_scope.

(* ------------------------------------------------------------------ *)
(** ** Python strings *)

Module PyStr.

(** [needle in hay]. *)
Fixpoint contains (needle hay : string) : bool :=
  if String.prefix needle hay then true
  else match hay with
       | EmptyString => false
       | String _ rest => contains needle rest
       end.

(** [s.replace(old, new)] for a non-empty [old]: every occurrence, left
    to right, without overlap.  [skip] counts the characters of a matched
    occurrence still to be dropped. *)
Fixpoint replace_from (old new : string) (skip : nat) (s : string) : string :=
  match s with
  | EmptyString => EmptyString
  | String c rest =>
      match skip with
      | S k => replace_from old new k rest
      | O =>
          if String.prefix old s
          then String.append new
                 (replace_from old new (String.length old - 1) rest)
          else String c (replace_from old new 0 rest)
      end
  end.

Definition replace (old new s : string) : string := replace_from old new 0 s.

(** [s.split(sep)] for a one-character separator; never the empty list. *)
Fixpoint split (sep : ascii) (s : string) : list string :=
  match s with
  | EmptyString => [EmptyString]
  | String c rest =>
      if Ascii.eqb c sep then EmptyString :: split sep rest
      else match split sep rest with
           | h :: t => String c h :: t
           | [] => [String c EmptyString]
           end
  end.

(** [str.isspace] on one character (code points below 256). *)
Definition is_space (c : ascii) : bool :=
  let n := nat_of_ascii c in
  (Nat.leb 9 n && Nat.leb n 13) || (Nat.leb 28 n && Nat.leb n 32)
  || Nat.eqb n 133 || Nat.eqb n 160.

Fixpoint lstrip (s : string) : string :=
  match s with
  | EmptyString => EmptyString
  | String c rest => if is_space c then lstrip rest else s
  end.

Fixpoint rstrip (s : string) : string :=
  match s with
  | EmptyString => EmptyString
  | String c rest =>
      match rstrip rest with
      | EmptyString => if is_space c then EmptyString else String c EmptyString
      | r => String c r
      end
  end.

(** [s.strip()]. *)
Definition strip (s : string) : string := rstrip (lstrip s).

Definition comma : ascii := ","%char.

End PyStr.

(** Facts on the string functions that the termination of the geocoder's
    retry rests on. *)
Module PyStrFacts.
Import PyStr.

(** [c in s] for one character. *)
Fixpoint has_char (c : ascii) (s : string) : bool :=
  match s with
  | EmptyString => false
  | String a rest => Ascii.eqb a c || has_char c rest
  end.

Lemma prefix_empty (s : string) : String.prefix EmptyString s = true.
Proof. destruct s; reflexivity. Qed.

Lemma contains_char (c : ascii) (s : string) :
  contains (String c EmptyString) s = has_char c s.
Proof.
  induction s as [|a rest IH]; [reflexivity|].
  cbn [contains has_char String.prefix].
  destruct (ascii_dec c a) as [->|Hne].
  - rewrite prefix_empty, Ascii.eqb_refl. reflexivity.
  - rewrite IH. destruct (Ascii.eqb a c) eqn:E; [|reflexivity].
    apply Ascii.eqb_eq in E. congruence.
Qed.

Lemma lstrip_length (s : string) : String.length (lstrip s) <= String.length s.
Proof.
  induction s as [|a rest IH]; cbn [lstrip String.length]; [lia|].
  destruct (is_space a); cbn [String.length]; lia.
Qed.

Lemma rstrip_length (s : string) : String.length (rstrip s) <= String.length s.
Proof.
  induction s as [|a rest IH]; cbn [rstrip String.length]; [lia|].
  destruct (rstrip rest) eqn:E.
  - destruct (is_space a); cbn [String.length]; lia.
  - cbn [String.length] in *. lia.
Qed.

Lemma strip_length (s : string) : String.length (strip s) <= String.length s.
Proof.
  unfold strip. pose proof (rstrip_length (lstrip s)). pose proof (lstrip_length s). lia.
Qed.

Lemma lstrip_has_char (c : ascii) (s : string) :
  has_char c (lstrip s) = true -> has_char c s = true.
Proof.
  induction s as [|a rest IH]; cbn [lstrip has_char]; [easy|].
  destruct (is_space a); cbn [has_char]; [|easy].
  intros H. rewrite (IH H). apply orb_true_r.
Qed.

Lemma rstrip_has_char (c : ascii) (s : string) :
  has_char c (rstrip s) = true -> has_char c s = true.
Proof.
  induction s as [|a rest IH]; cbn [rstrip has_char]; [easy|].
  destruct (rstrip rest) eqn:E.
  - destruct (is_space a); cbn [has_char]; [easy|].
    rewrite orb_false_r. intros ->. reflexivity.
  - cbn [has_char] in *. intros H. apply orb_true_iff in H as [H|H].
    + rewrite H. reflexivity.
    + rewrite (IH H). apply orb_true_r.
Qed.

Lemma strip_has_char (c : ascii) (s : string) :
  has_char c (strip s) = true -> has_char c s = true.
Proof. intros H. apply lstrip_has_char, rstrip_has_char, H. Qed.

(** The first piece of a split holds no separator, and is strictly shorter
    than the string when the string holds one. *)
Lemma split_hd_no_sep (sep : ascii) (s : string) :
  has_char sep (hd EmptyString (split sep s)) = false.
Proof.
  induction s as [|a rest IH]; cbn [split]; [reflexivity|].
  destruct (Ascii.eqb a sep) eqn:E; [reflexivity|].
  destruct (split sep rest) as [|h t]; cbn [hd has_char] in *.
  - rewrite E. reflexivity.
  - rewrite E, IH. reflexivity.
Qed.

Lemma split_hd_length (sep : ascii) (s : string) :
  String.length (hd EmptyString (split sep s)) <= String.length s.
Proof.
  induction s as [|a rest IH]; cbn [split]; [cbn; lia|].
  destruct (Ascii.eqb a sep); [cbn; lia|].
  destruct (split sep rest) as [|h t]; cbn [hd String.length] in *; lia.
Qed.

Lemma split_hd_shorter (sep : ascii) (s : string) :
  has_char sep s = true ->
  String.length (hd EmptyString (split sep s)) < String.length s.
Proof.
  induction s as [|a rest IH]; cbn [split has_char]; [discriminate|].
  destruct (Ascii.eqb a sep) eqn:E; [cbn; lia|].
  cbn [orb]. intros H. specialize (IH H).
  destruct (split sep rest) as [|h t]; cbn [hd String.length] in *; lia.
Qed.

End PyStrFacts.

(* ------------------------------------------------------------------ *)
(** ** Python values *)

(** What [json.loads] can produce.  A [dict] is kept as an association list
    read by first match. *)
Inductive pyval : Type :=
| PNone
| PBool (b : bool)
| PInt (z : Z)
| PFloat (f : spec_float)
| PStr (s : string)
| PList (l : list pyval)
| PDict (d : list (string * pyval)).

(** The exceptions that occur in the modelled code. *)
Inductive exn : Type :=
| TransportError (what : string)   (* httpx timeout, connection failure *)
| HTTPStatusError (status : Z)     (* raise_for_status *)
| JSONDecodeError
| AttributeError
| TypeError
| KeyError
| IndexError
| OverflowError
| UnboundLocalError
| ValueError (msg : string).

Module Py.

(** Truth value testing, as [if v:] and [not v] use it. *)
Definition truthy (v : pyval) : bool :=
  match v with
  | PNone => false
  | PBool b => b
  | PInt z => negb (Z.eqb z 0)
  | PFloat (S754_zero _) => false
  | PFloat _ => true
  | PStr s => negb (String.eqb s EmptyString)
  | PList l => match l with [] => false | _ => true end
  | PDict d => match d with [] => false | _ => true end
  end.

Definition is_none (v : pyval) : bool :=
  match v with PNone => true | _ => false end.

Fixpoint assoc (key : string) (d : list (string * pyval)) : option pyval :=
  match d with
  | [] => None
  | (k, v) :: rest => if String.eqb k key then Some v else assoc key rest
  end.

(** [data.get(key, default)]; only a dict has [.get]. *)
Definition get (data : pyval) (key : string) (default : pyval) : exn + pyval :=
  match data with
  | PDict d => inr (match assoc key d with Some v => v | None => default end)
  | _ => inl AttributeError
  end.

(** [data[key]] with a string key. *)
Definition getitem (data : pyval) (key : string) : exn + pyval :=
  match data with
  | PDict d => match assoc key d with Some v => inr v | None => inl KeyError end
  | _ => inl TypeError
  end.

(** [len(v)]. *)
Definition len (v : pyval) : exn + Z :=
  match v with
  | PList l => inr (Z.of_nat (List.length l))
  | PStr s => inr (Z.of_nat (String.length s))
  | PDict d => inr (Z.of_nat (List.length d))
  | _ => inl TypeError
  end.

(** [v[0]]. *)
Definition first (v : pyval) : exn + pyval :=
  match v with
  | PList (x :: _) => inr x
  | PList [] => inl IndexError
  | PStr (String c _) => inr (PStr (String c EmptyString))
  | PStr EmptyString => inl IndexError
  | PDict _ => inl KeyError
  | _ => inl TypeError
  end.

(** [v.split(',')]; only a [str] has [.split]. *)
Definition split_comma (v : pyval) : exn + list string :=
  match v with
  | PStr s => inr (PyStr.split PyStr.comma s)
  | _ => inl AttributeError
  end.

(** [float(n)] for an [int]: the nearest binary64, [OverflowError] beyond
    the range. *)
Definition float_of_int (z : Z) : exn + spec_float :=
  match binary_normalize 53 1024 z 0 false with
  | S754_infinity _ => inl OverflowError
  | f => inr f
  end.

End Py.

(* ------------------------------------------------------------------ *)
(** ** The outside world, events and the state-passing monad *)

(** One [client.get(url, params=..., timeout=...)]; the timeout in whole
    seconds. *)
Record request : Type := mkRequest {
  url : string;
  params : list (string * pyval);
  timeout : Z
}.

(** An [httpx.Response]: [json] is what [response.json()] returns, [None]
    when it raises. *)
Record response : Type := mkResponse {
  status_code : Z;
  text : string;
  json : option pyval
}.

Inductive http_result : Type :=
| HttpRaise (e : exn)
| HttpResponse (r : response).

Inductive level : Type := DEBUG | INFO | WARNING | ERROR.

Inductive logarg : Type :=
| LVal (v : pyval)
| LExc (e : exn).

Inductive event : Type :=
| EvGet (rq : request)
| EvLog (lvl : level) (fmt : string) (args : list logarg)
| EvPrint (fmt : string) (args : list logarg).

Definition trace : Type := list event.

Record Env : Type := mkEnv {
  (** the answer to a GET *)
  http_get : request -> http_result;
  (** [ipaddress.ip_address(ip).is_private]; [None] when [ip_address]
      raises [ValueError] *)
  ip_is_private : string -> option bool;
  (** [float(s)] on a [str]; [None] when it raises [ValueError] *)
  float_of_str : string -> option spec_float;
  (** the text [str()] gives for a value that is neither a [str] nor
      [None] *)
  py_str : pyval -> string
}.

(** [M A]: a computation that extends the trace and returns an [A];
    [MX A]: one that may raise instead. *)
Definition M (A : Type) : Type := trace -> A * trace.
Definition MX (A : Type) : Type := M (exn + A).

Definition ret {A} (a : A) : M A := fun tr => (a, tr).

Definition bind {A B} (c : M A) (k : A -> M B) : M B :=
  fun tr => let (a, tr1) := c tr in k a tr1.

Definition retX {A} (a : A) : MX A := ret (inr a).
Definition raise {A} (e : exn) : MX A := ret (inl e).

Definition bindX {A B} (c : MX A) (k : A -> MX B) : MX B :=
  bind c (fun r => match r with inl e => ret (inl e) | inr a => k a end).

(** A pure step that may raise, inside a [try] block. *)
Definition liftE {A} (r : exn + A) : MX A := ret r.
(** A step that cannot raise, inside a [try] block. *)
Definition liftM {A} (c : M A) : MX A := bind c (fun a => ret (inr a)).

Declare Scope py_scope.
Delimit Scope py_scope with py.
Notation "x <- c ;; k" := (bind c (fun x => k))
  (at level 61, c at next level, right associativity) : py_scope.
Notation "c ;; k" := (bind c (fun _ => k))
  (at level 61, right associativity) : py_scope.
Notation "x <-! c ;; k" := (bindX c (fun x => k))
  (at level 61, c at next level, right associativity) : py_scope.
Notation "c ;;! k" := (bindX c (fun _ => k))
  (at level 61, right associativity) : py_scope.
Notation "x <-? e ;; k" :=
  (match e with inl err => inl err | inr x => k end)
  (at level 61, e at next level, right associativity) : py_scope.
Infix "+++" := String.append (at level 60, right associativity) : py_scope.
Local Open Scope py_scope.

Definition log (lvl : level) (fmt : string) (args : list logarg) : M unit :=
  fun tr => (tt, tr ++ [EvLog lvl fmt args]).

(** [print(f"...")], the text kept as a template and its values. *)
Definition print (fmt : string) (args : list logarg) : M unit :=
  fun tr => (tt, tr ++ [EvPrint fmt args]).

Definition is_success (r : response) : bool :=
  (200 <=? status_code r)%Z && (status_code r <=? 299)%Z.

(** [response.raise_for_status()]. *)
Definition raise_for_status (r : response) : exn + unit :=
  if is_success r then inr tt else inl (HTTPStatusError (status_code r)).

(** [response.json()]. *)
Definition response_json (r : response) : exn + pyval :=
  match json r with
  | Some v => inr v
  | None => inl JSONDecodeError
  end.

(** The HTTP requests of a trace, oldest first. *)
Fixpoint requests (tr : trace) : list request :=
  match tr with
  | [] => []
  | EvGet rq :: rest => rq :: requests rest
  | EvLog _ _ _ :: rest => requests rest
  | EvPrint _ _ :: rest => requests rest
  end.

(** The [location] dict of [get_geolocation_from_ip]: always these six
    keys. *)
Module IpLoc.
Record t : Type := mk {
  city : pyval;
  region : pyval;
  country : pyval;
  latitude : pyval;
  longitude : pyval;
  ip : pyval
}.
End IpLoc.

(** The [location_data] dict of [get_geolocation_from_name]. *)
Module Place.
Record t : Type := mk {
  name : pyval;
  country : pyval;
  latitude : pyval;
  longitude : pyval;
  timezone : pyval;
  admin1 : pyval
}.
End Place.

(** A JSON number. *)
Inductive number : Type :=
| NInt (z : Z)
| NFloat (f : spec_float).

(** The [arguments] of a tool call, typed as the tools' [inputSchema]
    declares them; [None] is a key that is absent (or null), which is what
    [arguments.get(...)] gives. *)
Module Args.
Record t : Type := mk {
  location_name : option string;
  latitude : option number;
  longitude : option number;
  client_ip : option string
}.
End Args.

(** The tier of the precedence ladder whose [return] produced a result:
    the provided coordinates, the geocoded name, the location "(IP-based)",
    the "(default fallback)". *)
Inductive origin : Type :=
| EXPLICIT_COORDS
| PLACE_NAME
| IP_BASED
| DEFAULT_FALLBACK.

(** The tuple [get_coordinates] returns: latitude, longitude,
    [location_info]. *)
Definition resolved : Type := (pyval * pyval * string)%type.

(** The binary64 values of the literals [40.7128] and [-74.0060]. *)
Definition default_latitude : spec_float :=
  S754_finite false 5729817215912798 (-47).
Definition default_longitude : spec_float :=
  S754_finite true 5207709281612202 (-46).

Section Server.

Context (env : Env).

(** [await client.get(...)]: records the request, then answers or
    raises. *)
Definition client_get (u : string) (ps : list (string * pyval)) (t : Z)
  : MX response :=
  fun tr =>
    let rq := mkRequest u ps t in
    (match http_get env rq with
     | HttpRaise e => inl e
     | HttpResponse r => inr r
     end, tr ++ [EvGet rq]).

(** The text an f-string or [%s] puts for a value. *)
Definition fmt (v : pyval) : string :=
  match v with
  | PStr s => s
  | PNone => "None"
  | _ => py_str env v
  end.

(** *** class GeolocationService (server.py) *)

Definition geolocation_services : list string :=
  [ "https://ipapi.co/json/";
    "https://ipinfo.io/json";
    "http://ip-api.com/json/" ].

Definition public_ip_services : list string :=
  [ "https://api.ipify.org?format=json";
    "https://icanhazip.com/";
    "https://checkip.amazonaws.com/" ].

(** [is_private_ip]. *)
Definition is_private_ip (ip : string) : M bool :=
  match ip_is_private env ip with
  | Some b => ret b
  | None =>
      log WARNING "Invalid IP address format: %s" [LVal (PStr ip)] ;;
      ret false
  end.

(** The [try] body of one iteration of [get_public_ip]. *)
Definition public_ip_try (service_url : string) : MX pyval :=
  liftM (log DEBUG "Trying public IP service: %s" [LVal (PStr service_url)]) ;;!
  if PyStr.contains "ipify" service_url || PyStr.contains "ipinfo" service_url
  then
    response <-! client_get service_url [] 5 ;;
    liftE (raise_for_status response) ;;!
    data <-! liftE (response_json response) ;;
    ip <-! liftE (Py.get data "ip" PNone) ;;
    liftM (log INFO "Successfully obtained public IP: %s from %s"
             [LVal ip; LVal (PStr service_url)]) ;;!
    retX ip
  else
    response <-! client_get service_url [] 5 ;;
    liftE (raise_for_status response) ;;!
    let ip := PStr (PyStr.strip (text response)) in
    liftM (log INFO "Successfully obtained public IP: %s from %s"
             [LVal ip; LVal (PStr service_url)]) ;;!
    retX ip.

(** The [for] loop of [get_public_ip] over the services still to try. *)
Fixpoint public_ip_loop (services : list string) : M pyval :=
  match services with
  | [] =>
      log ERROR "All public IP services failed" [] ;;
      ret PNone
  | service_url :: rest =>
      r <- public_ip_try service_url ;;
      match r with
      | inr ip => ret ip
      | inl e =>
          log WARNING "Failed to get public IP from %s: %s"
            [LVal (PStr service_url); LExc e] ;;
          public_ip_loop rest
      end
  end.

Definition get_public_ip : M pyval :=
  log DEBUG "Attempting to get public IP address" [] ;;
  public_ip_loop public_ip_services.

(** [float(loc[i]) if loc and len(loc) == 2 else None] on the pieces of
    the ipinfo.io field [loc]. *)
Definition coordinate_of (loc : list string) (i : nat) : exn + pyval :=
  if (match loc with [] => false | _ => true end)
     && Nat.eqb (List.length loc) 2
  then match nth_error loc i with
       | Some piece =>
           match float_of_str env piece with
           | Some f => inr (PFloat f)
           | None => inl (ValueError "could not convert string to float")
           end
       | None => inl IndexError
       end
  else inr PNone.

(** The URL one provider is asked at. *)
Definition provider_url (service_url : string) (ip_address : pyval) : string :=
  if Py.truthy ip_address && negb (PyStr.contains "ip-api.com" service_url)
  then PyStr.replace "/json/" ("/" +++ fmt ip_address +++ "/json/") service_url
  else service_url.

(** "Parse response based on service": the [location] dict built from
    [data], or [None] when no branch of the [if]/[elif] chain applies and
    the variable [location] is left as it was. *)
Definition parse_location (service_url : string) (ip_address data : pyval)
  : exn + option IpLoc.t :=
  if PyStr.contains "ipapi.co" service_url then
    city <-? Py.get data "city" PNone ;;
    region <-? Py.get data "region" PNone ;;
    country <-? Py.get data "country_name" PNone ;;
    latitude <-? Py.get data "latitude" PNone ;;
    longitude <-? Py.get data "longitude" PNone ;;
    ip <-? Py.get data "ip" PNone ;;
    inr (Some (IpLoc.mk city region country latitude longitude ip))
  else if PyStr.contains "ipinfo.io" service_url then
    loc_field <-? Py.get data "loc" (PStr EmptyString) ;;
    loc <-? Py.split_comma loc_field ;;
    latitude <-? coordinate_of loc 0 ;;
    longitude <-? coordinate_of loc 1 ;;
    city <-? Py.get data "city" PNone ;;
    region <-? Py.get data "region" PNone ;;
    country <-? Py.get data "country" PNone ;;
    ip <-? Py.get data "ip" PNone ;;
    inr (Some (IpLoc.mk city region country latitude longitude ip))
  else if PyStr.contains "ip-api.com" service_url then
    city <-? Py.get data "city" PNone ;;
    region <-? Py.get data "regionName" PNone ;;
    country <-? Py.get data "country" PNone ;;
    latitude <-? Py.get data "lat" PNone ;;
    longitude <-? Py.get data "lon" PNone ;;
    ip <-? (if Py.truthy ip_address then inr ip_address
            else Py.get data "query" PNone) ;;
    inr (Some (IpLoc.mk city region country latitude longitude ip))
  else inr None.

(** "Validate we have coordinates":
    [location.get('latitude') and location.get('longitude')]. *)
Definition has_coordinates (location : IpLoc.t) : bool :=
  Py.truthy (IpLoc.latitude location) && Py.truthy (IpLoc.longitude location).

(** How the [try] body of one iteration of the provider loop ends when
    it does not raise; both carry the value of the variable [location]. *)
Inductive geo_outcome : Type :=
| Located (location : IpLoc.t)          (* [return location] *)
| NoCoordinates (location : IpLoc.t).   (* the [else: continue] *)

(** The [try] body of one iteration; [location] is the variable as the
    previous iterations left it ([None]: not yet bound). *)
Definition geo_try (ip_address : pyval) (service_url : string)
    (location : option IpLoc.t) : MX geo_outcome :=
  let url := provider_url service_url ip_address in
  liftM (log DEBUG "Trying geolocation service: %s" [LVal (PStr url)]) ;;!
  response <-! client_get url [] 10 ;;
  liftE (raise_for_status response) ;;!
  data <-! liftE (response_json response) ;;
  parsed <-! liftE (parse_location service_url ip_address data) ;;
  location <-! liftE (match parsed, location with
                      | Some l, _ => inr l
                      | None, Some l => inr l
                      | None, None => inl UnboundLocalError
                      end) ;;
  if has_coordinates location then
    liftM (log INFO "Successfully got location from %s: %s, %s (%s, %s)"
             [LVal (PStr service_url); LVal (IpLoc.city location);
              LVal (IpLoc.country location); LVal (IpLoc.latitude location);
              LVal (IpLoc.longitude location)]) ;;!
    retX (Located location)
  else
    liftM (log WARNING "No coordinates from %s" [LVal (PStr service_url)]) ;;!
    retX (NoCoordinates location).

(** The [for] loop over the providers still to try. *)
Fixpoint geo_loop (ip_address : pyval) (services : list string)
    (location : option IpLoc.t) : M (option IpLoc.t) :=
  match services with
  | [] =>
      log ERROR "All geolocation services failed" [] ;;
      ret None
  | service_url :: rest =>
      r <- geo_try ip_address service_url location ;;
      match r with
      | inr (Located l) => ret (Some l)
      | inr (NoCoordinates l) => geo_loop ip_address rest (Some l)
      | inl e =>
          log WARNING "Failed geolocation service %s: %s"
            [LVal (PStr service_url); LExc e] ;;
          geo_loop ip_address rest location
      end
  end.

(** [x or "auto-detect"] for an [Optional[str]]. *)
Definition or_auto_detect (x : option string) : pyval :=
  match x with
  | Some s => if String.eqb s EmptyString then PStr "auto-detect" else PStr s
  | None => PStr "auto-detect"
  end.

Definition of_optional (x : option string) : pyval :=
  match x with
  | Some s => PStr s
  | None => PNone
  end.

(** "If no IP provided or it's a private IP, get public IP first": the
    address the provider loop works with. *)
Definition prepare_address (ip_address : option string) : M pyval :=
  needs_public <- match ip_address with
                  | None => ret true
                  | Some ip => if String.eqb ip EmptyString then ret true
                               else is_private_ip ip
                  end ;;
  if needs_public : bool then
    public_ip <- get_public_ip ;;
    if Py.truthy public_ip then
      log INFO "Using public IP for geolocation: %s" [LVal public_ip] ;;
      ret public_ip
    else
      log WARNING "Using current location (no specific IP)" [] ;;
      ret PNone
  else ret (of_optional ip_address).

(** [get_geolocation_from_ip]. *)
Definition get_geolocation_from_ip (ip_address : option string)
  : M (option IpLoc.t) :=
  log INFO "Getting geolocation from IP: %s" [LVal (or_auto_detect ip_address)] ;;
  ip <- prepare_address ip_address ;;
  geo_loop ip geolocation_services None.

(** The query parameters of a geocoding request. *)
Definition geocoding_params (location_name : string) : list (string * pyval) :=
  [ ("name", PStr location_name); ("count", PInt 5);
    ("language", PStr "en"); ("format", PStr "json") ].

Definition geocoding_url : string :=
  "https://geocoding-api.open-meteo.com/v1/search".

(** [data.get('results') and len(data['results']) > 0]. *)
Definition has_results (data : pyval) : exn + bool :=
  results <-? Py.get data "results" PNone ;;
  if Py.truthy results then
    again <-? Py.getitem data "results" ;;
    n <-? Py.len again ;;
    inr (0 <? n)%Z
  else inr false.

(** The [location_data] dict built from the first result. *)
Definition first_result (data : pyval) : exn + Place.t :=
  results <-? Py.getitem data "results" ;;
  result <-? Py.first results ;;
  name <-? Py.get result "name" PNone ;;
  country <-? Py.get result "country" PNone ;;
  latitude <-? Py.get result "latitude" PNone ;;
  longitude <-? Py.get result "longitude" PNone ;;
  timezone <-? Py.get result "timezone" PNone ;;
  admin1 <-? Py.get result "admin1" (PStr EmptyString) ;;
  inr (Place.mk name country latitude longitude timezone admin1).

(** One query of [get_geolocation_from_name], up to the point where the
    code either returns the first match or turns to the simpler query:
    [Some] the match, [None] for "No results found". *)
Definition geocode_try (location_name : string) : MX (option Place.t) :=
  let params := geocoding_params location_name in
  liftM (log DEBUG "Calling Open-Meteo geocoding API with params: %s"
           [LVal (PDict params)]) ;;!
  response <-! client_get geocoding_url params 10 ;;
  liftE (raise_for_status response) ;;!
  data <-! liftE (response_json response) ;;
  found <-! liftE (has_results data) ;;
  if found : bool then
    location_data <-! liftE (first_result data) ;;
    liftM (log INFO "Found location: %s, %s (%s, %s)"
             [LVal (Place.name location_data); LVal (Place.country location_data);
              LVal (Place.latitude location_data);
              LVal (Place.longitude location_data)]) ;;!
    retX (Some location_data)
  else
    liftM (log WARNING "No results found for location: %s"
             [LVal (PStr location_name)]) ;;!
    retX None.

(** "Try with a simpler query": the name to retry with, if any. *)
Definition simpler_query (location_name : string) : option string :=
  if PyStr.contains "," location_name then
    let simple_name :=
      PyStr.strip (hd EmptyString (PyStr.split PyStr.comma location_name)) in
    if negb (String.eqb simple_name location_name) then Some simple_name
    else None
  else None.

(** Each retry strictly shortens the name. *)
Lemma simpler_query_shorter (location_name simple_name : string) :
  simpler_query location_name = Some simple_name ->
  String.length simple_name < String.length location_name.
Proof.
  unfold simpler_query.
  rewrite (PyStrFacts.contains_char PyStr.comma).
  destruct (PyStrFacts.has_char PyStr.comma location_name) eqn:Hc; [|discriminate].
  destruct (negb _); [|discriminate].
  intros [= <-].
  pose proof (PyStrFacts.strip_length
                (hd EmptyString (PyStr.split PyStr.comma location_name))).
  pose proof (PyStrFacts.split_hd_shorter _ _ Hc). lia.
Qed.

Definition inspect {A : Type} (a : A) : {b : A | a = b} := exist _ a eq_refl.

(** [get_geolocation_from_name]: the recursion is on the length of the
    name. *)
Equations? get_geolocation_from_name (location_name : string) (tr : trace)
  : option Place.t * trace by wf (String.length location_name) lt :=
get_geolocation_from_name location_name tr
  with geocode_try location_name
         (snd (log INFO "Geocoding location name: %s"
                 [LVal (PStr location_name)] tr)) := {
  | (inr (Some location_data), tr1) => (Some location_data, tr1)
  | (inr None, tr1) with inspect (simpler_query location_name) := {
      | exist _ (Some simple_name) Hsimple =>
          get_geolocation_from_name simple_name
            (snd (log INFO "Trying simpler query: %s"
                    [LVal (PStr simple_name)] tr1))
      | exist _ None _ => (None, tr1) }
  | (inl e, tr1) =>
      (None, snd (log ERROR "Error geocoding location name '%s': %s"
                    [LVal (PStr location_name); LExc e] tr1)) }.
Proof. apply simpler_query_shorter. exact Hsimple. Qed.

(** *** get_coordinates (server.py) *)

(** [float(n)] on a number. *)
Definition to_float (n : number) : exn + spec_float :=
  match n with
  | NFloat f => inr f
  | NInt z => Py.float_of_int z
  end.

Definition of_number (n : number) : pyval :=
  match n with
  | NFloat f => PFloat f
  | NInt z => PInt z
  end.

Definition of_optional_number (n : option number) : pyval :=
  match n with
  | Some x => of_number x
  | None => PNone
  end.

(** The block under [if location_name:] ("If location name provided,
    geocode it"). *)
Definition place_name_tier (location_name : string) : MX (origin * resolved) :=
  liftM (log INFO "Geocoding location name: %s" [LVal (PStr location_name)]) ;;!
  geolocation <-! liftM (get_geolocation_from_name location_name) ;;
  match geolocation with
  | Some place =>
      let location_info := fmt (Place.name place) in
      let location_info :=
        if Py.truthy (Place.admin1 place)
        then location_info +++ ", " +++ fmt (Place.admin1 place)
        else location_info in
      let location_info :=
        if Py.truthy (Place.country place)
        then location_info +++ ", " +++ fmt (Place.country place)
        else location_info in
      liftM (log INFO "Successfully geocoded location: %s"
               [LVal (PStr location_info)]) ;;!
      retX (PLACE_NAME,
            (Place.latitude place, Place.longitude place, location_info))
  | None =>
      liftM (log ERROR "Could not find location: %s"
               [LVal (PStr location_name)]) ;;!
      raise (ValueError ("Could not find location: " +++ location_name))
  end.

(** The rest of the function ("Fall back to IP-based geolocation"). *)
Definition ip_tier (client_ip : option string) : MX (origin * resolved) :=
  liftM (log INFO "Falling back to IP-based geolocation with IP: %s"
           [LVal (or_auto_detect client_ip)]) ;;!
  geolocation <-! liftM (get_geolocation_from_ip client_ip) ;;
  match geolocation with
  | Some location =>
      let location_info :=
        fmt (IpLoc.city location) +++ ", " +++ fmt (IpLoc.country location)
        +++ " (IP-based)" in
      liftM (log INFO "Successfully obtained location from IP: %s"
               [LVal (PStr location_info)]) ;;!
      retX (IP_BASED,
            (IpLoc.latitude location, IpLoc.longitude location, location_info))
  | None =>
      liftM (log WARNING "Using default location (New York) as fallback" []) ;;!
      retX (DEFAULT_FALLBACK,
            (PFloat default_latitude, PFloat default_longitude,
             "New York, USA (default fallback)"))
  end.

(** [if location_name:] on an [Optional[str]]: the name when it is
    present and not empty. *)
Definition given_name (location_name : option string) : option string :=
  match location_name with
  | Some name => if String.eqb name EmptyString then None else Some name
  | None => None
  end.

(** [get_coordinates], each [return] labelled with the tier it belongs
    to. *)
Definition get_coordinates_tagged (arguments : Args.t) : MX (origin * resolved) :=
  let location_name := Args.location_name arguments in
  let latitude := Args.latitude arguments in
  let longitude := Args.longitude arguments in
  let client_ip := Args.client_ip arguments in
  liftM (log INFO
           "Getting coordinates - location_name: %s, latitude: %s, longitude: %s, client_ip: %s"
           [LVal (of_optional location_name); LVal (of_optional_number latitude);
            LVal (of_optional_number longitude); LVal (of_optional client_ip)]) ;;!
  match latitude, longitude with
  | Some lat, Some lon =>
      let location_info :=
        "Coordinates: " +++ fmt (of_number lat) +++ ", " +++ fmt (of_number lon) in
      liftM (log INFO "Using provided coordinates: %s, %s"
               [LVal (of_number lat); LVal (of_number lon)]) ;;!
      flat <-! liftE (to_float lat) ;;
      flon <-! liftE (to_float lon) ;;
      retX (EXPLICIT_COORDS, (PFloat flat, PFloat flon, location_info))
  | _, _ =>
      match given_name location_name with
      | Some name => place_name_tier name
      | None => ip_tier client_ip
      end
  end.

(** [get_coordinates]: what the caller receives. *)
Definition get_coordinates (arguments : Args.t) : MX resolved :=
  r <-! get_coordinates_tagged arguments ;;
  retX (snd r).

End Server.

(* ------------------------------------------------------------------ *)
(** ** class GeolocationService (geolocation.py), the single-provider
    variant *)

Module Legacy.

Section Service.

Context (env : Env).

Definition ipapi_url : string := "http://ipapi.co/json/".
Definition ifconfig_url : string := "https://ifconfig.io/json".

(** [is_private_ip]. *)
Definition is_private_ip (ip : string) : M bool :=
  match ip_is_private env ip with
  | Some b => ret b
  | None => ret false
  end.

(** [get_public_ip]. *)
Definition get_public_ip : M pyval :=
  r <- (response <-! client_get env ifconfig_url [] 10 ;;
        liftE (raise_for_status response) ;;!
        data <-! liftE (response_json response) ;;
        liftE (Py.get data "ip" PNone)) ;;
  match r with
  | inr ip => ret ip
  | inl e =>
      print "Error getting public IP: {e}" [LExc e] ;;
      ret PNone
  end.

(** The [try] body of [get_geolocation_from_ip]. *)
Definition geolocation_try (ip_address : option string) : MX (option IpLoc.t) :=
  needs_public <-! liftM (match ip_address with
                          | None => ret true
                          | Some ip => if String.eqb ip EmptyString then ret true
                                       else is_private_ip ip
                          end) ;;
  target_ip <-! liftM (if needs_public : bool then
                         public_ip <- get_public_ip ;;
                         ret (if Py.truthy public_ip then public_ip else PNone)
                       else ret (of_optional ip_address)) ;;
  let url := if Py.truthy target_ip
             then "http://ipapi.co/" +++ fmt env target_ip +++ "/json/"
             else ipapi_url in
  response <-! client_get env url [] 10 ;;
  liftE (raise_for_status response) ;;!
  data <-! liftE (response_json response) ;;
  city <-! liftE (Py.get data "city" PNone) ;;
  region <-! liftE (Py.get data "region" PNone) ;;
  country <-! liftE (Py.get data "country_name" PNone) ;;
  latitude <-! liftE (Py.get data "latitude" PNone) ;;
  longitude <-! liftE (Py.get data "longitude" PNone) ;;
  ip <-! liftE (Py.get data "ip" PNone) ;;
  let location := IpLoc.mk city region country latitude longitude ip in
  if Py.truthy (IpLoc.latitude location) && Py.truthy (IpLoc.longitude location)
  then retX (Some location)
  else
    liftM (print "No coordinates found in geolocation data" []) ;;!
    retX None.

(** [get_geolocation_from_ip]. *)
Definition get_geolocation_from_ip (ip_address : option string)
  : M (option IpLoc.t) :=
  r <- geolocation_try ip_address ;;
  match r with
  | inr result => ret result
  | inl e =>
      print "Error getting geolocation: {e}" [LExc e] ;;
      ret None
  end.

End Service.

End Legacy.

(* ------------------------------------------------------------------ *)
(** ** The geocoder of geolocation.py *)

(** The dict its [get_geolocation_from_name] returns. *)
Module LegacyPlace.
Record t : Type := mk {
  name : pyval;
  country : pyval;
  latitude : pyval;
  longitude : pyval;
  timezone : pyval
}.
End LegacyPlace.

Module LegacyGeocoder.

Section Service.

Context (env : Env).

Definition params (location_name : string) : list (string * pyval) :=
  [ ("name", PStr location_name); ("count", PInt 1);
    ("language", PStr "en"); ("format", PStr "json") ].

(** The [try] body of [get_geolocation_from_name]. *)
Definition geocode_try (location_name : string) : MX (option LegacyPlace.t) :=
  response <-! client_get env geocoding_url (params location_name) 10 ;;
  liftE (raise_for_status response) ;;!
  data <-! liftE (response_json response) ;;
  found <-! liftE (has_results data) ;;
  if found : bool then
    results <-! liftE (Py.getitem data "results") ;;
    result <-! liftE (Py.first results) ;;
    name <-! liftE (Py.get result "name" PNone) ;;
    country <-! liftE (Py.get result "country" PNone) ;;
    latitude <-! liftE (Py.get result "latitude" PNone) ;;
    longitude <-! liftE (Py.get result "longitude" PNone) ;;
    timezone <-! liftE (Py.get result "timezone" PNone) ;;
    retX (Some (LegacyPlace.mk name country latitude longitude timezone))
  else
    liftM (print "No results found for location: {location_name}"
             [LVal (PStr location_name)]) ;;!
    retX None.

(** [get_geolocation_from_name] (geolocation.py). *)
Definition get_geolocation_from_name (location_name : string)
  : M (option LegacyPlace.t) :=
  r <- geocode_try location_name ;;
  match r with
  | inr result => ret result
  | inl e =>
      print "Error geocoding location name: {e}" [LExc e] ;;
      ret None
  end.

End Service.

End LegacyGeocoder.

(* ------------------------------------------------------------------ *)
(** ** class TimeService (server.py) *)

(** [datetime.now(tz)], as far as the code reads it. *)
Record datetime : Type := mkDatetime {
  dt_year : Z;
  dt_month : Z;
  dt_day : Z;
  dt_hour : Z;
  dt_minute : Z;
  dt_isoformat : string
}.

(** The libraries [TimeService] calls. *)
Record TimeEnv : Type := mkTimeEnv {
  (** [num2words(n, to='ordinal')]; [None] when it raises *)
  num2words_ordinal : Z -> option string;
  (** [num2words(n, lang=language)] *)
  num2words : Z -> string -> exn + string;
  (** [pytz.timezone(name)]: the zone; [None] when it raises *)
  pytz_timezone : pyval -> option string;
  (** [datetime.now(tz)] for a zone *)
  datetime_now : string -> datetime
}.

(** The dict [get_current_time_for_location] returns. *)
Module TimeData.
Record t : Type := mk {
  spoken_time : string;
  location : pyval;
  timezone : pyval;
  iso_time : string;
  hour : Z;
  minute : Z;
  month : Z;
  day : Z;
  year : Z
}.
End TimeData.

(** The three shapes of the variable [geolocation] in
    [get_current_time_for_location]: the geocoder's dict, the Geolocator's
    dict, and the literal [{'city': 'Unknown', 'country': 'Unknown',
    'timezone': 'UTC'}]. *)
Inductive geolocation : Type :=
| GPlace (place : Place.t)
| GIp (location : IpLoc.t)
| GUnknown.

Module PyMore.

(** [str(n)] for an [int]. *)
Definition str_of_int (z : Z) : string :=
  DecimalString.NilZero.string_of_int (Z.to_int z).

(** [l[i]] on a list, with Python's negative indices. *)
Definition index {A : Type} (l : list A) (i : Z) : exn + A :=
  let n := Z.of_nat (List.length l) in
  let j := if (i <? 0)%Z then (n + i)%Z else i in
  if (0 <=? j)%Z && (j <? n)%Z
  then match nth_error l (Z.to_nat j) with
       | Some x => inr x
       | None => inl IndexError
       end
  else inl IndexError.

(** [v != s] for a string [s]. *)
Definition ne_str (v : pyval) (s : string) : bool :=
  match v with
  | PStr t => negb (String.eqb t s)
  | _ => true
  end.

(** The characters of a string, as [list(s)] gives them. *)
Fixpoint chars (s : string) : list pyval :=
  match s with
  | EmptyString => []
  | String c rest => PStr (String c EmptyString) :: chars rest
  end.

(** [v += s] for a string [s]. *)
Definition iadd_str (v : pyval) (s : string) : exn + pyval :=
  match v with
  | PStr t => inr (PStr (t +++ s))
  | PList l => inr (PList (l ++ chars s))
  | _ => inl TypeError
  end.

End PyMore.

Section TimeService.

Context (env : Env) (tenv : TimeEnv).

Definition months : list string :=
  [ "January"; "February"; "March"; "April"; "May"; "June";
    "July"; "August"; "September"; "October"; "November"; "December" ].

(** [_get_month_name]. *)
Definition _get_month_name (month : Z) : exn + string :=
  PyMore.index months (month - 1).

(** [_get_day_ordinal]. *)
Definition _get_day_ordinal (day : Z) : string :=
  match num2words_ordinal tenv day with
  | Some words => words
  | None =>
      if (11 <=? day)%Z && (day <=? 13)%Z then PyMore.str_of_int day +++ "th"
      else if (day mod 10 =? 1)%Z then PyMore.str_of_int day +++ "st"
      else if (day mod 10 =? 2)%Z then PyMore.str_of_int day +++ "nd"
      else if (day mod 10 =? 3)%Z then PyMore.str_of_int day +++ "rd"
      else PyMore.str_of_int day +++ "th"
  end.

(** "Convert to 12-hour format": [hour_12] and [period]. *)
Definition twelve_hour (hour : Z) : Z * string :=
  if (hour =? 0)%Z || (hour =? 12)%Z
  then (12%Z, if (hour =? 0)%Z then "am" else "pm")
  else ((hour mod 12)%Z, if (hour <? 12)%Z then "am" else "pm").

(** [_format_time_words]. *)
Definition _format_time_words (hour minute : Z) (language : string)
  : exn + string :=
  let (hour_12, period) := twelve_hour hour in
  hour_word <-? num2words tenv hour_12 language ;;
  if (minute =? 0)%Z then inr (hour_word +++ " " +++ period)
  else if (minute <? 10)%Z then
    minute_word <-? num2words tenv minute language ;;
    inr (hour_word +++ " oh " +++ minute_word +++ " " +++ period)
  else
    minute_word <-? num2words tenv minute language ;;
    inr (hour_word +++ " " +++ minute_word +++ " " +++ period).

(** [geolocation.get('timezone', 'UTC')]. *)
Definition geolocation_timezone (g : geolocation) : pyval :=
  match g with
  | GPlace place => Place.timezone place
  | GIp _ => PStr "UTC"
  | GUnknown => PStr "UTC"
  end.

(** [geolocation.get('city', 'Unknown')]. *)
Definition geolocation_city (g : geolocation) : pyval :=
  match g with
  | GPlace _ => PStr "Unknown"
  | GIp location => IpLoc.city location
  | GUnknown => PStr "Unknown"
  end.

(** [geolocation.get('country')] and [geolocation['country']]. *)
Definition geolocation_country (g : geolocation) : pyval :=
  match g with
  | GPlace place => Place.country place
  | GIp location => IpLoc.country location
  | GUnknown => PStr "Unknown"
  end.

(** [get_current_time_for_location] from "Get timezone and current time"
    on: it reads the clock and builds the answer, and does no request. *)
Definition time_data (g : geolocation) (language : string) : exn + TimeData.t :=
  let timezone_str := geolocation_timezone g in
  let tz := match pytz_timezone tenv timezone_str with
            | Some zone => zone
            | None => "UTC"
            end in
  let current_time := datetime_now tenv tz in
  let hour := dt_hour current_time in
  let minute := dt_minute current_time in
  let month := dt_month current_time in
  let day := dt_day current_time in
  time_words <-? _format_time_words hour minute language ;;
  month_name <-? _get_month_name month ;;
  let day_ordinal := _get_day_ordinal day in
  let location_display := geolocation_city g in
  location_display <-?
    (if Py.truthy (geolocation_country g)
        && PyMore.ne_str (geolocation_country g) "Unknown"
     then PyMore.iadd_str location_display
            (", " +++ fmt env (geolocation_country g))
     else inr location_display) ;;
  let spoken_time :=
    "the current time is " +++ time_words +++ " " +++ month_name +++ " "
      +++ day_ordinal +++ " in " +++ fmt env location_display in
  inr (TimeData.mk spoken_time location_display timezone_str
         (dt_isoformat current_time) hour minute month day
         (dt_year current_time)).

(** [get_current_time_for_location]. *)
Definition get_current_time_for_location
    (location_name client_ip : option string) (language : string)
  : MX TimeData.t :=
  liftM (log INFO "Getting current time for location: %s, IP: %s, language: %s"
           [LVal (of_optional location_name); LVal (of_optional client_ip);
            LVal (PStr language)]) ;;!
  g <-! match given_name location_name with
        | Some name =>
            found <-! liftM (get_geolocation_from_name env name) ;;
            match found with
            | Some place => retX (GPlace place)
            | None => raise (ValueError ("Could not find location: " +++ name))
            end
        | None =>
            found <-! liftM (get_geolocation_from_ip env client_ip) ;;
            match found with
            | Some location => retX (GIp location)
            | None => retX GUnknown
            end
        end ;;
  liftE (time_data g language).

End TimeService.

(* ------------------------------------------------------------------ *)
(** ** class WeatherService (server.py) *)

Module PyDict.

(** The integer a finite float is equal to, if any. *)
Definition float_int_value (f : spec_float) : option Z :=
  match f with
  | S754_zero _ => Some 0%Z
  | S754_finite s m e =>
      let sign := if s then (-1)%Z else 1%Z in
      if (0 <=? e)%Z then Some (sign * (Z.pos m * 2 ^ e))%Z
      else if (Z.pos m mod 2 ^ (- e) =? 0)%Z
           then Some (sign * (Z.pos m / 2 ^ (- e)))%Z
           else None
  | _ => None
  end.

(** Looking a value up in a dict whose keys are [int]s: the [int] the
    value is equal to (as [True == 1] and [3.0 == 3]), [None] when it is
    equal to none, [TypeError] when it is unhashable. *)
Definition int_key (v : pyval) : exn + option Z :=
  match v with
  | PInt z => inr (Some z)
  | PBool b => inr (Some (if b then 1 else 0)%Z)
  | PFloat f => inr (float_int_value f)
  | PNone => inr None
  | PStr _ => inr None
  | PList _ => inl TypeError
  | PDict _ => inl TypeError
  end.

Fixpoint lookup_int (key : Z) (d : list (Z * string)) : option string :=
  match d with
  | [] => None
  | (k, v) :: rest => if Z.eqb k key then Some v else lookup_int key rest
  end.

(** [v[i]] for an index [i >= 0]. *)
Definition item (v : pyval) (i : nat) : exn + pyval :=
  match v with
  | PList l => match nth_error l i with
               | Some x => inr x
               | None => inl IndexError
               end
  | PStr s => match String.get i s with
              | Some c => inr (PStr (String c EmptyString))
              | None => inl IndexError
              end
  | PDict _ => inl KeyError
  | _ => inl TypeError
  end.

End PyDict.

Section WeatherService.

Context (env : Env).

Definition base_url : string := "https://api.open-meteo.com/v1".

Definition degree_celsius : string := String (ascii_of_nat 176) "C".

Definition weather_codes : list (Z * string) :=
  [ (0, "Clear sky"); (1, "Mainly clear"); (2, "Partly cloudy"); (3, "Overcast");
    (45, "Fog"); (48, "Depositing rime fog");
    (51, "Light drizzle"); (53, "Moderate drizzle"); (55, "Dense drizzle");
    (56, "Light freezing drizzle"); (57, "Dense freezing drizzle");
    (61, "Slight rain"); (63, "Moderate rain"); (65, "Heavy rain");
    (66, "Light freezing rain"); (67, "Heavy freezing rain");
    (71, "Slight snow fall"); (73, "Moderate snow fall"); (75, "Heavy snow fall");
    (77, "Snow grains");
    (80, "Slight rain showers"); (81, "Moderate rain showers");
    (82, "Violent rain showers");
    (85, "Slight snow showers"); (86, "Heavy snow showers");
    (95, "Thunderstorm"); (96, "Thunderstorm with slight hail");
    (99, "Thunderstorm with heavy hail") ]%Z.

(** [_get_weather_description]. *)
Definition _get_weather_description (code : pyval) : exn + string :=
  key <-? PyDict.int_key code ;;
  inr (match key with
       | Some z => match PyDict.lookup_int z weather_codes with
                   | Some description => description
                   | None => "Unknown"
                   end
       | None => "Unknown"
       end).

(** The inner dict [location] of both formatters. *)
Definition location_of (data : pyval) : exn + pyval :=
  latitude <-? Py.get data "latitude" PNone ;;
  longitude <-? Py.get data "longitude" PNone ;;
  timezone <-? Py.get data "timezone" PNone ;;
  inr (PDict [("latitude", latitude); ("longitude", longitude);
              ("timezone", timezone)]).

(** [_format_current_weather]. *)
Definition _format_current_weather (data : pyval) : exn + pyval :=
  current <-? Py.get data "current" (PDict []) ;;
  current_units <-? Py.get data "current_units" (PDict []) ;;
  timestamp <-? Py.get current "time" (PStr EmptyString) ;;
  temperature <-? Py.get current "temperature_2m" PNone ;;
  temperature_unit <-? Py.get current_units "temperature_2m" (PStr degree_celsius) ;;
  apparent_temperature <-? Py.get current "apparent_temperature" PNone ;;
  relative_humidity <-? Py.get current "relative_humidity_2m" PNone ;;
  humidity_unit <-? Py.get current_units "relative_humidity_2m" (PStr "%") ;;
  weather_code <-? Py.get current "weather_code" PNone ;;
  code <-? Py.get current "weather_code" PNone ;;
  weather_description <-? _get_weather_description code ;;
  is_day <-? Py.get current "is_day" PNone ;;
  precipitation <-? Py.get current "precipitation" PNone ;;
  precipitation_unit <-? Py.get current_units "precipitation" (PStr "mm") ;;
  rain <-? Py.get current "rain" PNone ;;
  snowfall <-? Py.get current "snowfall" PNone ;;
  cloud_cover <-? Py.get current "cloud_cover" PNone ;;
  cloud_cover_unit <-? Py.get current_units "cloud_cover" (PStr "%") ;;
  pressure <-? Py.get current "pressure_msl" PNone ;;
  pressure_unit <-? Py.get current_units "pressure_msl" (PStr "hPa") ;;
  wind_speed <-? Py.get current "wind_speed_10m" PNone ;;
  wind_speed_unit <-? Py.get current_units "wind_speed_10m" (PStr "km/h") ;;
  wind_direction <-? Py.get current "wind_direction_10m" PNone ;;
  wind_gusts <-? Py.get current "wind_gusts_10m" PNone ;;
  location <-? location_of data ;;
  inr (PDict
         [("timestamp", timestamp); ("temperature", temperature);
          ("temperature_unit", temperature_unit);
          ("apparent_temperature", apparent_temperature);
          ("relative_humidity", relative_humidity);
          ("humidity_unit", humidity_unit); ("weather_code", weather_code);
          ("weather_description", PStr weather_description);
          ("is_day", is_day); ("precipitation", precipitation);
          ("precipitation_unit", precipitation_unit); ("rain", rain);
          ("snowfall", snowfall); ("cloud_cover", cloud_cover);
          ("cloud_cover_unit", cloud_cover_unit); ("pressure", pressure);
          ("pressure_unit", pressure_unit); ("wind_speed", wind_speed);
          ("wind_speed_unit", wind_speed_unit);
          ("wind_direction", wind_direction); ("wind_gusts", wind_gusts);
          ("location", location)]).

(** [daily[key][i]]. *)
Definition series_at (daily : pyval) (key : string) (i : nat) : exn + pyval :=
  series <-? Py.getitem daily key ;;
  PyDict.item series i.

(** The dict [day_data] of the [i]-th iteration of [_format_forecast]. *)
Definition day_data (daily daily_units : pyval) (i : nat) : exn + pyval :=
  date <-? series_at daily "time" i ;;
  weather_code <-? series_at daily "weather_code" i ;;
  code <-? series_at daily "weather_code" i ;;
  weather_description <-? _get_weather_description code ;;
  temperature_max <-? series_at daily "temperature_2m_max" i ;;
  temperature_min <-? series_at daily "temperature_2m_min" i ;;
  temperature_unit <-? Py.get daily_units "temperature_2m_max" (PStr degree_celsius) ;;
  apparent_temperature_max <-? series_at daily "apparent_temperature_max" i ;;
  apparent_temperature_min <-? series_at daily "apparent_temperature_min" i ;;
  sunrise <-? series_at daily "sunrise" i ;;
  sunset <-? series_at daily "sunset" i ;;
  precipitation_sum <-? series_at daily "precipitation_sum" i ;;
  precipitation_unit <-? Py.get daily_units "precipitation_sum" (PStr "mm") ;;
  probability_series <-? Py.get daily "precipitation_probability_max" PNone ;;
  precipitation_probability <-?
    (if Py.truthy probability_series
     then series <-? Py.get daily "precipitation_probability_max" (PList []) ;;
          PyDict.item series i
     else inr PNone) ;;
  wind_speed_max <-? series_at daily "wind_speed_10m_max" i ;;
  wind_speed_unit <-? Py.get daily_units "wind_speed_10m_max" (PStr "km/h") ;;
  wind_gusts_max <-? series_at daily "wind_gusts_10m_max" i ;;
  inr (PDict
         [("date", date); ("weather_code", weather_code);
          ("weather_description", PStr weather_description);
          ("temperature_max", temperature_max);
          ("temperature_min", temperature_min);
          ("temperature_unit", temperature_unit);
          ("apparent_temperature_max", apparent_temperature_max);
          ("apparent_temperature_min", apparent_temperature_min);
          ("sunrise", sunrise); ("sunset", sunset);
          ("precipitation_sum", precipitation_sum);
          ("precipitation_unit", precipitation_unit);
          ("precipitation_probability", precipitation_probability);
          ("wind_speed_max", wind_speed_max);
          ("wind_speed_unit", wind_speed_unit);
          ("wind_gusts_max", wind_gusts_max)]).

(** The [for] loop of [_format_forecast] over the indices still to do. *)
Fixpoint forecast_days (daily daily_units : pyval) (indices : list nat)
  : exn + list pyval :=
  match indices with
  | [] => inr []
  | i :: rest =>
      day <-? day_data daily daily_units i ;;
      days <-? forecast_days daily daily_units rest ;;
      inr (day :: days)
  end.

(** [_format_forecast]. *)
Definition _format_forecast (data : pyval) : exn + pyval :=
  daily <-? Py.get data "daily" (PDict []) ;;
  daily_units <-? Py.get data "daily_units" (PDict []) ;;
  time <-? Py.get daily "time" (PList []) ;;
  n <-? Py.len time ;;
  days <-? forecast_days daily daily_units (seq 0 (Z.to_nat n)) ;;
  location <-? location_of data ;;
  inr (PDict [("location", location); ("forecast", PList days)]).

Definition current_fields : string :=
  "temperature_2m,relative_humidity_2m,apparent_temperature,is_day,precipitation,rain,showers,snowfall,weather_code,cloud_cover,pressure_msl,surface_pressure,wind_speed_10m,wind_direction_10m,wind_gusts_10m".

Definition daily_fields : string :=
  "weather_code,temperature_2m_max,temperature_2m_min,apparent_temperature_max,apparent_temperature_min,sunrise,sunset,precipitation_sum,rain_sum,showers_sum,snowfall_sum,precipitation_hours,precipitation_probability_max,wind_speed_10m_max,wind_gusts_10m_max,wind_direction_10m_dominant".

Definition current_weather_params (latitude longitude : pyval)
  : list (string * pyval) :=
  [ ("latitude", latitude); ("longitude", longitude);
    ("current", PStr current_fields); ("timezone", PStr "auto");
    ("forecast_days", PInt 1) ].

Definition forecast_params (latitude longitude : pyval) (days : Z)
  : list (string * pyval) :=
  [ ("latitude", latitude); ("longitude", longitude);
    ("daily", PStr daily_fields); ("timezone", PStr "auto");
    ("forecast_days", PInt days) ].

(** [get_current_weather]. *)
Definition get_current_weather (latitude longitude : pyval) : M (option pyval) :=
  log INFO "Getting current weather for coordinates: %s, %s"
    [LVal latitude; LVal longitude] ;;
  r <- (let url := base_url +++ "/forecast" in
        let params := current_weather_params latitude longitude in
        liftM (log DEBUG "Calling Open-Meteo current weather API with params: %s"
                 [LVal (PDict params)]) ;;!
        response <-! client_get env url params 10 ;;
        liftE (raise_for_status response) ;;!
        data <-! liftE (response_json response) ;;
        liftM (log INFO "Successfully retrieved current weather data" []) ;;!
        liftE (_format_current_weather data)) ;;
  match r with
  | inr formatted => ret (Some formatted)
  | inl e =>
      log ERROR "Error getting current weather: %s" [LExc e] ;;
      ret None
  end.

(** [get_forecast]. *)
Definition get_forecast (latitude longitude : pyval) (days : Z)
  : M (option pyval) :=
  log INFO "Getting %s-day forecast for coordinates: %s, %s"
    [LVal (PInt days); LVal latitude; LVal longitude] ;;
  r <- (let url := base_url +++ "/forecast" in
        let params := forecast_params latitude longitude days in
        liftM (log DEBUG "Calling Open-Meteo forecast API with params: %s"
                 [LVal (PDict params)]) ;;!
        response <-! client_get env url params 10 ;;
        liftE (raise_for_status response) ;;!
        data <-! liftE (response_json response) ;;
        liftM (log INFO "Successfully retrieved %s-day forecast data"
                 [LVal (PInt days)]) ;;!
        liftE (_format_forecast data)) ;;
  match r with
  | inr formatted => ret (Some formatted)
  | inl e =>
      log ERROR "Error getting forecast: %s" [LExc e] ;;
      ret None
  end.

End WeatherService.

(* ------------------------------------------------------------------ *)
(** ** call_tool (server.py) *)

(** The text functions [call_tool] uses besides [str()]. *)
Record TextEnv : Type := mkTextEnv {
  (** [f"{v:.4f}"] *)
  format_4f : pyval -> exn + string;
  (** [str(e)] for an exception *)
  str_exn : exn -> string;
  (** [s.capitalize()] *)
  capitalize : string -> string;
  (** [int(s)] for a [str] *)
  int_of_str : string -> exn + Z;
  (** what [d[11:]] raises for a dict [d]: [TypeError] (unhashable slice)
      before Python 3.12, [KeyError] from it on *)
  slice_of_dict : exn
}.

(** The [arguments] of a tool call: the location arguments as
    [arguments.get(...)] gives them, and the entry ['days'] ([None] when the
    key is absent, otherwise its value, whatever it is). *)
Module ToolArgs.
Record t : Type := mk {
  location : Args.t;
  days : option pyval
}.
End ToolArgs.

Module PyText.

Definition newline : string := String (ascii_of_nat 10) EmptyString.

Definition degree : string := String (ascii_of_nat 176) EmptyString.

(** [f"{n:02d}"] for an [int]. *)
Definition format_02d (n : Z) : string :=
  if (0 <=? n)%Z && (n <? 10)%Z then "0" +++ PyMore.str_of_int n
  else PyMore.str_of_int n.

Fixpoint drop (n : nat) (s : string) : string :=
  match n, s with
  | O, _ => s
  | S k, EmptyString => EmptyString
  | S k, String _ rest => drop k rest
  end.

(** [v[n:]]; [of_dict] is what slicing a dict raises. *)
Definition slice_from (of_dict : exn) (n : nat) (v : pyval) : exn + pyval :=
  match v with
  | PStr s => inr (PStr (drop n s))
  | PList l => inr (PList (skipn n l))
  | PDict _ => inl of_dict
  | _ => inl TypeError
  end.

(** The elements a [for] loop over [v] visits. *)
Definition iterate (v : pyval) : exn + list pyval :=
  match v with
  | PList l => inr l
  | PStr s => inr (PyMore.chars s)
  | PDict d => inr (map (fun kv => PStr (fst kv)) d)
  | _ => inl TypeError
  end.

(** [int(x)] for a [float]: towards zero; NaN and the infinities raise. *)
Definition int_of_float (f : spec_float) : exn + Z :=
  match f with
  | S754_zero _ => inr 0%Z
  | S754_finite s m e =>
      let magnitude := if (0 <=? e)%Z then (Z.pos m * 2 ^ e)%Z
                       else (Z.pos m / 2 ^ (- e))%Z in
      inr (if s then (- magnitude)%Z else magnitude)
  | S754_infinity _ => inl OverflowError
  | S754_nan => inl (ValueError "cannot convert float NaN to integer")
  end.

(** [int(x)]; [of_str] is [int] on a [str]. *)
Definition int (of_str : string -> exn + Z) (x : pyval) : exn + Z :=
  match x with
  | PInt z => inr z
  | PBool b => inr (if b then 1%Z else 0%Z)
  | PFloat f => int_of_float f
  | PStr s => of_str s
  | PNone | PList _ | PDict _ => inl TypeError
  end.

(** A dict display: the entries that are there, in the order written. *)
Fixpoint entries (items : list (string * option pyval)) : list (string * pyval) :=
  match items with
  | [] => []
  | (key, Some v) :: rest => (key, v) :: entries rest
  | (key, None) :: rest => entries rest
  end.

End PyText.

Section CallTool.

Context (env : Env) (tenv : TimeEnv) (xenv : TextEnv).

(** [f"{d[key]}"]. *)
Definition shown (d : pyval) (key : string) : exn + string :=
  v <-? Py.getitem d key ;;
  inr (fmt env v).

(** [f"{d['location'][key]:.4f}"]. *)
Definition shown_4f (d : pyval) (key : string) : exn + string :=
  location <-? Py.getitem d "location" ;;
  v <-? Py.getitem location key ;;
  format_4f xenv v.

(** [f"{d['location']['timezone']}"]. *)
Definition shown_timezone (d : pyval) : exn + string :=
  location <-? Py.getitem d "location" ;;
  shown location "timezone".

(** The text of the current-weather answer. *)
Definition current_weather_text (current : pyval) (location_info : string)
  : exn + string :=
  let nl := PyText.newline in
  temperature <-? shown current "temperature" ;;
  temperature_unit <-? shown current "temperature_unit" ;;
  apparent_temperature <-? shown current "apparent_temperature" ;;
  temperature_unit' <-? shown current "temperature_unit" ;;
  weather_description <-? shown current "weather_description" ;;
  relative_humidity <-? shown current "relative_humidity" ;;
  humidity_unit <-? shown current "humidity_unit" ;;
  cloud_cover <-? shown current "cloud_cover" ;;
  cloud_cover_unit <-? shown current "cloud_cover_unit" ;;
  pressure <-? shown current "pressure" ;;
  pressure_unit <-? shown current "pressure_unit" ;;
  wind_speed <-? shown current "wind_speed" ;;
  wind_speed_unit <-? shown current "wind_speed_unit" ;;
  wind_direction <-? shown current "wind_direction" ;;
  precipitation <-? shown current "precipitation" ;;
  precipitation_unit <-? shown current "precipitation_unit" ;;
  rain <-? shown current "rain" ;;
  precipitation_unit' <-? shown current "precipitation_unit" ;;
  snowfall <-? shown current "snowfall" ;;
  precipitation_unit'' <-? shown current "precipitation_unit" ;;
  latitude <-? shown_4f current "latitude" ;;
  longitude <-? shown_4f current "longitude" ;;
  timezone <-? shown_timezone current ;;
  timestamp <-? shown current "timestamp" ;;
  inr ("# Current Weather - " +++ location_info +++ nl +++ nl
       +++ "**Temperature**: " +++ temperature +++ temperature_unit
       +++ " (Feels like " +++ apparent_temperature +++ temperature_unit' +++ ")"
       +++ nl
       +++ "**Conditions**: " +++ weather_description +++ nl
       +++ "**Humidity**: " +++ relative_humidity +++ humidity_unit +++ nl
       +++ "**Cloud Cover**: " +++ cloud_cover +++ cloud_cover_unit +++ nl
       +++ "**Pressure**: " +++ pressure +++ pressure_unit +++ nl
       +++ "**Wind**: " +++ wind_speed +++ wind_speed_unit +++ " from "
       +++ wind_direction +++ PyText.degree +++ " direction" +++ nl
       +++ "**Precipitation**: " +++ precipitation +++ precipitation_unit +++ nl
       +++ "**Rain**: " +++ rain +++ precipitation_unit' +++ nl
       +++ "**Snowfall**: " +++ snowfall +++ precipitation_unit'' +++ nl +++ nl
       +++ "*Location*: " +++ latitude +++ ", " +++ longitude +++ nl
       +++ "*Timezone*: " +++ timezone +++ nl
       +++ "*Last Updated*: " +++ timestamp).

(** [f"{day[key][11:]}"]. *)
Definition shown_from_11 (day : pyval) (key : string) : exn + string :=
  v <-? Py.getitem day key ;;
  tail <-? PyText.slice_from (slice_of_dict xenv) 11 v ;;
  inr (fmt env tail).

(** What one iteration of the forecast loop adds to [text]. *)
Definition forecast_day_text (day : pyval) : exn + string :=
  let nl := PyText.newline in
  date <-? shown day "date" ;;
  weather_description <-? shown day "weather_description" ;;
  temperature_min <-? shown day "temperature_min" ;;
  temperature_max <-? shown day "temperature_max" ;;
  temperature_unit <-? shown day "temperature_unit" ;;
  apparent_min <-? shown day "apparent_temperature_min" ;;
  apparent_max <-? shown day "apparent_temperature_max" ;;
  temperature_unit' <-? shown day "temperature_unit" ;;
  precipitation_sum <-? shown day "precipitation_sum" ;;
  precipitation_unit <-? shown day "precipitation_unit" ;;
  probability <-? Py.getitem day "precipitation_probability" ;;
  chance <-? (if Py.truthy probability
              then p <-? shown day "precipitation_probability" ;;
                   inr (" (" +++ p +++ "% chance)")
              else inr EmptyString) ;;
  wind_speed_max <-? shown day "wind_speed_max" ;;
  wind_speed_unit <-? shown day "wind_speed_unit" ;;
  wind_gusts_max <-? shown day "wind_gusts_max" ;;
  wind_speed_unit' <-? shown day "wind_speed_unit" ;;
  sunrise <-? shown_from_11 day "sunrise" ;;
  sunset <-? shown_from_11 day "sunset" ;;
  inr ("## " +++ date +++ nl
       +++ "**Conditions**: " +++ weather_description +++ nl
       +++ "**Temperature**: " +++ temperature_min +++ " to " +++ temperature_max
       +++ temperature_unit +++ nl
       +++ "**Feels like**: " +++ apparent_min +++ " to " +++ apparent_max
       +++ temperature_unit' +++ nl
       +++ "**Precipitation**: " +++ precipitation_sum +++ precipitation_unit
       +++ chance
       +++ nl +++ "**Wind**: Up to " +++ wind_speed_max +++ wind_speed_unit
       +++ " with gusts to " +++ wind_gusts_max +++ wind_speed_unit' +++ nl
       +++ "**Sunrise**: " +++ sunrise +++ " | **Sunset**: " +++ sunset
       +++ nl +++ nl).

(** The forecast loop: [text] after the days still to do. *)
Fixpoint forecast_days_text (text : string) (days : list pyval) : exn + string :=
  match days with
  | [] => inr text
  | day :: rest =>
      added <-? forecast_day_text day ;;
      forecast_days_text (text +++ added) rest
  end.

(** The text of the forecast answer. *)
Definition forecast_text (forecast_data : pyval) (days : Z)
    (location_info : string) : exn + string :=
  let nl := PyText.newline in
  let text := "# " +++ PyMore.str_of_int days +++ "-Day Weather Forecast - "
              +++ location_info +++ nl +++ nl in
  forecast <-? Py.getitem forecast_data "forecast" ;;
  entries <-? PyText.iterate forecast ;;
  text <-? forecast_days_text text entries ;;
  latitude <-? shown_4f forecast_data "latitude" ;;
  longitude <-? shown_4f forecast_data "longitude" ;;
  timezone <-? shown_timezone forecast_data ;;
  inr (text +++ "*Location*: " +++ latitude +++ ", " +++ longitude +++ nl
       +++ "*Timezone*: " +++ timezone).

(** [min(max(int(arguments.get('days', 3)), 1), 7)]. *)
Definition forecast_day_count (days : option pyval) : exn + Z :=
  asked <-? match days with
            | Some x => PyText.int (int_of_str xenv) x
            | None => inr 3%Z
            end ;;
  inr (Z.min (Z.max asked 1) 7).

(** The text of the time answer. *)
Definition time_text (time_data : TimeData.t) : string :=
  let nl := PyText.newline in
  "# Current Time" +++ nl +++ nl
  +++ capitalize xenv (TimeData.spoken_time time_data) +++ nl +++ nl
  +++ "*Detailed Information:*" +++ nl
  +++ "- **Location**: " +++ fmt env (TimeData.location time_data) +++ nl
  +++ "- **Timezone**: " +++ fmt env (TimeData.timezone time_data) +++ nl
  +++ "- **ISO Time**: " +++ TimeData.iso_time time_data +++ nl
  +++ "- **Date**: " +++ PyMore.str_of_int (TimeData.month time_data) +++ "/"
  +++ PyMore.str_of_int (TimeData.day time_data) +++ "/"
  +++ PyMore.str_of_int (TimeData.year time_data) +++ nl
  +++ "- **Time**: " +++ PyText.format_02d (TimeData.hour time_data) +++ ":"
  +++ PyText.format_02d (TimeData.minute time_data).

(** An [Optional[Dict]] result as the Python value it is. *)
Definition returned (c : M (option pyval)) : M pyval :=
  r <- c ;;
  ret match r with
      | Some v => v
      | None => PNone
      end.

(** The [arguments] dict as the first log line shows it: the keys that have
    a value, in the order of the tools' schema. *)
Definition arguments_dict (arguments : ToolArgs.t) : pyval :=
  let location := ToolArgs.location arguments in
  PDict (PyText.entries
           [("location_name", option_map PStr (Args.location_name location));
            ("latitude", option_map of_number (Args.latitude location));
            ("longitude", option_map of_number (Args.longitude location));
            ("days", ToolArgs.days arguments);
            ("client_ip", option_map PStr (Args.client_ip location))]).

(** The [try] body of the branch [get_current_weather]. *)
Definition current_weather_tool (arguments : ToolArgs.t) : MX string :=
  coordinates <-! get_coordinates env (ToolArgs.location arguments) ;;
  let '(latitude, longitude, location_info) := coordinates in
  liftM (log INFO "Fetching current weather for %s" [LVal (PStr location_info)]) ;;!
  weather_data <-! liftM (returned (get_current_weather env latitude longitude)) ;;
  if negb (Py.truthy weather_data) then
    liftM (log ERROR "Failed to fetch current weather data" []) ;;!
    retX "Error: Failed to fetch weather data"
  else
    let current := weather_data in
    text <-! liftE (current_weather_text current location_info) ;;
    liftM (log INFO "Successfully returned current weather data" []) ;;!
    retX text.

(** The [try] body of the branch [get_weather_forecast]. *)
Definition forecast_tool (arguments : ToolArgs.t) : MX string :=
  coordinates <-! get_coordinates env (ToolArgs.location arguments) ;;
  let '(latitude, longitude, location_info) := coordinates in
  days <-! liftE (forecast_day_count (ToolArgs.days arguments)) ;;
  liftM (log INFO "Fetching %s-day forecast for %s"
           [LVal (PInt days); LVal (PStr location_info)]) ;;!
  forecast_data <-! liftM (returned (get_forecast env latitude longitude days)) ;;
  if negb (Py.truthy forecast_data) then
    liftM (log ERROR "Failed to fetch forecast data" []) ;;!
    retX "Error: Failed to fetch forecast data"
  else
    text <-! liftE (forecast_text forecast_data days location_info) ;;
    liftM (log INFO "Successfully returned %s-day forecast data"
             [LVal (PInt days)]) ;;!
    retX text.

(** The [try] body of the branch [get_current_time]. *)
Definition current_time_tool (arguments : ToolArgs.t) : MX string :=
  let location_name := Args.location_name (ToolArgs.location arguments) in
  let client_ip := Args.client_ip (ToolArgs.location arguments) in
  liftM (log INFO "Getting current time for location: %s, IP: %s"
           [LVal (of_optional location_name); LVal (of_optional client_ip)]) ;;!
  time_data <-! get_current_time_for_location env tenv location_name client_ip "en" ;;
  liftM (log INFO "Successfully returned current time data" []) ;;!
  retX (time_text time_data).

(** A branch of [call_tool] with its [except Exception as e] clause. *)
Definition reporting (what : string) (body : MX string) : M string :=
  r <- body ;;
  match r with
  | inr text => ret text
  | inl e =>
      log ERROR ("Error getting " +++ what +++ ": %s") [LExc e] ;;
      ret ("Error getting " +++ what +++ ": " +++ str_exn xenv e)
  end.

(** [call_tool]: the text of the one [TextContent] it returns. *)
Definition call_tool (name : string) (arguments : ToolArgs.t) : M string :=
  log INFO "Tool call received - name: %s, arguments: %s"
    [LVal (PStr name); LVal (arguments_dict arguments)] ;;
  if String.eqb name "get_current_weather" then
    reporting "current weather" (current_weather_tool arguments)
  else if String.eqb name "get_weather_forecast" then
    reporting "weather forecast" (forecast_tool arguments)
  else if String.eqb name "get_current_time" then
    reporting "current time" (current_time_tool arguments)
  else
    log WARNING "Unknown tool called: %s" [LVal (PStr name)] ;;
    ret ("Unknown tool: " +++ name).

End CallTool.

(* ------------------------------------------------------------------ *)
(** ** Definitions the properties are stated with *)

(** [appends c]: [c] leaves the events already recorded in place, and what
    it does and returns does not depend on them. *)
Definition appends {A : Type} (c : M A) : Prop :=
  forall tr, c tr = (fst (c []), tr ++ snd (c [])).

(** The first value obtained from a list of answers, [None] when every
    answer is an exception. *)
Fixpoint first_obtained (answers : list (exn + pyval)) : pyval :=
  match answers with
  | [] => PNone
  | inr ip :: _ => ip
  | inl _ :: rest => first_obtained rest
  end.

(** A JSON body that is an object without the key [ip], answered with a
    2xx status. *)
Definition lacks_address (r : response) : Prop :=
  is_success r = true /\ exists d, json r = Some (PDict d) /\ Py.assoc "ip" d = None.

(** A JSON number that is neither NaN nor infinite. *)
Definition finite_number (v : pyval) : bool :=
  match v with
  | PInt _ => true
  | PFloat (S754_zero _) => true
  | PFloat (S754_finite _ _ _) => true
  | _ => false
  end.

(** The three outcomes the specification gives the classifier. *)
Inductive classification : Type := Private | Public | Invalid.

(** The classifier as the specification words it: [Invalid] for a string
    that does not parse, [Private] or [Public] for one that does. *)
Definition spec_classify (env : Env) (ip : string) : classification :=
  match ip_is_private env ip with
  | Some true => Private
  | Some false => Public
  | None => Invalid
  end.

(** [location_name.split(',')[0].strip()]: what is before the first comma,
    trimmed. *)
Definition before_comma (location_name : string) : string :=
  PyStr.strip (hd EmptyString (PyStr.split PyStr.comma location_name)).

Section Attempts.

Context (env : Env).

(** The request [get_public_ip] sends to a service. *)
Definition public_ip_request (service_url : string) : request :=
  mkRequest service_url [] 5.

(** The value one service of [get_public_ip] yields, or the exception its
    [try] block ends with. *)
Definition public_ip_answer (service_url : string) : exn + pyval :=
  match http_get env (public_ip_request service_url) with
  | HttpRaise e => inl e
  | HttpResponse response =>
      _ <-? raise_for_status response ;;
      if PyStr.contains "ipify" service_url || PyStr.contains "ipinfo" service_url
      then data <-? response_json response ;; Py.get data "ip" PNone
      else inr (PStr (PyStr.strip (text response)))
  end.

(** The request the provider loop sends to a service. *)
Definition provider_request (ip_address : pyval) (service_url : string) : request :=
  mkRequest (provider_url env service_url ip_address) [] 10.

(** The [location] one provider yields (validated or not), or the
    exception its [try] block ends with. *)
Definition provider_answer (ip_address : pyval) (service_url : string)
    (location : option IpLoc.t) : exn + IpLoc.t :=
  match http_get env (provider_request ip_address service_url) with
  | HttpRaise e => inl e
  | HttpResponse response =>
      _ <-? raise_for_status response ;;
      data <-? response_json response ;;
      parsed <-? parse_location env service_url ip_address data ;;
      match parsed, location with
      | Some l, _ => inr l
      | None, Some l => inr l
      | None, None => inl UnboundLocalError
      end
  end.

(** The events of one iteration of the provider loop, up to the end of its
    [try] block. *)
Definition geo_try_events (ip_address : pyval) (service_url : string)
    (location : option IpLoc.t) : trace :=
  [EvLog DEBUG "Trying geolocation service: %s"
     [LVal (PStr (provider_url env service_url ip_address))];
   EvGet (provider_request ip_address service_url)]
  ++ match provider_answer ip_address service_url location with
     | inr l =>
         if has_coordinates l
         then [EvLog INFO "Successfully got location from %s: %s, %s (%s, %s)"
                 [LVal (PStr service_url); LVal (IpLoc.city l);
                  LVal (IpLoc.country l); LVal (IpLoc.latitude l);
                  LVal (IpLoc.longitude l)]]
         else [EvLog WARNING "No coordinates from %s" [LVal (PStr service_url)]]
     | inl _ => []
     end.

(** The request one query sends. *)
Definition geocoding_request (location_name : string) : request :=
  mkRequest geocoding_url (geocoding_params location_name) 10.

(** What one query yields: the first match, [None] for no results, or the
    exception the [try] block ends with. *)
Definition geocode_answer (location_name : string) : exn + option Place.t :=
  match http_get env (geocoding_request location_name) with
  | HttpRaise e => inl e
  | HttpResponse response =>
      _ <-? raise_for_status response ;;
      data <-? response_json response ;;
      found <-? has_results data ;;
      if found : bool
      then location_data <-? first_result data ;; inr (Some location_data)
      else inr None
  end.

(** The events of one query, up to the end of what [geocode_try]
    covers. *)
Definition geocode_try_events (location_name : string) : trace :=
  [EvLog DEBUG "Calling Open-Meteo geocoding API with params: %s"
     [LVal (PDict (geocoding_params location_name))];
   EvGet (geocoding_request location_name)]
  ++ match geocode_answer location_name with
     | inr (Some location_data) =>
         [EvLog INFO "Found location: %s, %s (%s, %s)"
            [LVal (Place.name location_data); LVal (Place.country location_data);
             LVal (Place.latitude location_data);
             LVal (Place.longitude location_data)]]
     | inr None =>
         [EvLog WARNING "No results found for location: %s"
            [LVal (PStr location_name)]]
     | inl _ => []
     end.

(** The body of [get_geolocation_from_name], with the recursive call in
    place. *)
Definition geocoder_body (location_name : string) : M (option Place.t) :=
  log INFO "Geocoding location name: %s" [LVal (PStr location_name)] ;;
  r <- geocode_try env location_name ;;
  match r with
  | inr (Some location_data) => ret (Some location_data)
  | inr None =>
      match simpler_query location_name with
      | Some simple_name =>
          log INFO "Trying simpler query: %s" [LVal (PStr simple_name)] ;;
          get_geolocation_from_name env simple_name
      | None => ret None
      end
  | inl e =>
      log ERROR "Error geocoding location name '%s': %s"
        [LVal (PStr location_name); LExc e] ;;
      ret None
  end.

(** The first log record of [get_coordinates]. *)
Definition arguments_logged (arguments : Args.t) : event :=
  EvLog INFO
    "Getting coordinates - location_name: %s, latitude: %s, longitude: %s, client_ip: %s"
    [LVal (of_optional (Args.location_name arguments));
     LVal (of_optional_number (Args.latitude arguments));
     LVal (of_optional_number (Args.longitude arguments));
     LVal (of_optional (Args.client_ip arguments))].

(** The tiers below the explicit coordinates. *)
Definition lower_tiers (arguments : Args.t) : MX (origin * resolved) :=
  match given_name (Args.location_name arguments) with
  | Some name => place_name_tier env name
  | None => ip_tier env (Args.client_ip arguments)
  end.

End Attempts.

(** The services up to and including the first that answers without
    raising. *)
Fixpoint tried (env : Env) (services : list string) : list string :=
  match services with
  | [] => []
  | s :: rest =>
      s :: match public_ip_answer env s with
           | inr _ => []
           | inl _ => tried env rest
           end
  end.

(** The input of [get_geolocation_from_ip] is absent ([None] or the empty
    string) or classified private. *)
Definition private_or_absent (env : Env) (ip : option string) : Prop :=
  match ip with
  | None => True
  | Some s => s = EmptyString \/ ip_is_private env s = Some true
  end.

(** The address the provider loop works with after the public address was
    looked up: the value found, or [None] when nothing usable was found. *)
Definition discovered_address (env : Env) : pyval :=
  let public_ip := first_obtained (map (public_ip_answer env) public_ip_services) in
  if Py.truthy public_ip then public_ip else PNone.

(** The first and the last character of a string. *)
Definition first_char (s : string) : option ascii :=
  match s with
  | EmptyString => None
  | String c _ => Some c
  end.

Fixpoint last_char (s : string) : option ascii :=
  match s with
  | EmptyString => None
  | String c EmptyString => Some c
  | String _ rest => last_char rest
  end.

(** Neither the first nor the last character is white space. *)
Definition trimmed (s : string) : Prop :=
  (forall c, first_char s = Some c -> PyStr.is_space c = false)
  /\ (forall c, last_char s = Some c -> PyStr.is_space c = false).

(** Every character is white space ([True] for the empty string). *)
Fixpoint all_space (s : string) : bool :=
  match s with
  | EmptyString => true
  | String c rest => PyStr.is_space c && all_space rest
  end.

Section LegacyAttempts.

Context (env : Env).

(** Whether [get_geolocation_from_ip] of geolocation.py looks the public
    address up: the input is absent, empty or private. *)
Definition legacy_needs_public (ip : option string) : bool :=
  match ip with
  | None => true
  | Some s =>
      if String.eqb s EmptyString then true
      else match ip_is_private env s with
           | Some b => b
           | None => false
           end
  end.

(** What ifconfig.io yields, or the exception the [try] block ends
    with. *)
Definition legacy_public_ip_answer : exn + pyval :=
  match http_get env (mkRequest Legacy.ifconfig_url [] 10) with
  | HttpRaise e => inl e
  | HttpResponse response =>
      _ <-? raise_for_status response ;;
      data <-? response_json response ;;
      Py.get data "ip" PNone
  end.

(** The address ([target_ip]) ipapi.co is asked about. *)
Definition legacy_target (ip : option string) : pyval :=
  if legacy_needs_public ip then
    match legacy_public_ip_answer with
    | inr public_ip => if Py.truthy public_ip then public_ip else PNone
    | inl _ => PNone
    end
  else of_optional ip.

(** The URL ipapi.co is asked at. *)
Definition legacy_url (target_ip : pyval) : string :=
  if Py.truthy target_ip
  then "http://ipapi.co/" +++ fmt env target_ip +++ "/json/"
  else Legacy.ipapi_url.

(** The one request of the geocoder of geolocation.py. *)
Definition legacy_geocoding_request (location_name : string) : request :=
  mkRequest geocoding_url (LegacyGeocoder.params location_name) 10.

End LegacyAttempts.

(** The suffix of an English ordinal: "th" for the teens, otherwise by the
    last digit. *)
Definition english_ordinal_suffix (n : Z) : string :=
  if (11 <=? n mod 100)%Z && (n mod 100 <=? 13)%Z then "th"
  else if (n mod 10 =? 1)%Z then "st"
  else if (n mod 10 =? 2)%Z then "nd"
  else if (n mod 10 =? 3)%Z then "rd"
  else "th".

(** The series [_format_forecast] subscripts without a default. *)
Definition required_series : list string :=
  [ "time"; "weather_code"; "temperature_2m_max"; "temperature_2m_min";
    "apparent_temperature_max"; "apparent_temperature_min"; "sunrise"; "sunset";
    "precipitation_sum"; "wind_speed_10m_max"; "wind_gusts_10m_max" ].

(** The keys of the dict [_format_current_weather] returns. *)
Definition current_weather_keys : list string :=
  [ "timestamp"; "temperature"; "temperature_unit"; "apparent_temperature";
    "relative_humidity"; "humidity_unit"; "weather_code"; "weather_description";
    "is_day"; "precipitation"; "precipitation_unit"; "rain"; "snowfall";
    "cloud_cover"; "cloud_cover_unit"; "pressure"; "pressure_unit"; "wind_speed";
    "wind_speed_unit"; "wind_direction"; "wind_gusts"; "location" ].

Section WeatherAttempts.

Context (env : Env).

(** The request of [get_forecast] and of [get_current_weather]. *)
Definition forecast_request (latitude longitude : pyval) (days : Z) : request :=
  mkRequest (base_url +++ "/forecast") (forecast_params latitude longitude days) 10.

Definition current_weather_request (latitude longitude : pyval) : request :=
  mkRequest (base_url +++ "/forecast") (current_weather_params latitude longitude) 10.

(** The JSON value a request is answered with, or the exception the
    [try] block ends with before formatting. *)
Definition weather_answer (rq : request) : exn + pyval :=
  match http_get env rq with
  | HttpRaise e => inl e
  | HttpResponse response =>
      _ <-? raise_for_status response ;;
      response_json response
  end.

End WeatherAttempts.

(* ------------------------------------------------------------------ *)
(** ** Concrete environments for examples *)

Module Sample.

(** Dotted-quad IPv4 text, as [ipaddress.IPv4Address] reads it: four
    decimal fields of one to three digits, no leading zero, each at most
    255. *)
Definition digit_of (c : ascii) : option nat :=
  let n := nat_of_ascii c in
  if Nat.leb 48 n && Nat.leb n 57 then Some (n - 48) else None.

Fixpoint decimal_from (acc : nat) (s : string) : option nat :=
  match s with
  | EmptyString => Some acc
  | String c rest =>
      match digit_of c with
      | Some d => decimal_from (10 * acc + d) rest
      | None => None
      end
  end.

Definition octet (s : string) : option nat :=
  match s with
  | EmptyString => None
  | String c rest =>
      if Nat.ltb 3 (String.length s) then None
      else if Ascii.eqb c "0"%char && negb (String.eqb rest EmptyString) then None
      else match decimal_from 0 s with
           | Some n => if Nat.leb n 255 then Some n else None
           | None => None
           end
  end.

Definition ipv4 (s : string) : option (nat * nat * nat * nat) :=
  match List.map octet (PyStr.split "."%char s) with
  | [Some a; Some b; Some c; Some d] => Some (a, b, c, d)
  | _ => None
  end.

(** Private ranges on which the versions of [ipaddress] agree: 10/8,
    172.16/12, 192.168/16, loopback 127/8, link-local 169.254/16, and
    0/8. *)
Definition ipv4_is_private (a : nat * nat * nat * nat) : bool :=
  let '(a, b, _, _) := a in
  Nat.eqb a 10 || Nat.eqb a 127 || Nat.eqb a 0
  || (Nat.eqb a 172 && Nat.leb 16 b && Nat.leb b 31)
  || (Nat.eqb a 192 && Nat.eqb b 168)
  || (Nat.eqb a 169 && Nat.eqb b 254).

Definition ip_is_private (s : string) : option bool :=
  option_map ipv4_is_private (ipv4 s).

(** An environment in which every request times out. *)
Definition offline : Env :=
  mkEnv (fun _ => HttpRaise (TransportError "timed out"))
        ip_is_private (fun _ => None) (fun _ => "?").

End Sample.

Module PublicIpExample.

Definition newline : string := String (ascii_of_nat 10) EmptyString.

(** api.ipify.org answers 200 with the JSON object [{}]; the text services
    answer 200 with an address and a newline. *)
Definition env : Env :=
  mkEnv (fun rq =>
           if PyStr.contains "ipify" (url rq)
           then HttpResponse (mkResponse 200 "{}" (Some (PDict [])))
           else HttpResponse (mkResponse 200 ("203.0.113.7" +++ newline) None))
        Sample.ip_is_private (fun _ => None) (fun _ => "?").

End PublicIpExample.

Module DiscoveryExample.

(** api.ipify.org answers 200 with the JSON object [{"ip": found}]; every
    other request times out. *)
Definition env (found : string) : Env :=
  mkEnv (fun rq =>
           if PyStr.contains "ipify" (url rq)
           then HttpResponse
                  (mkResponse 200 "{...}" (Some (PDict [("ip", PStr found)])))
           else HttpRaise (TransportError "timed out"))
        Sample.ip_is_private (fun _ => None) (fun _ => "?").

End DiscoveryExample.

Module NanExample.

(** Every service answers 200 with the JSON object
    [{"latitude": NaN, "longitude": NaN}], which [json.loads] reads. *)
Definition env : Env :=
  mkEnv (fun _ =>
           HttpResponse
             (mkResponse 200 "{}"
                (Some (PDict [("latitude", PFloat S754_nan);
                              ("longitude", PFloat S754_nan)]))))
        Sample.ip_is_private (fun _ => None) (fun _ => "?").

End NanExample.

Module SpringfieldExample.

Definition springfield : pyval :=
  PDict [("name", PStr "Springfield"); ("country", PStr "United States");
         ("latitude", PFloat (S754_finite false 5602085648138863 (-47)));
         ("longitude", PFloat (S754_finite true 6309545280376177 (-46)));
         ("timezone", PStr "America/Chicago"); ("admin1", PStr "Illinois")].

(** The geocoding service knows the name "Springfield" and no other. *)
Definition env : Env :=
  mkEnv (fun rq =>
           match Py.assoc "name" (params rq) with
           | Some (PStr "Springfield") =>
               HttpResponse
                 (mkResponse 200 "{...}" (Some (PDict [("results", PList [springfield])])))
           | _ =>
               HttpResponse
                 (mkResponse 200 "{...}" (Some (PDict [("generationtime_ms", PInt 1)])))
           end)
        Sample.ip_is_private (fun _ => None) (fun _ => "?").

End SpringfieldExample.

Module ChainExample.

Definition mountain_view_latitude : spec_float :=
  S754_finite false 5264370194424057 (-47).
Definition mountain_view_longitude : spec_float :=
  S754_finite true 8590440367348777 (-46).

(** ipapi.co answers an object whose coordinates are null (as it does for
    an error payload); ipinfo.io answers with a [loc] field; every other
    request times out. *)
Definition env : Env :=
  mkEnv (fun rq =>
           if PyStr.contains "ipapi.co" (url rq) then
             HttpResponse
               (mkResponse 200 "{...}"
                  (Some (PDict [("error", PBool true);
                                ("reason", PStr "RateLimited")])))
           else if PyStr.contains "ipinfo.io" (url rq) then
             HttpResponse
               (mkResponse 200 "{...}"
                  (Some (PDict [("ip", PStr "8.8.8.8");
                                ("city", PStr "Mountain View");
                                ("region", PStr "California");
                                ("country", PStr "US");
                                ("loc", PStr "37.4056,-122.0775")])))
           else HttpRaise (TransportError "timed out"))
        Sample.ip_is_private
        (fun s => if String.eqb s "37.4056" then Some mountain_view_latitude
                  else if String.eqb s "-122.0775" then Some mountain_view_longitude
                  else None)
        (fun _ => "?").

Definition mountain_view : IpLoc.t :=
  IpLoc.mk (PStr "Mountain View") (PStr "California") (PStr "US")
    (PFloat mountain_view_latitude) (PFloat mountain_view_longitude)
    (PStr "8.8.8.8").

End ChainExample.

Module BareResultExample.

(** The geocoding service answers one result that has a name and nothing
    else. *)
Definition env : Env :=
  mkEnv (fun _ =>
           HttpResponse
             (mkResponse 200 "{...}"
                (Some (PDict [("results", PList [PDict [("name", PStr "Atlantis")]])]))))
        Sample.ip_is_private (fun _ => None) (fun _ => "?").

Definition atlantis : Place.t :=
  Place.mk (PStr "Atlantis") PNone PNone PNone PNone (PStr EmptyString).

End BareResultExample.

Module TimeExample.

(** A clock that shows 2024-03-09 14:05 in every zone, English words for
    the numbers the examples need, no ordinal words, and a [pytz] that
    knows "UTC" and "America/Chicago". *)
Definition words (n : Z) : string :=
  match n with
  | 2%Z => "two"
  | 5%Z => "five"
  | 12%Z => "twelve"
  | _ => PyMore.str_of_int n
  end.

Definition tenv : TimeEnv :=
  mkTimeEnv (fun _ => None)
            (fun n _ => inr (words n))
            (fun v => match v with
                      | PStr "UTC" => Some "UTC"
                      | PStr "America/Chicago" => Some "America/Chicago"
                      | _ => None
                      end)
            (fun zone => mkDatetime 2024 3 9 14 5 "2024-03-09T14:05:00").

End TimeExample.

Module TimeRuns.

(** What the time tool answers in [ChainExample] (located by IP in
    Mountain View) and in [SpringfieldExample] (asked for "Springfield"),
    with the clock of [TimeExample]. *)
Definition by_ip : TimeData.t :=
  TimeData.mk "the current time is two oh five pm March 9th in Mountain View, US"
    (PStr "Mountain View, US") (PStr "UTC") "2024-03-09T14:05:00" 14 5 3 9 2024.

Definition by_name : TimeData.t :=
  TimeData.mk
    "the current time is two oh five pm March 9th in Unknown, United States"
    (PStr "Unknown, United States") (PStr "America/Chicago")
    "2024-03-09T14:05:00" 14 5 3 9 2024.

End TimeRuns.

Module WeatherExample.

Definition two_days (weather_code : pyval) : pyval :=
  PDict [("latitude", PFloat default_latitude);
         ("longitude", PFloat default_longitude);
         ("timezone", PStr "America/New_York");
         ("daily_units", PDict [("temperature_2m_max", PStr "C")]);
         ("daily",
          PDict [("time", PList [PStr "2024-03-09"; PStr "2024-03-10"]);
                 ("weather_code", weather_code);
                 ("temperature_2m_max", PList [PInt 12; PInt 9]);
                 ("temperature_2m_min", PList [PInt 3; PInt 1]);
                 ("apparent_temperature_max", PList [PInt 10; PInt 7]);
                 ("apparent_temperature_min", PList [PInt 0; PInt (-2)]);
                 ("sunrise", PList [PStr "2024-03-09T06:15"; PStr "2024-03-10T07:13"]);
                 ("sunset", PList [PStr "2024-03-09T17:56"; PStr "2024-03-10T18:57"]);
                 ("precipitation_sum", PList [PInt 0; PInt 4]);
                 ("precipitation_probability_max", PList [PInt 5; PInt 80]);
                 ("wind_speed_10m_max", PList [PInt 14; PInt 22]);
                 ("wind_gusts_10m_max", PList [PInt 30; PInt 41])])].

(** A two-day answer, and one whose [weather_code] series stops after the
    first day. *)
Definition forecast_data : pyval := two_days (PList [PInt 3; PInt 61]).
Definition short_data : pyval := two_days (PList [PInt 3]).

Definition current_data : pyval :=
  PDict [("latitude", PFloat default_latitude);
         ("longitude", PFloat default_longitude);
         ("timezone", PStr "America/New_York");
         ("current_units", PDict [("temperature_2m", PStr "C")]);
         ("current",
          PDict [("time", PStr "2024-03-09T14:00"); ("temperature_2m", PInt 11);
                 ("apparent_temperature", PInt 9);
                 ("relative_humidity_2m", PInt 60); ("weather_code", PInt 3);
                 ("is_day", PInt 1); ("precipitation", PInt 0); ("rain", PInt 0);
                 ("snowfall", PInt 0); ("cloud_cover", PInt 90);
                 ("pressure_msl", PInt 1013); ("wind_speed_10m", PInt 14);
                 ("wind_direction_10m", PInt 270); ("wind_gusts_10m", PInt 30)])].

(** The weather service answers a forecast request with [forecast_data]
    and a current-weather request with [current_data]; every other request
    times out. *)
Definition env : Env :=
  mkEnv (fun rq =>
           if negb (String.eqb (url rq) "https://api.open-meteo.com/v1/forecast")
           then HttpRaise (TransportError "timed out")
           else match Py.assoc "daily" (params rq) with
                | Some _ => HttpResponse (mkResponse 200 "{...}" (Some forecast_data))
                | None => HttpResponse (mkResponse 200 "{...}" (Some current_data))
                end)
        Sample.ip_is_private (fun _ => None)
        (fun v => match v with
                  | PInt z => PyMore.str_of_int z
                  | _ => "?"
                  end).

End WeatherExample.


Module TextExample.

(** Python's texts where the examples need them: [str(e)] of a
    [ValueError] is its message; nothing is formatted or parsed. *)
Definition xenv : TextEnv :=
  mkTextEnv (fun _ => inl TypeError)
            (fun e => match e with
                      | ValueError msg => msg
                      | _ => "error"
                      end)
            (fun s => s)
            (fun _ => inl (ValueError "invalid literal for int()"))
            TypeError.

End TextExample.
(* ------------------------------------------------------------------ *)
(** ** Proof automation *)

(** Runs the monad's operations in the goal. *)
Ltac run_monad :=
  cbv beta iota zeta
    delta [bindX bind liftM liftE retX raise ret log client_get];
  cbn [fst snd].

(** Case analysis on the innermost stuck scrutinee of the goal. *)
Ltac innermost c :=
  lazymatch c with
  | context [match ?d with _ => _ end] => innermost d
  | _ => destruct c eqn:?
  end.

Ltac case_step :=
  match goal with
  | |- context [match ?d with _ => _ end] => innermost d
  end.

(** Closes an equation between results whose traces differ by the
    bracketing of their appends. *)
Ltac close_trace :=
  rewrite <- ?app_assoc, ?app_nil_r; cbn [app]; reflexivity.


(* ------------------------------------------------------------------ *)
(** ** Computations only append to the trace *)

Lemma appends_ret {A : Type} (a : A) : appends (ret a).
Proof. intros tr. unfold ret. cbn. now rewrite app_nil_r. Qed.

Lemma appends_log (lvl : level) (f : string) (args : list logarg) :
  appends (log lvl f args).
Proof. intros tr. reflexivity. Qed.

Lemma appends_bind {A B : Type} (c : M A) (k : A -> M B) :
  appends c -> (forall a, appends (k a)) -> appends (bind c k).
Proof.
  intros Hc Hk tr. unfold bind.
  rewrite (Hc tr). destruct (c []) as [a t0]. cbn [fst snd].
  rewrite (Hk a (tr ++ t0)), (Hk a t0). cbn [fst snd].
  now rewrite app_assoc.
Qed.

Lemma appends_bindX {A B : Type} (c : MX A) (k : A -> MX B) :
  appends c -> (forall a, appends (k a)) -> appends (bindX c k).
Proof.
  intros Hc Hk. unfold bindX. apply appends_bind; [exact Hc|].
  intros [e|a]; [apply appends_ret | apply Hk].
Qed.

Lemma appends_liftM {A : Type} (c : M A) : appends c -> appends (liftM c).
Proof.
  intros Hc. unfold liftM. apply appends_bind; [exact Hc|].
  intros a. apply appends_ret.
Qed.

Lemma appends_liftE {A : Type} (r : exn + A) : appends (liftE r).
Proof. apply appends_ret. Qed.

Lemma appends_client_get (env : Env) (u : string) (ps : list (string * pyval))
    (t : Z) : appends (client_get env u ps t).
Proof. intros tr. reflexivity. Qed.

Lemma appends_ext {A : Type} (c c' : M A) :
  (forall tr, c tr = c' tr) -> appends c' -> appends c.
Proof. intros E H tr. now rewrite !E. Qed.

(** Decomposes a computation built from the monad's operations. *)
Ltac appends_step :=
  first
    [ apply appends_ret
    | apply appends_log
    | apply appends_client_get
    | apply appends_liftE
    | apply appends_liftM
    | apply appends_bindX
    | apply appends_bind
    | progress intros
    | match goal with
      | |- appends (match ?x with _ => _ end) => destruct x
      | |- appends (let _ := _ in _) => cbv zeta
      end ].

Ltac solve_appends := repeat appends_step.

Section Frame.

Context (env : Env).

Lemma appends_is_private_ip (ip : string) : appends (is_private_ip env ip).
Proof. unfold is_private_ip. solve_appends. Qed.

Lemma appends_public_ip_try (service_url : string) :
  appends (public_ip_try env service_url).
Proof. unfold public_ip_try, retX. solve_appends. Qed.

Lemma appends_public_ip_loop (services : list string) :
  appends (public_ip_loop env services).
Proof.
  induction services as [|s rest IH]; cbn [public_ip_loop].
  - solve_appends.
  - apply appends_bind; [apply appends_public_ip_try|].
    intros [e|ip]; [|apply appends_ret].
    apply appends_bind; [apply appends_log | intros _; exact IH].
Qed.

Lemma appends_get_public_ip : appends (get_public_ip env).
Proof.
  unfold get_public_ip. apply appends_bind; [apply appends_log|].
  intros _. apply appends_public_ip_loop.
Qed.

Lemma appends_geo_try (ip_address : pyval) (service_url : string)
    (location : option IpLoc.t) :
  appends (geo_try env ip_address service_url location).
Proof. unfold geo_try, retX. solve_appends. Qed.

Lemma appends_geo_loop (ip_address : pyval) (services : list string) :
  forall location, appends (geo_loop env ip_address services location).
Proof.
  induction services as [|s rest IH]; intros location; cbn [geo_loop].
  - solve_appends.
  - apply appends_bind; [apply appends_geo_try|].
    intros [e|[l|l]]; [|apply appends_ret|apply IH].
    apply appends_bind; [apply appends_log | intros _; apply IH].
Qed.

Lemma appends_prepare_address (ip_address : option string) :
  appends (prepare_address env ip_address).
Proof.
  unfold prepare_address.
  apply appends_bind.
  - destruct ip_address as [ip|]; [|apply appends_ret].
    destruct (String.eqb ip EmptyString); [apply appends_ret|].
    apply appends_is_private_ip.
  - intros [|]; [|apply appends_ret].
    apply appends_bind; [apply appends_get_public_ip|].
    intros public_ip. solve_appends.
Qed.

Lemma appends_get_geolocation_from_ip (ip_address : option string) :
  appends (get_geolocation_from_ip env ip_address).
Proof.
  unfold get_geolocation_from_ip.
  apply appends_bind; [apply appends_log|]. intros _.
  apply appends_bind; [apply appends_prepare_address|]. intros ip.
  apply appends_geo_loop.
Qed.

Lemma appends_geocode_try (location_name : string) :
  appends (geocode_try env location_name).
Proof. unfold geocode_try, retX. solve_appends. Qed.

End Frame.

Section Geocoder.

Context (env : Env).

Lemma get_geolocation_from_name_body (location_name : string) (tr : trace) :
  get_geolocation_from_name env location_name tr = geocoder_body env location_name tr.
Proof.
  funelim (get_geolocation_from_name env location_name tr);
    unfold geocoder_body, bind, log, ret in *; cbn [snd] in *;
    rewrite Heq;
    try match goal with H : simpler_query _ = _ |- _ => rewrite H end;
    reflexivity.
Qed.

Lemma appends_get_geolocation_from_name (location_name : string) :
  appends (get_geolocation_from_name env location_name).
Proof.
  remember (String.length location_name) as n eqn:Hn.
  revert location_name Hn.
  induction n as [n IH] using lt_wf_ind. intros location_name ->.
  apply (appends_ext _ (geocoder_body env location_name));
    [apply get_geolocation_from_name_body|].
  unfold geocoder_body.
  apply appends_bind; [apply appends_log|]. intros _.
  apply appends_bind; [apply appends_geocode_try|].
  intros [e|[location_data|]]; [solve_appends|apply appends_ret|].
  destruct (simpler_query location_name) as [simple_name|] eqn:Hs;
    [|apply appends_ret].
  apply appends_bind; [apply appends_log|]. intros _.
  apply (IH (String.length simple_name)); [|reflexivity].
  now apply simpler_query_shorter.
Qed.

End Geocoder.

(* ------------------------------------------------------------------ *)
(** ** What one provider attempt yields *)

Lemma requests_app (tr1 tr2 : trace) :
  requests (tr1 ++ tr2) = requests tr1 ++ requests tr2.
Proof.
  induction tr1 as [|[rq|lvl f args|f args] rest IH]; cbn [app requests];
    [reflexivity| |exact IH|exact IH].
  now rewrite IH.
Qed.

Section AttemptFacts.

Context (env : Env).

Lemma public_ip_try_eq (service_url : string) (tr : trace) :
  public_ip_try env service_url tr =
  (public_ip_answer env service_url,
   tr ++ [EvLog DEBUG "Trying public IP service: %s" [LVal (PStr service_url)];
          EvGet (public_ip_request service_url)]
      ++ match public_ip_answer env service_url with
         | inr ip => [EvLog INFO "Successfully obtained public IP: %s from %s"
                        [LVal ip; LVal (PStr service_url)]]
         | inl _ => []
         end).
Proof.
  unfold public_ip_try, public_ip_answer, public_ip_request.
  destruct (PyStr.contains "ipify" service_url || PyStr.contains "ipinfo" service_url);
    run_monad;
    destruct (http_get env _) as [e|resp]; run_monad; try close_trace;
    destruct (raise_for_status resp) as [e|[]]; run_monad; try close_trace.
  destruct (response_json resp) as [e|data]; run_monad; try close_trace.
  destruct (Py.get data "ip" PNone) as [e|ip]; run_monad; close_trace.
Qed.

Lemma geo_try_eq (ip_address : pyval) (service_url : string)
    (location : option IpLoc.t) (tr : trace) :
  geo_try env ip_address service_url location tr =
  (match provider_answer env ip_address service_url location with
   | inr l => inr (if has_coordinates l then Located l else NoCoordinates l)
   | inl e => inl e
   end,
   tr ++ geo_try_events env ip_address service_url location).
Proof.
  unfold geo_try, geo_try_events, provider_answer, provider_request.
  run_monad.
  destruct (http_get env _) as [e|resp]; run_monad; try close_trace.
  destruct (raise_for_status resp) as [e|[]]; run_monad; try close_trace.
  destruct (response_json resp) as [e|data]; run_monad; try close_trace.
  destruct (parse_location env service_url ip_address data) as [e|parsed];
    run_monad; try close_trace.
  destruct parsed as [l|]; [|destruct location as [l|]];
    run_monad; try close_trace.
  all: destruct (has_coordinates l); run_monad; close_trace.
Qed.

End AttemptFacts.

(* ------------------------------------------------------------------ *)
(** ** The Public-Address Resolver ([get_public_ip]) *)

(** C9, as stated, fails: when the first service answers 2xx with a JSON
    object that has no [ip] field, the resolver does not go on to the next
    service.  Here api.ipify.org answers [{}] and icanhazip.com would answer
    with an address; [get_public_ip] sends one request and returns
    [None]. *)
Lemma public_ip_missing_field_not_skipped :
  ~ (forall (env : Env) (s : string) (rest : list string) (r : response),
        PyStr.contains "ipify" s = true ->
        http_get env (public_ip_request s) = HttpResponse r ->
        lacks_address r ->
        fst (public_ip_loop env (s :: rest) []) = fst (public_ip_loop env rest [])).
Proof.
  intros claim.
  specialize (claim PublicIpExample.env "https://api.ipify.org?format=json"
                ["https://icanhazip.com/"; "https://checkip.amazonaws.com/"]
                (mkResponse 200 "{}" (Some (PDict [])))
                eq_refl eq_refl).
  assert (H : lacks_address (mkResponse 200 "{}" (Some (PDict [])))).
  { split; [reflexivity|]. exists []. split; reflexivity. }
  specialize (claim H). vm_compute in claim. discriminate claim.
Qed.

Section PublicIp.

Context (env : Env).

Lemma public_ip_loop_cons (s : string) (rest : list string) (tr : trace) :
  public_ip_loop env (s :: rest) tr =
  match public_ip_answer env s with
  | inr ip =>
      (ip, tr ++ [EvLog DEBUG "Trying public IP service: %s" [LVal (PStr s)];
                  EvGet (public_ip_request s);
                  EvLog INFO "Successfully obtained public IP: %s from %s"
                    [LVal ip; LVal (PStr s)]])
  | inl e =>
      public_ip_loop env rest
        (tr ++ [EvLog DEBUG "Trying public IP service: %s" [LVal (PStr s)];
                EvGet (public_ip_request s);
                EvLog WARNING "Failed to get public IP from %s: %s"
                  [LVal (PStr s); LExc e]])
  end.
Proof.
  cbn [public_ip_loop]. unfold bind at 1. rewrite public_ip_try_eq.
  destruct (public_ip_answer env s) as [e|ip]; run_monad.
  - rewrite <- !app_assoc. reflexivity.
  - reflexivity.
Qed.

Lemma public_ip_loop_in_order (services : list string) (tr : trace) :
  fst (public_ip_loop env services tr)
  = first_obtained (map (public_ip_answer env) services)
  /\ requests (snd (public_ip_loop env services tr))
     = requests tr ++ map public_ip_request (tried env services).
Proof.
  revert tr. induction services as [|s rest IH]; intros tr.
  - cbn [public_ip_loop map first_obtained tried]. run_monad.
    split; [reflexivity|]. rewrite requests_app. reflexivity.
  - rewrite public_ip_loop_cons. cbn [map first_obtained tried].
    destruct (public_ip_answer env s) as [e|ip].
    + destruct (IH (tr ++ [EvLog DEBUG "Trying public IP service: %s" [LVal (PStr s)];
                           EvGet (public_ip_request s);
                           EvLog WARNING "Failed to get public IP from %s: %s"
                             [LVal (PStr s); LExc e]])) as [IHv IHr].
      split; [exact IHv|].
      rewrite IHr, requests_app. cbn [requests app].
      rewrite <- app_assoc. reflexivity.
    + split; [reflexivity|]. cbn [snd]. rewrite requests_app. reflexivity.
Qed.

Lemma get_public_ip_in_order (tr : trace) :
  fst (get_public_ip env tr)
  = first_obtained (map (public_ip_answer env) public_ip_services)
  /\ requests (snd (get_public_ip env tr))
     = requests tr ++ map public_ip_request (tried env public_ip_services).
Proof.
  unfold get_public_ip. run_monad.
  destruct (public_ip_loop_in_order public_ip_services
              (tr ++ [EvLog DEBUG "Attempting to get public IP address" []]))
    as [Hv Hr].
  split; [exact Hv|].
  rewrite Hr, requests_app. cbn [requests]. now rewrite app_nil_r.
Qed.

(** C9 (amended): [get_public_ip] asks its services strictly in the
    configured order, each at most once; an attempt that raises (transport
    failure, non-2xx status, a body that is not JSON or not a JSON object)
    moves it to the next service; the first attempt that does not raise
    ends the loop and its value is returned as it is (the [ip] field, [None]
    when the object has none; the stripped text); [None] is also what it
    returns when every attempt raised. *)
Theorem get_public_ip_first_answer :
  (forall tr,
      fst (get_public_ip env tr)
      = first_obtained (map (public_ip_answer env) public_ip_services)
      /\ requests (snd (get_public_ip env tr))
         = requests tr ++ map public_ip_request (tried env public_ip_services))
  /\ (forall s rest tr e,
         public_ip_answer env s = inl e ->
         public_ip_loop env (s :: rest) tr
         = public_ip_loop env rest
             (tr ++ [EvLog DEBUG "Trying public IP service: %s" [LVal (PStr s)];
                     EvGet (public_ip_request s);
                     EvLog WARNING "Failed to get public IP from %s: %s"
                       [LVal (PStr s); LExc e]]))
  /\ (forall s rest tr ip,
         public_ip_answer env s = inr ip ->
         fst (public_ip_loop env (s :: rest) tr) = ip
         /\ requests (snd (public_ip_loop env (s :: rest) tr))
            = requests tr ++ [public_ip_request s])
  /\ (forall services tr,
         Forall (fun s => exists e, public_ip_answer env s = inl e) services ->
         fst (public_ip_loop env services tr) = PNone
         /\ requests (snd (public_ip_loop env services tr))
            = requests tr ++ map public_ip_request services).
Proof.
  split; [exact get_public_ip_in_order|]. split; [|split].
  - intros s rest tr e Hanswer. rewrite public_ip_loop_cons, Hanswer.
    reflexivity.
  - intros s rest tr ip Hanswer. rewrite public_ip_loop_cons, Hanswer.
    cbn [fst snd]. split; [reflexivity|].
    rewrite requests_app. reflexivity.
  - intros services tr Hall.
    destruct (public_ip_loop_in_order services tr) as [Hv Hr].
    rewrite Hv, Hr. clear Hv Hr.
    induction Hall as [|s rest [e He] _ [IHv IHr]]; [split; reflexivity|].
    cbn [map first_obtained tried]. rewrite He. split; [exact IHv|].
    apply app_inv_head in IHr. cbn [app map]. now rewrite IHr.
Qed.

End PublicIp.

(** icanhazip.com answers with an address: asked first, it ends the
    loop. *)
Lemma get_public_ip_first_answer_witness :
  fst (public_ip_loop PublicIpExample.env
         ["https://icanhazip.com/"; "https://checkip.amazonaws.com/"] [])
  = PStr "203.0.113.7"
  /\ requests (snd (public_ip_loop PublicIpExample.env
                      ["https://icanhazip.com/"; "https://checkip.amazonaws.com/"] []))
     = [] ++ [public_ip_request "https://icanhazip.com/"].
Proof.
  exact (proj1 (proj2 (proj2 (get_public_ip_first_answer PublicIpExample.env)))
           "https://icanhazip.com/" ["https://checkip.amazonaws.com/"] []
           (PStr "203.0.113.7") eq_refl).
Defined.

(* ------------------------------------------------------------------ *)
(** ** The IP Geolocator ([get_geolocation_from_ip]) *)

(** C1, as stated, fails: the validation is a truth-value test, and NaN is
    true.  A first provider that answers NaN coordinates is returned as a
    success. *)
Lemma nan_coordinates_accepted :
  ~ (forall (env : Env) (ip : option string) (tr : trace) (loc : IpLoc.t),
        fst (get_geolocation_from_ip env ip tr) = Some loc ->
        finite_number (IpLoc.latitude loc) = true
        /\ finite_number (IpLoc.longitude loc) = true).
Proof.
  intros claim.
  destruct (claim NanExample.env (Some "8.8.8.8") []
              (IpLoc.mk PNone PNone PNone (PFloat S754_nan) (PFloat S754_nan) PNone)
              eq_refl) as [Hlat _].
  discriminate Hlat.
Qed.

Section Geolocator.

Context (env : Env).

Lemma geo_loop_cons (ip_address : pyval) (s : string) (rest : list string)
    (location : option IpLoc.t) (tr : trace) :
  geo_loop env ip_address (s :: rest) location tr =
  match provider_answer env ip_address s location with
  | inr l =>
      if has_coordinates l
      then (Some l, tr ++ geo_try_events env ip_address s location)
      else geo_loop env ip_address rest (Some l)
             (tr ++ geo_try_events env ip_address s location)
  | inl e =>
      geo_loop env ip_address rest location
        (tr ++ geo_try_events env ip_address s location
            ++ [EvLog WARNING "Failed geolocation service %s: %s"
                  [LVal (PStr s); LExc e]])
  end.
Proof.
  cbn [geo_loop]. unfold bind at 1. rewrite geo_try_eq.
  destruct (provider_answer env ip_address s location) as [e|l]; run_monad.
  - rewrite <- app_assoc. reflexivity.
  - destruct (has_coordinates l); reflexivity.
Qed.

Lemma truthy_not_none (v : pyval) : Py.truthy v = true -> v <> PNone.
Proof. intros H ->. discriminate H. Qed.

Lemma has_coordinates_not_none (l : IpLoc.t) :
  has_coordinates l = true ->
  IpLoc.latitude l <> PNone /\ IpLoc.longitude l <> PNone.
Proof.
  unfold has_coordinates. intros H. apply andb_true_iff in H as [Hlat Hlon].
  split; apply truthy_not_none; assumption.
Qed.

Lemma missing_coordinate_fails (l : IpLoc.t) :
  IpLoc.latitude l = PNone \/ IpLoc.longitude l = PNone ->
  has_coordinates l = false.
Proof.
  unfold has_coordinates. intros [H|H]; rewrite H; cbn [Py.truthy];
    [reflexivity | apply andb_false_r].
Qed.

(** A location the loop returns went through the validation. *)
Lemma geo_loop_validated (ip_address : pyval) (services : list string) :
  forall (location : option IpLoc.t) (tr : trace) (l : IpLoc.t),
    fst (geo_loop env ip_address services location tr) = Some l ->
    has_coordinates l = true.
Proof.
  induction services as [|s rest IH]; intros location tr l.
  - cbn [geo_loop]. run_monad. discriminate.
  - rewrite geo_loop_cons.
    destruct (provider_answer env ip_address s location) as [e|l']; [apply IH|].
    destruct (has_coordinates l') eqn:Hc; [|apply IH].
    cbn [fst]. intros [= <-]. exact Hc.
Qed.

(** When every provider is a miss the loop comes back empty-handed, after
    the error record. *)
Lemma geo_loop_all_miss (ip_address : pyval) (services : list string) :
  Forall (fun s =>
            forall location,
              match provider_answer env ip_address s location with
              | inr l => has_coordinates l = false
              | inl _ => True
              end) services ->
  forall (location : option IpLoc.t) (tr : trace),
    fst (geo_loop env ip_address services location tr) = None.
Proof.
  induction 1 as [|s rest Hmiss _ IH]; intros location tr.
  - reflexivity.
  - rewrite geo_loop_cons. specialize (Hmiss location).
    destruct (provider_answer env ip_address s location) as [e|l]; [apply IH|].
    rewrite Hmiss. apply IH.
Qed.

(** The single-provider variant validates the same way. *)
Lemma legacy_geolocation_validated (ip : option string) (tr : trace)
    (loc : IpLoc.t) :
  fst (Legacy.get_geolocation_from_ip env ip tr) = Some loc ->
  has_coordinates loc = true.
Proof.
  unfold Legacy.get_geolocation_from_ip, Legacy.geolocation_try, print,
    has_coordinates.
  run_monad.
  repeat (case_step; run_monad; try discriminate).
  all: intros [= <-]; assumption.
Qed.

(** C1 (amended): a location [get_geolocation_from_ip] returns, in
    server.py and in geolocation.py, has a latitude and a longitude that
    are not null (whether they are finite numbers is not checked); in the
    provider loop, a provider whose answer has a null latitude or
    longitude, and a provider whose attempt raises, are misses and the loop
    goes on with the next provider. *)
Theorem geolocation_needs_both_coordinates :
  (forall (ip : option string) (tr : trace) (loc : IpLoc.t),
      fst (get_geolocation_from_ip env ip tr) = Some loc ->
      IpLoc.latitude loc <> PNone /\ IpLoc.longitude loc <> PNone)
  /\ (forall (ip : option string) (tr : trace) (loc : IpLoc.t),
         fst (Legacy.get_geolocation_from_ip env ip tr) = Some loc ->
         IpLoc.latitude loc <> PNone /\ IpLoc.longitude loc <> PNone)
  /\ (forall (ip_address : pyval) (s : string) (rest : list string)
             (location : option IpLoc.t) (tr : trace) (l : IpLoc.t),
         provider_answer env ip_address s location = inr l ->
         IpLoc.latitude l = PNone \/ IpLoc.longitude l = PNone ->
         geo_loop env ip_address (s :: rest) location tr
         = geo_loop env ip_address rest (Some l)
             (tr ++ geo_try_events env ip_address s location))
  /\ (forall (ip_address : pyval) (s : string) (rest : list string)
             (location : option IpLoc.t) (tr : trace) (e : exn),
         provider_answer env ip_address s location = inl e ->
         geo_loop env ip_address (s :: rest) location tr
         = geo_loop env ip_address rest location
             (tr ++ geo_try_events env ip_address s location
                 ++ [EvLog WARNING "Failed geolocation service %s: %s"
                       [LVal (PStr s); LExc e]])).
Proof.
  split; [|split; [|split]].
  - intros ip tr loc. unfold get_geolocation_from_ip. run_monad.
    destruct (prepare_address env ip _) as [addr tr1].
    intros H. apply has_coordinates_not_none.
    exact (geo_loop_validated _ _ _ _ _ H).
  - intros ip tr loc H. apply has_coordinates_not_none.
    exact (legacy_geolocation_validated _ _ _ H).
  - intros ip_address s rest location tr l Hanswer Hnull.
    rewrite geo_loop_cons, Hanswer, (missing_coordinate_fails _ Hnull).
    reflexivity.
  - intros ip_address s rest location tr e Hanswer.
    rewrite geo_loop_cons, Hanswer. reflexivity.
Qed.

End Geolocator.

(* ------------------------------------------------------------------ *)
(** ** The Address Classifier ([is_private_ip]) and address preparation *)

(** C7, as stated, fails: [is_private_ip] returns a [bool], and a malformed
    string gets the same [False] as a public address, so the value returned
    does not tell [Invalid] from [Public]. *)
Lemma invalid_returned_as_public :
  ~ (forall env : Env,
        exists outcome : bool -> classification,
          forall (ip : string) (tr : trace),
            outcome (fst (is_private_ip env ip tr)) = spec_classify env ip).
Proof.
  intros claim. destruct (claim Sample.offline) as [outcome H].
  pose proof (H "8.8.8.8" []) as Hpublic.
  pose proof (H "not-an-ip" []) as Hinvalid.
  vm_compute in Hpublic, Hinvalid. congruence.
Qed.

(** C7 (amended): [is_private_ip] never raises and returns [True] exactly
    for a string that parses to an address the library marks private; it
    returns [False] both for every other valid address and for every
    malformed string, and only the warning it logs for the latter tells the
    two apart. *)
Theorem is_private_ip_two_valued (env : Env) (ip : string) (tr : trace) :
  is_private_ip env ip tr =
  match spec_classify env ip with
  | Private => (true, tr)
  | Public => (false, tr)
  | Invalid =>
      (false, tr ++ [EvLog WARNING "Invalid IP address format: %s" [LVal (PStr ip)]])
  end.
Proof.
  unfold is_private_ip, spec_classify.
  destruct (ip_is_private env ip) as [[|]|]; run_monad; reflexivity.
Qed.

(** C8, as stated, fails: an unparsable client address is not treated as
    an absent one.  The classifier answers [False], so the public address is
    not looked up and the string goes into the provider's URL. *)
Lemma unparsable_ip_is_not_absent :
  ~ (forall (env : Env) (ip : string),
        ip_is_private env ip = None ->
        requests (snd (get_geolocation_from_ip env (Some ip) []))
        = requests (snd (get_geolocation_from_ip env None []))).
Proof.
  intros claim. specialize (claim Sample.offline "not-an-ip" eq_refl).
  vm_compute in claim. discriminate claim.
Qed.

Section Preparation.

Context (env : Env).

Lemma append_empty_r (s : string) : s +++ EmptyString = s.
Proof. induction s as [|c rest IH]; cbn; [reflexivity | now rewrite IH]. Qed.

(** With an address at hand, ipapi.co is asked at a URL that holds it. *)
Lemma ipapi_url_with_address (ip_address : pyval) :
  Py.truthy ip_address = true ->
  provider_url env "https://ipapi.co/json/" ip_address
  = "https://ipapi.co/" +++ fmt env ip_address +++ "/json/".
Proof.
  intros Htruthy. unfold provider_url. rewrite Htruthy.
  cbn. rewrite append_empty_r. reflexivity.
Qed.

(** C8 (amended): for a client address that is not empty and does not
    parse, classification is not fatal (a warning is logged, nothing is
    raised) and the Geolocator uses the string as it would a public
    address: it does not look the public address up and runs the provider
    loop with the string itself, which the first provider receives in its
    URL. *)
Theorem unparsable_ip_used_as_given (ip : string) (tr : trace) :
  ip <> EmptyString ->
  ip_is_private env ip = None ->
  get_geolocation_from_ip env (Some ip) tr
  = geo_loop env (PStr ip) geolocation_services None
      (tr ++ [EvLog INFO "Getting geolocation from IP: %s" [LVal (PStr ip)];
              EvLog WARNING "Invalid IP address format: %s" [LVal (PStr ip)]])
  /\ provider_url env "https://ipapi.co/json/" (PStr ip)
     = "https://ipapi.co/" +++ ip +++ "/json/".
Proof.
  intros Hne Hparse.
  assert (Hnonempty : String.eqb ip EmptyString = false).
  { apply String.eqb_neq. exact Hne. }
  split.
  - unfold get_geolocation_from_ip, prepare_address, is_private_ip, or_auto_detect.
    rewrite Hnonempty, Hparse. run_monad. cbn [of_optional].
    rewrite <- app_assoc. reflexivity.
  - apply ipapi_url_with_address. cbn [Py.truthy]. now rewrite Hnonempty.
Qed.

End Preparation.

(** An unparsable address, in an environment where every request times
    out. *)
Lemma unparsable_ip_used_as_given_witness :
  get_geolocation_from_ip Sample.offline (Some "not-an-ip") []
  = geo_loop Sample.offline (PStr "not-an-ip") geolocation_services None
      ([] ++ [EvLog INFO "Getting geolocation from IP: %s" [LVal (PStr "not-an-ip")];
              EvLog WARNING "Invalid IP address format: %s" [LVal (PStr "not-an-ip")]])
  /\ provider_url Sample.offline "https://ipapi.co/json/" (PStr "not-an-ip")
     = "https://ipapi.co/" +++ "not-an-ip" +++ "/json/".
Proof.
  apply (unparsable_ip_used_as_given Sample.offline "not-an-ip" []).
  - discriminate.
  - reflexivity.
Defined.

(* ------------------------------------------------------------------ *)
(** ** Private and absent addresses *)

Section PrivateAddress.

Context (env : Env).

Lemma prepare_address_private_eq (ip : option string) (tr : trace) :
  private_or_absent env ip ->
  prepare_address env ip tr =
  let (public_ip, tr1) := get_public_ip env tr in
  if Py.truthy public_ip
  then (public_ip,
        tr1 ++ [EvLog INFO "Using public IP for geolocation: %s" [LVal public_ip]])
  else (PNone,
        tr1 ++ [EvLog WARNING "Using current location (no specific IP)" []]).
Proof.
  intros Hip. unfold prepare_address.
  assert (Hneeds :
            (match ip with
             | None => ret true
             | Some s => if String.eqb s EmptyString then ret true
                         else is_private_ip env s
             end) tr = (true, tr)).
  { destruct ip as [s|]; [|reflexivity].
    destruct (String.eqb s EmptyString) eqn:He; [reflexivity|].
    destruct Hip as [->|Hpriv]; [discriminate He|].
    unfold is_private_ip. now rewrite Hpriv. }
  unfold bind at 1. rewrite Hneeds. unfold bind at 1.
  destruct (get_public_ip env tr) as [public_ip tr1].
  destruct (Py.truthy public_ip); reflexivity.
Qed.

Lemma prepare_address_private (ip : option string) (tr : trace) :
  private_or_absent env ip ->
  fst (prepare_address env ip tr) = discovered_address env
  /\ requests (snd (prepare_address env ip tr))
     = requests tr ++ map public_ip_request (tried env public_ip_services).
Proof.
  intros Hip. rewrite (prepare_address_private_eq ip tr Hip).
  destruct (get_public_ip_in_order env tr) as [Hv Hr].
  destruct (get_public_ip env tr) as [public_ip tr1]. cbn [fst snd] in Hv, Hr.
  unfold discovered_address. rewrite <- Hv.
  destruct (Py.truthy public_ip); cbn [fst snd];
    (split; [reflexivity|]);
    rewrite requests_app, Hr; cbn [requests]; now rewrite app_nil_r.
Qed.

Lemma geo_try_events_requests (ip_address : pyval) (s : string)
    (location : option IpLoc.t) :
  requests (geo_try_events env ip_address s location)
  = [provider_request env ip_address s].
Proof.
  unfold geo_try_events. cbn [app requests].
  destruct (provider_answer env ip_address s location) as [e|l];
    [reflexivity|].
  destruct (has_coordinates l); reflexivity.
Qed.

(** The provider loop asks the providers in order, each at most once, at
    the URL made from the address it was given. *)
Lemma geo_loop_requests (ip_address : pyval) (services : list string) :
  forall (location : option IpLoc.t) (tr : trace),
  exists n,
    requests (snd (geo_loop env ip_address services location tr))
    = requests tr ++ map (provider_request env ip_address) (firstn n services).
Proof.
  induction services as [|s rest IH]; intros location tr.
  - exists 0. cbn [geo_loop]. run_monad. rewrite requests_app. reflexivity.
  - rewrite geo_loop_cons.
    destruct (provider_answer env ip_address s location) as [e|l].
    + destruct (IH location
                  (tr ++ geo_try_events env ip_address s location
                      ++ [EvLog WARNING "Failed geolocation service %s: %s"
                            [LVal (PStr s); LExc e]])) as [n Hn].
      exists (S n). rewrite Hn, !requests_app, geo_try_events_requests.
      cbn [requests firstn map app]. rewrite <- app_assoc. reflexivity.
    + destruct (has_coordinates l).
      * exists 1. cbn [snd]. rewrite requests_app, geo_try_events_requests.
        destruct rest; reflexivity.
      * destruct (IH (Some l) (tr ++ geo_try_events env ip_address s location))
          as [n Hn].
        exists (S n). rewrite Hn, requests_app, geo_try_events_requests.
        cbn [firstn map app]. rewrite <- app_assoc. reflexivity.
Qed.

Lemma geo_loop_requests_first (ip_address : pyval) (s : string)
    (rest : list string) (location : option IpLoc.t) (tr : trace) :
  exists n,
    requests (snd (geo_loop env ip_address (s :: rest) location tr))
    = requests tr
      ++ map (provider_request env ip_address) (firstn (S n) (s :: rest)).
Proof.
  rewrite geo_loop_cons.
  destruct (provider_answer env ip_address s location) as [e|l].
  - destruct (geo_loop_requests ip_address rest location
                (tr ++ geo_try_events env ip_address s location
                    ++ [EvLog WARNING "Failed geolocation service %s: %s"
                          [LVal (PStr s); LExc e]])) as [n Hn].
    exists n. rewrite Hn, !requests_app, geo_try_events_requests.
    cbn [requests firstn map app]. rewrite <- app_assoc. reflexivity.
  - destruct (has_coordinates l).
    + exists 0. cbn [snd]. rewrite requests_app, geo_try_events_requests.
      reflexivity.
    + destruct (geo_loop_requests ip_address rest (Some l)
                  (tr ++ geo_try_events env ip_address s location)) as [n Hn].
      exists n. rewrite Hn, requests_app, geo_try_events_requests.
      cbn [firstn map app]. rewrite <- app_assoc. reflexivity.
Qed.

(** The requests of the provider loop, written out: ipapi.co's URL holds
    the address when there is one; ipinfo.io's URL has no [/json/] to
    replace and ip-api.com is exempted, so these two stay as they are. *)
Lemma provider_requests_written_out (ip_address : pyval) :
  map (provider_request env ip_address) geolocation_services
  = [mkRequest (if Py.truthy ip_address
                then "https://ipapi.co/" +++ fmt env ip_address +++ "/json/"
                else "https://ipapi.co/json/") [] 10;
     mkRequest "https://ipinfo.io/json" [] 10;
     mkRequest "http://ip-api.com/json/" [] 10].
Proof.
  unfold geolocation_services, provider_request. cbn [map].
  destruct (Py.truthy ip_address) eqn:Htruthy.
  - rewrite (ipapi_url_with_address env ip_address Htruthy).
    unfold provider_url. rewrite Htruthy. reflexivity.
  - unfold provider_url. rewrite Htruthy. reflexivity.
Qed.

(** The run for an absent or private input, in terms of the address found. *)
Lemma get_geolocation_from_ip_private (ip : option string) (tr : trace) :
  private_or_absent env ip ->
  fst (get_geolocation_from_ip env ip tr)
  = fst (geo_loop env (discovered_address env) geolocation_services None [])
  /\ exists n,
       1 <= n
       /\ requests (snd (get_geolocation_from_ip env ip tr))
          = requests tr
            ++ map public_ip_request (tried env public_ip_services)
            ++ firstn n (map (provider_request env (discovered_address env))
                           geolocation_services).
Proof.
  intros Hip. unfold get_geolocation_from_ip. run_monad.
  destruct (prepare_address_private ip
              (tr ++ [EvLog INFO "Getting geolocation from IP: %s"
                        [LVal (or_auto_detect ip)]]) Hip) as [Haddr Hreq].
  destruct (prepare_address env ip _) as [addr tr1]. cbn [fst snd] in Haddr, Hreq.
  subst addr. split.
  - rewrite (appends_geo_loop env _ _ _ tr1). reflexivity.
  - unfold geolocation_services at 1.
    destruct (geo_loop_requests_first (discovered_address env)
                "https://ipapi.co/json/"
                ["https://ipinfo.io/json"; "http://ip-api.com/json/"]
                None tr1) as [n Hn].
    exists (S n). split; [apply le_n_S, Nat.le_0_l|].
    rewrite Hn, Hreq, requests_app. cbn [requests].
    rewrite app_nil_r, <- app_assoc, firstn_map. reflexivity.
Qed.

(** C6 (amended): for an input address that is absent or private,
    [get_geolocation_from_ip] first asks the public-address services (at
    least the first of them), then asks the providers, in order and at least
    the first, with the address found there, whatever it is (with no
    address when none was found): ipapi.co at
    [https://ipapi.co/<address found>/json/], ipinfo.io and ip-api.com at
    their plain URL.  The address given plays no further part: result and
    requests are those of a call without an address. *)
Theorem private_ip_replaced_by_public (ip : option string) (tr : trace) :
  private_or_absent env ip ->
  let found := discovered_address env in
  fst (get_geolocation_from_ip env ip tr)
  = fst (geo_loop env found geolocation_services None [])
  /\ tried env public_ip_services <> []
  /\ (exists n,
        1 <= n
        /\ requests (snd (get_geolocation_from_ip env ip tr))
           = requests tr
             ++ map public_ip_request (tried env public_ip_services)
             ++ firstn n
                  [mkRequest (if Py.truthy found
                              then "https://ipapi.co/" +++ fmt env found +++ "/json/"
                              else "https://ipapi.co/json/") [] 10;
                   mkRequest "https://ipinfo.io/json" [] 10;
                   mkRequest "http://ip-api.com/json/" [] 10])
  /\ fst (get_geolocation_from_ip env ip tr)
     = fst (get_geolocation_from_ip env None tr)
  /\ requests (snd (get_geolocation_from_ip env ip tr))
     = requests (snd (get_geolocation_from_ip env None tr)).
Proof.
  intros Hip found. subst found.
  destruct (get_geolocation_from_ip_private ip tr Hip) as [Hresult [n [Hn Hsent]]].
  assert (Habsent : private_or_absent env None) by exact I.
  split; [exact Hresult|].
  split; [discriminate|].
  split.
  - exists n. split; [exact Hn|].
    rewrite Hsent, provider_requests_written_out. reflexivity.
  - destruct (get_geolocation_from_ip_private None tr Habsent)
      as [Hresult' [n' [Hn' Hsent']]].
    split; [congruence|].
    unfold get_geolocation_from_ip. run_monad.
    destruct (prepare_address_private ip
                (tr ++ [EvLog INFO "Getting geolocation from IP: %s"
                          [LVal (or_auto_detect ip)]]) Hip) as [Haddr Hreq].
    destruct (prepare_address_private None
                (tr ++ [EvLog INFO "Getting geolocation from IP: %s"
                          [LVal (or_auto_detect None)]]) Habsent) as [Haddr' Hreq'].
    destruct (prepare_address env ip _) as [addr tr1].
    destruct (prepare_address env None _) as [addr' tr1'].
    cbn [fst snd] in Haddr, Hreq, Haddr', Hreq'. subst addr addr'.
    rewrite (appends_geo_loop env _ _ _ tr1), (appends_geo_loop env _ _ _ tr1').
    cbn [snd]. rewrite !requests_app, Hreq, Hreq', !requests_app.
    reflexivity.
Qed.

End PrivateAddress.

(** C6, as stated, fails: the address the public-address services report is
    used as it is, without being classified.  Here the caller's address
    192.168.1.5 is private and api.ipify.org reports the same 192.168.1.5;
    ipapi.co is then asked at [https://ipapi.co/192.168.1.5/json/]. *)
Lemma private_address_can_be_queried :
  ~ (forall (env : Env) (ip : string),
        ip_is_private env ip = Some true ->
        Forall (fun rq => PyStr.contains ip (url rq) = false)
               (requests (snd (get_geolocation_from_ip env (Some ip) [])))).
Proof.
  intros claim.
  specialize (claim (DiscoveryExample.env "192.168.1.5") "192.168.1.5" eq_refl).
  rewrite Forall_forall in claim.
  specialize (claim (mkRequest "https://ipapi.co/192.168.1.5/json/" [] 10)).
  assert (Hasked :
            In (mkRequest "https://ipapi.co/192.168.1.5/json/" [] 10)
               (requests
                  (snd (get_geolocation_from_ip (DiscoveryExample.env "192.168.1.5")
                          (Some "192.168.1.5") [])))).
  { vm_compute. right. left. reflexivity. }
  specialize (claim Hasked). vm_compute in claim. discriminate claim.
Qed.

(** A private address, where api.ipify.org reports 203.0.113.7 and every
    other request times out: ipapi.co is asked about 203.0.113.7. *)
Lemma private_ip_replaced_by_public_witness :
  private_or_absent (DiscoveryExample.env "203.0.113.7") (Some "192.168.1.5")
  /\ exists n,
       1 <= n
       /\ requests (snd (get_geolocation_from_ip (DiscoveryExample.env "203.0.113.7")
                           (Some "192.168.1.5") []))
          = [mkRequest "https://api.ipify.org?format=json" [] 5]
            ++ firstn n [mkRequest "https://ipapi.co/203.0.113.7/json/" [] 10;
                         mkRequest "https://ipinfo.io/json" [] 10;
                         mkRequest "http://ip-api.com/json/" [] 10].
Proof.
  assert (H : private_or_absent (DiscoveryExample.env "203.0.113.7")
                (Some "192.168.1.5")).
  { right. reflexivity. }
  split; [exact H|].
  exact (proj1 (proj2 (proj2 (private_ip_replaced_by_public
                                (DiscoveryExample.env "203.0.113.7")
                                (Some "192.168.1.5") [] H)))).
Defined.

(* ------------------------------------------------------------------ *)
(** ** The Place-Name Geocoder ([get_geolocation_from_name]) *)

Section GeocoderFacts.

Context (env : Env).

Lemma geocode_try_eq (location_name : string) (tr : trace) :
  geocode_try env location_name tr
  = (geocode_answer env location_name, tr ++ geocode_try_events env location_name).
Proof.
  unfold geocode_try, geocode_try_events, geocode_answer, geocoding_request.
  run_monad.
  destruct (http_get env _) as [e|resp]; run_monad; try close_trace.
  destruct (raise_for_status resp) as [e|[]]; run_monad; try close_trace.
  destruct (response_json resp) as [e|data]; run_monad; try close_trace.
  destruct (has_results data) as [e|[|]]; run_monad; try close_trace.
  destruct (first_result data) as [e|location_data]; run_monad; close_trace.
Qed.

Lemma geocode_try_events_requests (location_name : string) :
  requests (geocode_try_events env location_name) = [geocoding_request location_name].
Proof.
  unfold geocode_try_events. cbn [app requests].
  destruct (geocode_answer env location_name) as [e|[location_data|]]; reflexivity.
Qed.

(** One step of the geocoder, by what its query yields. *)
Lemma get_geolocation_from_name_step (location_name : string) (tr : trace) :
  get_geolocation_from_name env location_name tr =
  let tr1 := tr ++ [EvLog INFO "Geocoding location name: %s"
                      [LVal (PStr location_name)]]
                ++ geocode_try_events env location_name in
  match geocode_answer env location_name with
  | inr (Some location_data) => (Some location_data, tr1)
  | inr None =>
      match simpler_query location_name with
      | Some simple_name =>
          get_geolocation_from_name env simple_name
            (tr1 ++ [EvLog INFO "Trying simpler query: %s"
                       [LVal (PStr simple_name)]])
      | None => (None, tr1)
      end
  | inl e =>
      (None, tr1 ++ [EvLog ERROR "Error geocoding location name '%s': %s"
                       [LVal (PStr location_name); LExc e]])
  end.
Proof.
  rewrite get_geolocation_from_name_body. unfold geocoder_body.
  unfold bind at 1. unfold log at 1. unfold bind at 1.
  rewrite geocode_try_eq. cbv zeta. rewrite <- app_assoc.
  destruct (geocode_answer env location_name) as [e|[location_data|]];
    [reflexivity|reflexivity|].
  destruct (simpler_query location_name) as [simple_name|]; reflexivity.
Qed.

Lemma simpler_query_comma (location_name : string) :
  PyStr.contains "," location_name = true ->
  simpler_query location_name = Some (before_comma location_name).
Proof.
  intros Hc. unfold simpler_query. rewrite Hc. fold (before_comma location_name).
  destruct (String.eqb (before_comma location_name) location_name) eqn:He;
    [|reflexivity].
  apply String.eqb_eq in He.
  rewrite (PyStrFacts.contains_char PyStr.comma) in Hc.
  pose proof (PyStrFacts.split_hd_shorter _ _ Hc) as Hshort.
  pose proof (PyStrFacts.strip_length
                (hd EmptyString (PyStr.split PyStr.comma location_name))) as Hstrip.
  unfold before_comma in He. rewrite He in Hstrip. lia.
Qed.

Lemma simpler_query_no_comma (location_name : string) :
  PyStr.contains "," location_name = false ->
  simpler_query location_name = None.
Proof. intros Hc. unfold simpler_query. now rewrite Hc. Qed.

Lemma before_comma_no_comma (location_name : string) :
  PyStr.contains "," (before_comma location_name) = false.
Proof.
  rewrite (PyStrFacts.contains_char PyStr.comma).
  destruct (PyStrFacts.has_char PyStr.comma (before_comma location_name)) eqn:H;
    [|reflexivity].
  apply PyStrFacts.strip_has_char in H.
  now rewrite PyStrFacts.split_hd_no_sep in H.
Qed.

(** C5: when the name holds a comma, its query has no results and the
    query for what is before the first comma (trimmed) has a match, the
    geocoder returns that match, after these two requests.  Every retry is
    with a strictly shorter name that holds no comma, and a name without a
    comma is not retried. *)
Theorem comma_retry_returns_prefix_match
    (location_name : string) (tr : trace) (place : Place.t) :
  PyStr.contains "," location_name = true ->
  geocode_answer env location_name = inr None ->
  geocode_answer env (before_comma location_name) = inr (Some place) ->
  (fst (get_geolocation_from_name env location_name tr) = Some place
   /\ requests (snd (get_geolocation_from_name env location_name tr))
      = requests tr ++ [geocoding_request location_name;
                        geocoding_request (before_comma location_name)])
  /\ (forall name simple_name,
         simpler_query name = Some simple_name ->
         String.length simple_name < String.length name
         /\ PyStr.contains "," simple_name = false
         /\ simpler_query simple_name = None)
  /\ (forall name,
         PyStr.contains "," name = false -> simpler_query name = None).
Proof.
  intros Hcomma Hnone Hmatch. split; [|split].
  - rewrite get_geolocation_from_name_step. cbv zeta.
    rewrite Hnone, (simpler_query_comma _ Hcomma).
    rewrite get_geolocation_from_name_step. cbv zeta. rewrite Hmatch.
    cbn [fst snd]. split; [reflexivity|].
    rewrite !requests_app, !geocode_try_events_requests. cbn [requests app].
    rewrite <- !app_assoc. reflexivity.
  - intros name simple_name Hs.
    split; [exact (simpler_query_shorter _ _ Hs)|].
    assert (Hc : PyStr.contains "," simple_name = false).
    { unfold simpler_query in Hs.
      destruct (PyStr.contains "," name); [|discriminate Hs].
      destruct (negb _); [|discriminate Hs].
      injection Hs as <-. apply before_comma_no_comma. }
    split; [exact Hc | exact (simpler_query_no_comma _ Hc)].
  - exact simpler_query_no_comma.
Qed.

(** The geocoder asks nobody but the geocoding service. *)
Lemma geocoder_requests (location_name : string) :
  forall tr, exists rqs,
    requests (snd (get_geolocation_from_name env location_name tr))
    = requests tr ++ rqs
    /\ Forall (fun rq => url rq = geocoding_url) rqs.
Proof.
  remember (String.length location_name) as n eqn:Hn.
  revert location_name Hn.
  induction n as [n IH] using lt_wf_ind. intros location_name -> tr.
  rewrite get_geolocation_from_name_step. cbv zeta.
  assert (Hone : exists rqs,
             requests
               (tr ++ [EvLog INFO "Geocoding location name: %s"
                         [LVal (PStr location_name)]]
                   ++ geocode_try_events env location_name)
             = requests tr ++ rqs
             /\ Forall (fun rq => url rq = geocoding_url) rqs).
  { exists [geocoding_request location_name].
    rewrite !requests_app, geocode_try_events_requests.
    split; [reflexivity|]. constructor; [reflexivity|constructor]. }
  destruct (geocode_answer env location_name) as [e|[location_data|]].
  - cbn [snd]. rewrite requests_app. cbn [requests]. now rewrite app_nil_r.
  - exact Hone.
  - destruct (simpler_query location_name) as [simple_name|] eqn:Hs; [|exact Hone].
    destruct Hone as [rqs [Hrqs Hall]].
    destruct (IH (String.length simple_name) (simpler_query_shorter _ _ Hs)
                simple_name eq_refl
                ((tr ++ [EvLog INFO "Geocoding location name: %s"
                           [LVal (PStr location_name)]]
                     ++ geocode_try_events env location_name)
                 ++ [EvLog INFO "Trying simpler query: %s"
                       [LVal (PStr simple_name)]]))
      as [rqs' [Hrqs' Hall']].
    exists (rqs ++ rqs'). split.
    + rewrite Hrqs', requests_app, Hrqs. cbn [requests].
      rewrite app_nil_r, <- app_assoc. reflexivity.
    + apply Forall_app. split; assumption.
Qed.

End GeocoderFacts.

(** "Springfield, Illinois, USA" has no results, "Springfield" has one. *)
Lemma comma_retry_returns_prefix_match_witness :
  fst (get_geolocation_from_name SpringfieldExample.env
         "Springfield, Illinois, USA" [])
  = Some (Place.mk (PStr "Springfield") (PStr "United States")
            (PFloat (S754_finite false 5602085648138863 (-47)))
            (PFloat (S754_finite true 6309545280376177 (-46)))
            (PStr "America/Chicago") (PStr "Illinois")).
Proof.
  apply (comma_retry_returns_prefix_match SpringfieldExample.env
           "Springfield, Illinois, USA" []); reflexivity.
Defined.

(* ------------------------------------------------------------------ *)
(** ** The orchestrator ([get_coordinates]) *)

(** The default coordinates are the binary64 values nearest to 40.7128 and
    -74.0060: each is within half a unit in the last place of its
    literal. *)
Lemma default_coordinates_literals :
  default_latitude = S754_finite false 5729817215912798 (-47)
  /\ (2 * Z.abs (5729817215912798 * 10000 - 407128 * 2 ^ 47) <= 10000)%Z
  /\ default_longitude = S754_finite true 5207709281612202 (-46)
  /\ (2 * Z.abs (5207709281612202 * 10000 - 740060 * 2 ^ 46) <= 10000)%Z.
Proof. repeat split; vm_compute; congruence. Qed.

Section Orchestrator.

Context (env : Env).

Lemma appends_place_name_tier (location_name : string) :
  appends (place_name_tier env location_name).
Proof.
  unfold place_name_tier, retX, raise.
  apply appends_bindX; [apply appends_liftM, appends_log|]. intros _.
  apply appends_bindX;
    [apply appends_liftM, appends_get_geolocation_from_name|].
  intros [place|]; solve_appends.
Qed.

Lemma appends_ip_tier (client_ip : option string) :
  appends (ip_tier env client_ip).
Proof.
  unfold ip_tier, retX.
  apply appends_bindX; [apply appends_liftM, appends_log|]. intros _.
  apply appends_bindX;
    [apply appends_liftM, appends_get_geolocation_from_ip|].
  intros [location|]; solve_appends.
Qed.

Lemma appends_lower_tiers (arguments : Args.t) : appends (lower_tiers env arguments).
Proof.
  unfold lower_tiers. destruct (given_name _);
    [apply appends_place_name_tier | apply appends_ip_tier].
Qed.

Lemma get_coordinates_tagged_lower (arguments : Args.t) (tr : trace) :
  Args.latitude arguments = None \/ Args.longitude arguments = None ->
  get_coordinates_tagged env arguments tr
  = lower_tiers env arguments (tr ++ [arguments_logged arguments]).
Proof.
  intros Hmissing. unfold get_coordinates_tagged, lower_tiers, arguments_logged.
  run_monad.
  destruct (Args.latitude arguments) as [lat|], (Args.longitude arguments) as [lon|];
    try reflexivity.
  destruct Hmissing; discriminate.
Qed.

Lemma place_name_tier_origin (location_name : string) (tr : trace)
    (r : origin * resolved) :
  fst (place_name_tier env location_name tr) = inr r -> fst r = PLACE_NAME.
Proof.
  unfold place_name_tier. run_monad.
  destruct (get_geolocation_from_name env location_name _) as [[place|] tr1];
    run_monad; [|discriminate].
  intros [= <-]. reflexivity.
Qed.

Lemma ip_tier_origin (client_ip : option string) (tr : trace)
    (r : origin * resolved) :
  fst (ip_tier env client_ip tr) = inr r ->
  fst r = IP_BASED \/ fst r = DEFAULT_FALLBACK.
Proof.
  unfold ip_tier. run_monad.
  destruct (get_geolocation_from_ip env client_ip _) as [[location|] tr1];
    run_monad; intros [= <-]; [left|right]; reflexivity.
Qed.



(** C3: with no coordinates and no place name, when the Geolocator comes
    back empty-handed, [get_coordinates] does not raise: it returns the
    default-fallback result, with the fixed coordinates and label. *)
Theorem default_fallback_when_exhausted
    (location_name client_ip : option string) (tr : trace) :
  given_name location_name = None ->
  fst (get_geolocation_from_ip env client_ip []) = None ->
  let arguments := Args.mk location_name None None client_ip in
  fst (get_coordinates_tagged env arguments tr)
  = inr (DEFAULT_FALLBACK,
         (PFloat default_latitude, PFloat default_longitude,
          "New York, USA (default fallback)"))
  /\ fst (get_coordinates env arguments tr)
     = inr (PFloat default_latitude, PFloat default_longitude,
            "New York, USA (default fallback)").
Proof.
  intros Hname Hexhausted arguments.
  assert (Htagged :
            fst (get_coordinates_tagged env arguments tr)
            = inr (DEFAULT_FALLBACK,
                   (PFloat default_latitude, PFloat default_longitude,
                    "New York, USA (default fallback)"))).
  { rewrite get_coordinates_tagged_lower by (left; reflexivity).
    unfold lower_tiers, arguments. cbn [Args.location_name Args.client_ip].
    rewrite Hname. unfold ip_tier. run_monad.
    rewrite (appends_get_geolocation_from_ip env client_ip _).
    rewrite Hexhausted. run_monad. reflexivity. }
  split; [exact Htagged|].
  unfold get_coordinates. run_monad.
  destruct (get_coordinates_tagged env arguments tr) as [[e|r] tr1];
    cbn [fst] in Htagged; [discriminate|].
  injection Htagged as ->. reflexivity.
Qed.

(** C2: with a place name given (and the explicit coordinates not both
    supplied), when the geocoder finds nothing [get_coordinates] raises the
    error "Could not find location"; the requests it sent all went to the
    geocoding service, none to IP geolocation, and no default is
    returned. *)
Theorem unknown_place_raises (arguments : Args.t) (name : string) (tr : trace) :
  Args.latitude arguments = None \/ Args.longitude arguments = None ->
  given_name (Args.location_name arguments) = Some name ->
  fst (get_geolocation_from_name env name []) = None ->
  fst (get_coordinates env arguments tr)
  = inl (ValueError ("Could not find location: " +++ name))
  /\ exists rqs,
       requests (snd (get_coordinates env arguments tr)) = requests tr ++ rqs
       /\ Forall (fun rq => url rq = geocoding_url) rqs.
Proof.
  intros Hmissing Hname Hnotfound.
  assert (Hrun :
            get_coordinates env arguments tr
            = (inl (ValueError ("Could not find location: " +++ name)),
               (((tr ++ [arguments_logged arguments])
                   ++ [EvLog INFO "Geocoding location name: %s" [LVal (PStr name)]])
                  ++ snd (get_geolocation_from_name env name []))
                 ++ [EvLog ERROR "Could not find location: %s" [LVal (PStr name)]])).
  { unfold get_coordinates. unfold bindX at 1. unfold bind at 1.
    rewrite (get_coordinates_tagged_lower _ _ Hmissing).
    unfold lower_tiers. rewrite Hname. unfold place_name_tier. run_monad.
    rewrite (appends_get_geolocation_from_name env name _).
    rewrite Hnotfound. run_monad. reflexivity. }
  rewrite Hrun. cbn [fst snd]. split; [reflexivity|].
  destruct (geocoder_requests env name []) as [rqs [Hrqs Hall]].
  exists rqs. split; [|exact Hall].
  rewrite !requests_app, Hrqs. cbn [requests app].
  now rewrite !app_nil_r.
Qed.

(** C10: when exactly one of latitude and longitude is supplied, it is
    ignored: the result and the requests sent are those of the same call
    without it, that is, of the place-name tier when a name is given and of
    the IP tier (with its default fallback) otherwise, and the result is
    never the explicit-coordinates one. *)
Theorem single_coordinate_ignored (arguments : Args.t) (tr : trace) :
  (Args.latitude arguments = None /\ Args.longitude arguments <> None)
  \/ (Args.latitude arguments <> None /\ Args.longitude arguments = None) ->
  let without :=
    Args.mk (Args.location_name arguments) None None (Args.client_ip arguments) in
  fst (get_coordinates_tagged env arguments tr)
  = fst (get_coordinates_tagged env without tr)
  /\ requests (snd (get_coordinates_tagged env arguments tr))
     = requests (snd (get_coordinates_tagged env without tr))
  /\ get_coordinates_tagged env arguments tr
     = match given_name (Args.location_name arguments) with
       | Some name => place_name_tier env name
       | None => ip_tier env (Args.client_ip arguments)
       end (tr ++ [arguments_logged arguments])
  /\ (forall r, fst (get_coordinates_tagged env arguments tr) = inr r ->
                fst r <> EXPLICIT_COORDS).
Proof.
  intros Hone without.
  assert (Hmissing : Args.latitude arguments = None \/ Args.longitude arguments = None).
  { destruct Hone as [[H _]|[_ H]]; [left|right]; exact H. }
  rewrite (get_coordinates_tagged_lower arguments tr Hmissing).
  rewrite (get_coordinates_tagged_lower without tr) by (left; reflexivity).
  assert (Hsame : lower_tiers env without = lower_tiers env arguments) by reflexivity.
  rewrite Hsame.
  rewrite (appends_lower_tiers arguments (tr ++ [arguments_logged arguments])).
  rewrite (appends_lower_tiers arguments (tr ++ [arguments_logged without])).
  cbn [fst snd]. repeat split.
  - rewrite !requests_app. reflexivity.
  - rewrite <- (appends_lower_tiers arguments (tr ++ [arguments_logged arguments])).
    reflexivity.
  - intros r Hr. unfold lower_tiers in Hr.
    destruct (given_name (Args.location_name arguments)) as [name|].
    + rewrite (place_name_tier_origin _ [] r Hr). discriminate.
    + destruct (ip_tier_origin _ [] r Hr) as [-> | ->]; discriminate.
Qed.

End Orchestrator.


(** A public client address while every provider times out. *)
Lemma default_fallback_when_exhausted_witness :
  fst (get_coordinates Sample.offline (Args.mk None None None (Some "8.8.8.8")) [])
  = inr (PFloat default_latitude, PFloat default_longitude,
         "New York, USA (default fallback)").
Proof.
  exact (proj2 (default_fallback_when_exhausted Sample.offline
                  None (Some "8.8.8.8") [] eq_refl eq_refl)).
Defined.

(** A name the geocoding service has no result for, with a client address
    at hand. *)
Lemma unknown_place_raises_witness :
  fst (get_coordinates SpringfieldExample.env
         (Args.mk (Some "Zzqxnotarealplace") None None (Some "8.8.8.8")) [])
  = inl (ValueError "Could not find location: Zzqxnotarealplace").
Proof.
  exact (proj1 (unknown_place_raises SpringfieldExample.env
                  (Args.mk (Some "Zzqxnotarealplace") None None (Some "8.8.8.8"))
                  "Zzqxnotarealplace" [] (or_introl eq_refl) eq_refl eq_refl)).
Defined.

(** A latitude without a longitude. *)
Lemma single_coordinate_ignored_witness :
  fst (get_coordinates_tagged Sample.offline
         (Args.mk None (Some (NInt 48)) None (Some "8.8.8.8")) [])
  = fst (get_coordinates_tagged Sample.offline
           (Args.mk None None None (Some "8.8.8.8")) []).
Proof.
  refine (proj1 (single_coordinate_ignored Sample.offline
                   (Args.mk None (Some (NInt 48)) None (Some "8.8.8.8")) []
                   (or_intror (conj _ eq_refl)))).
  discriminate.
Defined.

(* ------------------------------------------------------------------ *)
(** ** A provider chain at work *)

(** The first provider is a miss, the second is returned, the third is
    not asked. *)
Example second_provider_answers :
  fst (get_geolocation_from_ip ChainExample.env (Some "8.8.8.8") []) = Some ChainExample.mountain_view
  /\ map url (requests (snd (get_geolocation_from_ip ChainExample.env (Some "8.8.8.8") [])))
     = ["https://ipapi.co/8.8.8.8/json/"; "https://ipinfo.io/json"].
Proof. split; reflexivity. Qed.

(** A provider that answers latitude 0 is passed over as well: the
    validation is a truth-value test, and 0 is false. *)
Example zero_latitude_is_a_miss :
  forall env : Env,
    has_coordinates
      (IpLoc.mk PNone PNone PNone (PFloat (S754_zero false))
         (PFloat ChainExample.mountain_view_longitude) PNone) = false
    /\ has_coordinates
         (IpLoc.mk PNone PNone PNone (PInt 0) (PInt 9) PNone) = false
    /\ forall s rest location tr,
         provider_answer env (PStr "8.8.8.8") s location
         = inr (IpLoc.mk PNone PNone PNone (PInt 0) (PInt 9) PNone) ->
         geo_loop env (PStr "8.8.8.8") (s :: rest) location tr
         = geo_loop env (PStr "8.8.8.8") rest
             (Some (IpLoc.mk PNone PNone PNone (PInt 0) (PInt 9) PNone))
             (tr ++ geo_try_events env (PStr "8.8.8.8") s location).
Proof.
  intros env. split; [reflexivity|]. split; [reflexivity|].
  intros s rest location tr Hanswer. rewrite geo_loop_cons, Hanswer.
  reflexivity.
Qed.

(** ipinfo.io's URL has no [/json/] in it and ip-api.com is excluded: both
    are asked at their plain URL whatever the address is. *)
Example plain_provider_urls :
  forall (env : Env) (ip_address : pyval),
    provider_url env "https://ipinfo.io/json" ip_address = "https://ipinfo.io/json"
    /\ provider_url env "http://ip-api.com/json/" ip_address
       = "http://ip-api.com/json/".
Proof.
  intros env ip_address. unfold provider_url.
  destruct (Py.truthy ip_address); split; reflexivity.
Qed.

(** The location returned in [ChainExample] has both coordinates. *)
Lemma geolocation_needs_both_coordinates_witness :
  IpLoc.latitude ChainExample.mountain_view <> PNone
  /\ IpLoc.longitude ChainExample.mountain_view <> PNone.
Proof.
  exact (proj1 (geolocation_needs_both_coordinates ChainExample.env)
           (Some "8.8.8.8") [] ChainExample.mountain_view eq_refl).
Defined.

(* ------------------------------------------------------------------ *)
(** ** Further properties of [GeolocationService] and [get_coordinates] *)

Section MoreGeocoder.

Context (env : Env).

Lemma simpler_query_once (name simple_name : string) :
  simpler_query name = Some simple_name -> simpler_query simple_name = None.
Proof.
  intros Hs. apply simpler_query_no_comma.
  unfold simpler_query in Hs.
  destruct (PyStr.contains "," name); [|discriminate Hs].
  destruct (negb _); [|discriminate Hs].
  injection Hs as <-. apply before_comma_no_comma.
Qed.

(** X1: [get_geolocation_from_name] in closed form.  It sends the query
    for the name and, when that has no results and the name holds a comma,
    one more query for what is before the first comma; it never sends a
    third, however many commas the name has, and an attempt that raises is
    not retried. *)
Theorem geocoder_retries_once (location_name : string) (tr : trace) :
  fst (get_geolocation_from_name env location_name tr)
  = match geocode_answer env location_name with
    | inr (Some place) => Some place
    | inr None =>
        match simpler_query location_name with
        | Some simple_name =>
            match geocode_answer env simple_name with
            | inr (Some place) => Some place
            | _ => None
            end
        | None => None
        end
    | inl _ => None
    end
  /\ requests (snd (get_geolocation_from_name env location_name tr))
     = requests tr
       ++ geocoding_request location_name
          :: match geocode_answer env location_name, simpler_query location_name with
             | inr None, Some simple_name => [geocoding_request simple_name]
             | _, _ => []
             end.
Proof.
  rewrite get_geolocation_from_name_step. cbv zeta.
  destruct (geocode_answer env location_name) as [e|[place|]] eqn:Hfirst.
  - cbn [fst snd]. split; [reflexivity|].
    rewrite !requests_app, geocode_try_events_requests. cbn [requests app].
    now rewrite app_nil_r.
  - cbn [fst snd]. split; [reflexivity|].
    rewrite !requests_app, geocode_try_events_requests. reflexivity.
  - destruct (simpler_query location_name) as [simple_name|] eqn:Hs.
    + rewrite get_geolocation_from_name_step. cbv zeta.
      rewrite (simpler_query_once _ _ Hs).
      destruct (geocode_answer env simple_name) as [e|[place|]];
        cbn [fst snd]; (split; [reflexivity|]);
        rewrite !requests_app, !geocode_try_events_requests;
        cbn [requests app]; rewrite ?app_nil_r, <- ?app_assoc; reflexivity.
    + cbn [fst snd]. split; [reflexivity|].
      rewrite !requests_app, geocode_try_events_requests. reflexivity.
Qed.

End MoreGeocoder.

Section MoreGeolocator.

Context (env : Env).

Lemma tried_prefix (services : list string) :
  exists k, k <= List.length services
            /\ tried env services = firstn k services.
Proof.
  induction services as [|s rest [k [Hk IH]]].
  - exists 0. split; [apply Nat.le_refl | reflexivity].
  - cbn [tried]. destruct (public_ip_answer env s) as [e|ip].
    + exists (S k). cbn [List.length firstn]. rewrite IH. split; [lia|reflexivity].
    + exists 1. cbn [List.length firstn]. split; [lia|]. destruct rest; reflexivity.
Qed.

Lemma prepare_address_requests (ip : option string) (tr : trace) :
  exists k, k <= 3
    /\ requests (snd (prepare_address env ip tr))
       = requests tr ++ map public_ip_request (firstn k public_ip_services).
Proof.
  assert (Hprivate : private_or_absent env ip ->
            exists k, k <= 3
              /\ requests (snd (prepare_address env ip tr))
                 = requests tr ++ map public_ip_request (firstn k public_ip_services)).
  { intros Hip. destruct (tried_prefix public_ip_services) as [k [Hk Htried]].
    exists k. split; [exact Hk|].
    rewrite <- Htried. exact (proj2 (prepare_address_private env ip tr Hip)). }
  destruct ip as [s|]; [|apply Hprivate; exact I].
  destruct (String.eqb s EmptyString) eqn:Hempty.
  { apply Hprivate. left. now apply String.eqb_eq. }
  destruct (ip_is_private env s) as [[|]|] eqn:Hclass.
  - apply Hprivate. right. exact Hclass.
  - exists 0. split; [lia|].
    unfold prepare_address, is_private_ip. rewrite Hempty, Hclass. run_monad.
    cbn [firstn map]. now rewrite app_nil_r.
  - exists 0. split; [lia|].
    unfold prepare_address, is_private_ip. rewrite Hempty, Hclass. run_monad.
    rewrite requests_app. reflexivity.
Qed.

Lemma geo_loop_requests_bounded (ip_address : pyval) (services : list string) :
  forall (location : option IpLoc.t) (tr : trace),
  exists n,
    n <= List.length services
    /\ (services <> [] -> 1 <= n)
    /\ requests (snd (geo_loop env ip_address services location tr))
       = requests tr ++ map (provider_request env ip_address) (firstn n services).
Proof.
  induction services as [|s rest IH]; intros location tr.
  - exists 0. split; [apply Nat.le_refl|]. split; [congruence|].
    cbn [geo_loop]. run_monad. rewrite requests_app. reflexivity.
  - rewrite geo_loop_cons.
    destruct (provider_answer env ip_address s location) as [e|l].
    + destruct (IH location
                  (tr ++ geo_try_events env ip_address s location
                      ++ [EvLog WARNING "Failed geolocation service %s: %s"
                            [LVal (PStr s); LExc e]])) as [n [Hn [_ Hreq]]].
      exists (S n). cbn [List.length]. split; [lia|]. split; [lia|].
      rewrite Hreq, !requests_app, geo_try_events_requests.
      cbn [requests firstn map app]. rewrite <- app_assoc. reflexivity.
    + destruct (has_coordinates l).
      * exists 1. cbn [List.length]. split; [lia|]. split; [lia|].
        cbn [snd]. rewrite requests_app, geo_try_events_requests.
        destruct rest; reflexivity.
      * destruct (IH (Some l) (tr ++ geo_try_events env ip_address s location))
          as [n [Hn [_ Hreq]]].
        exists (S n). cbn [List.length]. split; [lia|]. split; [lia|].
        rewrite Hreq, requests_app, geo_try_events_requests.
        cbn [firstn map app]. rewrite <- app_assoc. reflexivity.
Qed.

(** X2: one call of [get_geolocation_from_ip] sends at most six requests:
    first at most one to each public-address service, in the configured
    order; then at least one and at most one to each geolocation provider,
    in the configured order, all at URLs made from one and the same
    address. *)
Theorem geolocator_request_budget (ip : option string) (tr : trace) :
  exists k m,
    k <= 3 /\ 1 <= m <= 3
    /\ requests (snd (get_geolocation_from_ip env ip tr))
       = requests tr
         ++ map public_ip_request (firstn k public_ip_services)
         ++ map (provider_request env (fst (prepare_address env ip [])))
              (firstn m geolocation_services).
Proof.
  unfold get_geolocation_from_ip. run_monad.
  destruct (prepare_address_requests ip
              (tr ++ [EvLog INFO "Getting geolocation from IP: %s"
                        [LVal (or_auto_detect ip)]])) as [k [Hk Hprep]].
  rewrite (appends_prepare_address env ip _) in Hprep |- *.
  cbn [fst snd] in Hprep |- *.
  destruct (geo_loop_requests_bounded (fst (prepare_address env ip []))
              geolocation_services None
              ((tr ++ [EvLog INFO "Getting geolocation from IP: %s"
                         [LVal (or_auto_detect ip)]])
                 ++ snd (prepare_address env ip []))) as [m [Hm [Hpos Hreq]]].
  exists k, m. split; [exact Hk|]. split.
  - split; [apply Hpos; discriminate | exact Hm].
  - rewrite Hreq, Hprep, requests_app. cbn [requests].
    rewrite app_nil_r, <- app_assoc. reflexivity.
Qed.

End MoreGeolocator.

Section MoreNormalizers.

Context (env : Env).

(** X3: an ipinfo.io answer gives coordinates only when its [loc] field is
    a string made of exactly two comma-separated pieces that [float]
    accepts; they are then the latitude and the longitude, in this order.
    A missing [loc], or one with no comma or with two commas, leaves both
    coordinates null. *)
Theorem ipinfo_needs_two_part_loc
    (service_url : string) (ip_address data : pyval) (l : IpLoc.t) :
  PyStr.contains "ipapi.co" service_url = false ->
  PyStr.contains "ipinfo.io" service_url = true ->
  parse_location env service_url ip_address data = inr (Some l) ->
  IpLoc.latitude l <> PNone \/ IpLoc.longitude l <> PNone ->
  exists s a b fa fb,
    Py.get data "loc" (PStr EmptyString) = inr (PStr s)
    /\ PyStr.split PyStr.comma s = [a; b]
    /\ float_of_str env a = Some fa
    /\ float_of_str env b = Some fb
    /\ IpLoc.latitude l = PFloat fa
    /\ IpLoc.longitude l = PFloat fb.
Proof.
  intros Hnot Hinfo. unfold parse_location. rewrite Hnot, Hinfo.
  destruct (Py.get data "loc" (PStr EmptyString)) as [e|loc_field] eqn:Hloc;
    [discriminate|].
  destruct loc_field as [| | | |s| |]; cbn [Py.split_comma]; try discriminate.
  unfold coordinate_of.
  destruct (PyStr.split PyStr.comma s) as [|a [|b [|c rest]]] eqn:Hsplit;
    cbn [List.length Nat.eqb andb nth_error].
  - destruct (Py.get data "city" PNone), (Py.get data "region" PNone),
      (Py.get data "country" PNone), (Py.get data "ip" PNone); try discriminate.
    intros [= <-]. cbn. intros [H|H]; congruence.
  - destruct (Py.get data "city" PNone), (Py.get data "region" PNone),
      (Py.get data "country" PNone), (Py.get data "ip" PNone); try discriminate.
    intros [= <-]. cbn. intros [H|H]; congruence.
  - destruct (float_of_str env a) as [fa|] eqn:Hfa; [|discriminate].
    destruct (float_of_str env b) as [fb|] eqn:Hfb; [|discriminate].
    destruct (Py.get data "city" PNone), (Py.get data "region" PNone),
      (Py.get data "country" PNone), (Py.get data "ip" PNone); try discriminate.
    intros [= <-] _. exists s, a, b, fa, fb.
    repeat split; try reflexivity; assumption.
  - destruct (Py.get data "city" PNone), (Py.get data "region" PNone),
      (Py.get data "country" PNone), (Py.get data "ip" PNone); try discriminate.
    intros [= <-]. cbn. intros [H|H]; congruence.
Qed.

End MoreNormalizers.

(** The ipinfo.io answer of [ChainExample]. *)
Lemma ipinfo_needs_two_part_loc_witness :
  exists s a b fa fb,
    Py.get (PDict [("ip", PStr "8.8.8.8"); ("city", PStr "Mountain View");
                   ("region", PStr "California"); ("country", PStr "US");
                   ("loc", PStr "37.4056,-122.0775")]) "loc" (PStr EmptyString)
    = inr (PStr s)
    /\ PyStr.split PyStr.comma s = [a; b]
    /\ float_of_str ChainExample.env a = Some fa
    /\ float_of_str ChainExample.env b = Some fb
    /\ IpLoc.latitude ChainExample.mountain_view = PFloat fa
    /\ IpLoc.longitude ChainExample.mountain_view = PFloat fb.
Proof.
  apply (ipinfo_needs_two_part_loc ChainExample.env "https://ipinfo.io/json"
           (PStr "8.8.8.8")).
  - reflexivity.
  - reflexivity.
  - reflexivity.
  - left. discriminate.
Defined.

Section MoreOrchestrator.

Context (env : Env).

Lemma to_float_error (n : number) (e : exn) :
  to_float n = inl e -> e = OverflowError /\ exists z, n = NInt z.
Proof.
  destruct n as [z|f]; cbn [to_float]; [|discriminate].
  unfold Py.float_of_int.
  destruct (binary_normalize 53 1024 z 0 false); try discriminate.
  intros [= <-]. split; [reflexivity | now exists z].
Qed.

Lemma get_geolocation_from_ip_validated (ip : option string) (tr : trace)
    (l : IpLoc.t) :
  fst (get_geolocation_from_ip env ip tr) = Some l -> has_coordinates l = true.
Proof.
  unfold get_geolocation_from_ip. run_monad.
  destruct (prepare_address env ip _) as [addr tr1].
  apply geo_loop_validated.
Qed.

Lemma ip_tier_never_raises (client_ip : option string) (tr : trace) (e : exn) :
  fst (ip_tier env client_ip tr) <> inl e.
Proof.
  unfold ip_tier. run_monad.
  destruct (get_geolocation_from_ip env client_ip _) as [[location|] tr1];
    run_monad; discriminate.
Qed.

Lemma place_name_tier_error (name : string) (tr : trace) (e : exn) :
  fst (place_name_tier env name tr) = inl e ->
  e = ValueError ("Could not find location: " +++ name)
  /\ fst (get_geolocation_from_name env name []) = None.
Proof.
  unfold place_name_tier. run_monad.
  rewrite (appends_get_geolocation_from_name env name _).
  destruct (fst (get_geolocation_from_name env name [])) as [place|];
    run_monad; [discriminate|].
  intros [= <-]. split; reflexivity.
Qed.

Lemma get_coordinates_fst (arguments : Args.t) (tr : trace) :
  fst (get_coordinates env arguments tr)
  = match fst (get_coordinates_tagged env arguments tr) with
    | inl e => inl e
    | inr r => inr (snd r)
    end.
Proof.
  unfold get_coordinates. run_monad.
  destruct (get_coordinates_tagged env arguments tr) as [[e|r] tr1]; reflexivity.
Qed.

(** X4: the errors [get_coordinates] can raise.  Either a place name was
    given (and not both coordinates), the geocoder found nothing, and the
    error is "Could not find location: <name>"; or both coordinates were
    given and one of them is an integer too large for [float()].  The IP
    tier never raises. *)
Theorem get_coordinates_error_surface
    (arguments : Args.t) (tr : trace) (e : exn) :
  fst (get_coordinates env arguments tr) = inl e ->
  (exists name,
      given_name (Args.location_name arguments) = Some name
      /\ (Args.latitude arguments = None \/ Args.longitude arguments = None)
      /\ e = ValueError ("Could not find location: " +++ name)
      /\ fst (get_geolocation_from_name env name []) = None)
  \/ (exists lat lon,
         Args.latitude arguments = Some lat
         /\ Args.longitude arguments = Some lon
         /\ e = OverflowError
         /\ (to_float lat = inl OverflowError \/ to_float lon = inl OverflowError)).
Proof.
  rewrite get_coordinates_fst.
  destruct (Args.latitude arguments) as [lat|] eqn:Hlat;
    [destruct (Args.longitude arguments) as [lon|] eqn:Hlon|].
  - unfold get_coordinates_tagged. rewrite Hlat, Hlon. run_monad.
    intros H. right. exists lat, lon.
    destruct (to_float lat) as [e1|flat] eqn:H1; run_monad.
    + cbn [fst] in H. injection H as <-.
      destruct (to_float_error _ _ H1) as [-> _]. repeat split; auto.
    + destruct (to_float lon) as [e2|flon] eqn:H2; run_monad;
        cbn [fst] in H; [|discriminate H].
      injection H as <-.
      destruct (to_float_error _ _ H2) as [-> _]. repeat split; auto.
  - rewrite get_coordinates_tagged_lower by (right; exact Hlon).
    unfold lower_tiers.
    destruct (given_name (Args.location_name arguments)) as [name|] eqn:Hname.
    + destruct (fst (place_name_tier env name _)) as [e'|r] eqn:Htier;
        [|discriminate].
      intros [= <-]. left. exists name.
      destruct (place_name_tier_error _ _ _ Htier) as [He Hnone].
      repeat split; auto.
    + destruct (fst (ip_tier env (Args.client_ip arguments) _)) as [e'|r] eqn:Htier;
        [|discriminate].
      exfalso. exact (ip_tier_never_raises _ _ _ Htier).
  - rewrite get_coordinates_tagged_lower by (left; exact Hlat).
    unfold lower_tiers.
    destruct (given_name (Args.location_name arguments)) as [name|] eqn:Hname.
    + destruct (fst (place_name_tier env name _)) as [e'|r] eqn:Htier;
        [|discriminate].
      intros [= <-]. left. exists name.
      destruct (place_name_tier_error _ _ _ Htier) as [He Hnone].
      repeat split; auto.
    + destruct (fst (ip_tier env (Args.client_ip arguments) _)) as [e'|r] eqn:Htier;
        [|discriminate].
      exfalso. exact (ip_tier_never_raises _ _ _ Htier).
Qed.

(** X5: a result of the IP tier always has a latitude and a longitude
    that pass the truth-value test, and its label is "<city>, <country>
    (IP-based)"; a result of the default tier is the fixed one. *)
Theorem ip_based_result_has_coordinates
    (arguments : Args.t) (tr : trace) (o : origin) (lat lon : pyval)
    (info : string) :
  fst (get_coordinates_tagged env arguments tr) = inr (o, (lat, lon, info)) ->
  (o = IP_BASED ->
   Py.truthy lat = true /\ Py.truthy lon = true
   /\ exists city country,
        info = fmt env city +++ ", " +++ fmt env country +++ " (IP-based)")
  /\ (o = DEFAULT_FALLBACK ->
      lat = PFloat default_latitude /\ lon = PFloat default_longitude
      /\ info = "New York, USA (default fallback)").
Proof.
  assert (Hip : forall client_ip tr',
             fst (ip_tier env client_ip tr') = inr (o, (lat, lon, info)) ->
             (o = IP_BASED ->
              Py.truthy lat = true /\ Py.truthy lon = true
              /\ exists city country,
                   info = fmt env city +++ ", " +++ fmt env country +++ " (IP-based)")
             /\ (o = DEFAULT_FALLBACK ->
                 lat = PFloat default_latitude /\ lon = PFloat default_longitude
                 /\ info = "New York, USA (default fallback)")).
  { intros client_ip tr'. unfold ip_tier. run_monad.
    destruct (get_geolocation_from_ip env client_ip _) as [[location|] tr1] eqn:Hgeo;
      run_monad; intros [= <- <- <- <-].
    - split; [|discriminate]. intros _.
      pose proof (get_geolocation_from_ip_validated client_ip _ location
                    (f_equal fst Hgeo)) as Hvalid.
      unfold has_coordinates in Hvalid. apply andb_true_iff in Hvalid as [H1 H2].
      split; [exact H1|]. split; [exact H2|].
      exists (IpLoc.city location), (IpLoc.country location). reflexivity.
    - split; [discriminate|]. intros _. repeat split; reflexivity. }
  destruct (Args.latitude arguments) as [la|] eqn:Hlat;
    [destruct (Args.longitude arguments) as [lo|] eqn:Hlon|].
  - unfold get_coordinates_tagged. rewrite Hlat, Hlon. run_monad.
    destruct (to_float la); run_monad; [discriminate|].
    destruct (to_float lo); run_monad; [discriminate|].
    intros [= <- <- <- <-]. split; discriminate.
  - rewrite get_coordinates_tagged_lower by (right; exact Hlon).
    unfold lower_tiers.
    destruct (given_name (Args.location_name arguments)) as [name|]; [|apply Hip].
    intros H. apply place_name_tier_origin in H. cbn [fst] in H.
    split; intros ->; discriminate.
  - rewrite get_coordinates_tagged_lower by (left; exact Hlat).
    unfold lower_tiers.
    destruct (given_name (Args.location_name arguments)) as [name|]; [|apply Hip].
    intros H. apply place_name_tier_origin in H. cbn [fst] in H.
    split; intros ->; discriminate.
Qed.

(** X6: the place-name tier does not validate what the geocoder found.
    When the first query has a match, [get_coordinates] returns that
    match's latitude and longitude as they are (null when the match has
    none) with a label made of its name, then its [admin1] and its country
    when they are not empty. *)
Theorem place_name_result_unvalidated
    (arguments : Args.t) (name : string) (place : Place.t) (tr : trace) :
  Args.latitude arguments = None \/ Args.longitude arguments = None ->
  given_name (Args.location_name arguments) = Some name ->
  geocode_answer env name = inr (Some place) ->
  fst (get_coordinates env arguments tr)
  = inr (Place.latitude place, Place.longitude place,
         (fmt env (Place.name place)
            +++ (if Py.truthy (Place.admin1 place)
                 then ", " +++ fmt env (Place.admin1 place) else EmptyString))
           +++ (if Py.truthy (Place.country place)
                then ", " +++ fmt env (Place.country place) else EmptyString)).
Proof.
  intros Hmissing Hname Hmatch.
  rewrite get_coordinates_fst, (get_coordinates_tagged_lower env _ _ Hmissing).
  unfold lower_tiers. rewrite Hname. unfold place_name_tier. run_monad.
  rewrite (appends_get_geolocation_from_name env name _).
  rewrite (get_geolocation_from_name_step env name []). cbv zeta.
  rewrite Hmatch. run_monad.
  destruct (Py.truthy (Place.admin1 place)), (Py.truthy (Place.country place));
    rewrite ?append_empty_r; reflexivity.
Qed.

End MoreOrchestrator.

(** A name without a match. *)
Lemma get_coordinates_error_surface_witness :
  (exists name,
      given_name (Some "Zzqxnotarealplace") = Some name
      /\ ((None : option number) = None \/ (None : option number) = None)
      /\ ValueError "Could not find location: Zzqxnotarealplace"
         = ValueError ("Could not find location: " +++ name)
      /\ fst (get_geolocation_from_name SpringfieldExample.env name []) = None)
  \/ (exists lat lon,
         (None : option number) = Some lat
         /\ (None : option number) = Some lon
         /\ ValueError "Could not find location: Zzqxnotarealplace" = OverflowError
         /\ (to_float lat = inl OverflowError \/ to_float lon = inl OverflowError)).
Proof.
  exact (get_coordinates_error_surface SpringfieldExample.env
           (Args.mk (Some "Zzqxnotarealplace") None None (Some "8.8.8.8")) []
           (ValueError "Could not find location: Zzqxnotarealplace") eq_refl).
Defined.

(** The IP-based result of [ChainExample]. *)
Lemma ip_based_result_has_coordinates_witness :
  Py.truthy (PFloat ChainExample.mountain_view_latitude) = true
  /\ Py.truthy (PFloat ChainExample.mountain_view_longitude) = true
  /\ exists city country,
       "Mountain View, US (IP-based)"
       = fmt ChainExample.env city +++ ", " +++ fmt ChainExample.env country
         +++ " (IP-based)".
Proof.
  exact (proj1 (ip_based_result_has_coordinates ChainExample.env
                  (Args.mk None None None (Some "8.8.8.8")) [] IP_BASED
                  (PFloat ChainExample.mountain_view_latitude)
                  (PFloat ChainExample.mountain_view_longitude)
                  "Mountain View, US (IP-based)" eq_refl) eq_refl).
Defined.

(** A match that has a name and no coordinates. *)
Lemma place_name_result_unvalidated_witness :
  fst (get_coordinates BareResultExample.env
         (Args.mk (Some "Atlantis") None None None) [])
  = inr (PNone, PNone, "Atlantis").
Proof.
  exact (place_name_result_unvalidated BareResultExample.env
           (Args.mk (Some "Atlantis") None None None) "Atlantis"
           BareResultExample.atlantis [] (or_introl eq_refl) eq_refl eq_refl).
Defined.

(* ------------------------------------------------------------------ *)
(** ** The text a public-address service answers *)

Section Trimmed.

Lemma lstrip_first_char (s : string) (c : ascii) :
  first_char (PyStr.lstrip s) = Some c -> PyStr.is_space c = false.
Proof.
  induction s as [|a rest IH]; cbn [PyStr.lstrip first_char]; [discriminate|].
  destruct (PyStr.is_space a) eqn:Ha; [exact IH|].
  cbn [first_char]. intros [= <-]. exact Ha.
Qed.

Lemma rstrip_first_char (s : string) (c : ascii) :
  first_char (PyStr.rstrip s) = Some c -> first_char s = Some c.
Proof.
  destruct s as [|a rest]; cbn [PyStr.rstrip first_char]; [discriminate|].
  destruct (PyStr.rstrip rest).
  - destruct (PyStr.is_space a); cbn [first_char]; [discriminate | trivial].
  - trivial.
Qed.

Lemma rstrip_last_char (s : string) (c : ascii) :
  last_char (PyStr.rstrip s) = Some c -> PyStr.is_space c = false.
Proof.
  induction s as [|a rest IH]; cbn [PyStr.rstrip last_char]; [discriminate|].
  destruct (PyStr.rstrip rest) as [|b r] eqn:Hr.
  - destruct (PyStr.is_space a) eqn:Ha; cbn [last_char]; [discriminate|].
    intros [= <-]. exact Ha.
  - cbn [last_char]. exact IH.
Qed.

Lemma strip_trimmed (s : string) : trimmed (PyStr.strip s).
Proof.
  unfold trimmed, PyStr.strip. split; intros c Hc.
  - apply rstrip_first_char in Hc. exact (lstrip_first_char _ _ Hc).
  - exact (rstrip_last_char _ _ Hc).
Qed.

(** [lstrip] removes a prefix of white space and nothing else. *)
Lemma lstrip_removes_prefix (s : string) :
  exists before, s = before +++ PyStr.lstrip s /\ all_space before = true.
Proof.
  induction s as [|a rest [before [Hrest Hspace]]].
  - exists EmptyString. split; reflexivity.
  - cbn [PyStr.lstrip]. destruct (PyStr.is_space a) eqn:Ha.
    + exists (String a before). cbn [String.append all_space].
      rewrite <- Hrest, Ha, Hspace. split; reflexivity.
    + exists EmptyString. split; reflexivity.
Qed.

(** [rstrip] removes a suffix of white space and nothing else. *)
Lemma rstrip_removes_suffix (s : string) :
  exists after, s = PyStr.rstrip s +++ after /\ all_space after = true.
Proof.
  induction s as [|a rest [after [Hrest Hspace]]].
  - exists EmptyString. split; reflexivity.
  - cbn [PyStr.rstrip]. destruct (PyStr.rstrip rest) as [|b r] eqn:Hr.
    + cbn [String.append] in Hrest. destruct (PyStr.is_space a) eqn:Ha.
      * exists (String a after). cbn [String.append all_space].
        rewrite Ha, Hspace. split; [congruence | reflexivity].
      * exists after. cbn [String.append].
        split; [congruence | exact Hspace].
    + exists after. cbn [String.append] in Hrest |- *.
      split; [congruence | exact Hspace].
Qed.

Lemma lstrip_all_space (s : string) :
  all_space s = true -> PyStr.lstrip s = EmptyString.
Proof.
  induction s as [|a rest IH]; cbn [all_space PyStr.lstrip]; [reflexivity|].
  destruct (PyStr.is_space a); cbn [andb]; [exact IH | discriminate].
Qed.

(** [strip]: the text is white space, the stripped text, white space. *)
Lemma strip_removes_around (s : string) :
  exists before after,
    s = before +++ PyStr.strip s +++ after
    /\ all_space before = true /\ all_space after = true.
Proof.
  unfold PyStr.strip.
  destruct (lstrip_removes_prefix s) as [before [Hs Hbefore]].
  destruct (rstrip_removes_suffix (PyStr.lstrip s)) as [after [Hl Hafter]].
  exists before, after. split; [|split; assumption].
  rewrite <- Hl. exact Hs.
Qed.

End Trimmed.

Section MorePublicIp.

Context (env : Env).

(** X7: what one attempt of [get_public_ip] yields at a plain-text service
    (any service whose URL names neither ipify nor ipinfo) is always a
    string, the body of the response without the white space around it: the
    body is white space, that string, white space, and the string neither
    starts nor ends with a blank or a line break.  A body of white space
    only yields the empty string, which [get_geolocation_from_ip] takes for
    no address. *)
Theorem text_service_answer_trimmed
    (service_url : string) (v : pyval) (tr : trace) :
  PyStr.contains "ipify" service_url = false ->
  PyStr.contains "ipinfo" service_url = false ->
  fst (public_ip_try env service_url tr) = inr v ->
  exists resp before after,
    http_get env (public_ip_request service_url) = HttpResponse resp
    /\ v = PStr (PyStr.strip (text resp))
    /\ text resp = before +++ PyStr.strip (text resp) +++ after
    /\ all_space before = true
    /\ all_space after = true
    /\ trimmed (PyStr.strip (text resp))
    /\ (all_space (text resp) = true ->
        v = PStr EmptyString /\ Py.truthy v = false).
Proof.
  intros Hify Hinfo. rewrite public_ip_try_eq. cbn [fst].
  unfold public_ip_answer. rewrite Hify, Hinfo. cbn [orb].
  destruct (http_get env _) as [e|resp]; [discriminate|].
  destruct (raise_for_status resp) as [e|[]]; [discriminate|].
  intros [= <-].
  destruct (strip_removes_around (text resp)) as [before [after [Hbody [Hb Ha]]]].
  exists resp, before, after.
  split; [reflexivity|]. split; [reflexivity|]. split; [exact Hbody|].
  split; [exact Hb|]. split; [exact Ha|]. split; [apply strip_trimmed|].
  intros Hblank. unfold PyStr.strip.
  rewrite (lstrip_all_space _ Hblank). split; reflexivity.
Qed.

End MorePublicIp.

(** icanhazip.com in [PublicIpExample]: the line break is gone. *)
Lemma text_service_answer_trimmed_witness :
  exists resp before after,
    http_get PublicIpExample.env (public_ip_request "https://icanhazip.com/")
    = HttpResponse resp
    /\ PStr "203.0.113.7" = PStr (PyStr.strip (text resp))
    /\ text resp = before +++ PyStr.strip (text resp) +++ after
    /\ all_space before = true
    /\ all_space after = true
    /\ trimmed (PyStr.strip (text resp))
    /\ (all_space (text resp) = true ->
        PStr "203.0.113.7" = PStr EmptyString
        /\ Py.truthy (PStr "203.0.113.7") = false).
Proof.
  exact (text_service_answer_trimmed PublicIpExample.env "https://icanhazip.com/"
           (PStr "203.0.113.7") [] eq_refl eq_refl eq_refl).
Defined.

(* ------------------------------------------------------------------ *)
(** ** geolocation.py *)

Section LegacyFacts.

Context (env : Env).

Lemma legacy_get_public_ip_eq (tr : trace) :
  Legacy.get_public_ip env tr
  = (match legacy_public_ip_answer env with
     | inr ip => ip
     | inl _ => PNone
     end,
     tr ++ EvGet (mkRequest Legacy.ifconfig_url [] 10)
        :: match legacy_public_ip_answer env with
           | inr _ => []
           | inl e => [EvPrint "Error getting public IP: {e}" [LExc e]]
           end).
Proof.
  unfold Legacy.get_public_ip, legacy_public_ip_answer, print. run_monad.
  destruct (http_get env _) as [e|resp]; run_monad; try close_trace.
  destruct (raise_for_status resp) as [e|[]]; run_monad; try close_trace.
  destruct (response_json resp) as [e|data]; run_monad; try close_trace.
  destruct (Py.get data "ip" PNone) as [e|ip]; run_monad; close_trace.
Qed.

(** X8: [get_geolocation_from_ip] of geolocation.py sends one request to
    ipapi.co, preceded by one to ifconfig.io exactly when the input address
    is absent, empty or private; never more than these two.  ipapi.co is
    asked at [http://ipapi.co/<address>/json/] for the address found (or
    the one given), and at its plain URL when there is none. *)
Theorem legacy_geolocator_requests (ip : option string) (tr : trace) :
  requests (snd (Legacy.get_geolocation_from_ip env ip tr))
  = requests tr
    ++ (if legacy_needs_public env ip
        then [mkRequest Legacy.ifconfig_url [] 10] else [])
    ++ [mkRequest (legacy_url env (legacy_target env ip)) [] 10].
Proof.
  unfold Legacy.get_geolocation_from_ip, Legacy.geolocation_try.
  unfold legacy_target, legacy_url.
  assert (Hneeds :
            forall tr',
              (match ip with
               | None => ret true
               | Some s => if String.eqb s EmptyString then ret true
                           else Legacy.is_private_ip env s
               end) tr' = (legacy_needs_public env ip, tr')).
  { intros tr'. unfold legacy_needs_public, Legacy.is_private_ip.
    destruct ip as [s|]; [|reflexivity].
    destruct (String.eqb s EmptyString); [reflexivity|].
    destruct (ip_is_private env s); reflexivity. }
  unfold bind at 1. unfold bindX at 1. unfold bind at 1. unfold liftM at 1.
  unfold bind at 1. rewrite Hneeds. cbv beta iota. unfold ret at 1 2.
  cbv beta iota.
  destruct (legacy_needs_public env ip).
  - unfold bindX at 1. unfold bind at 1. unfold liftM at 1. unfold bind at 1.
    unfold bind at 1. rewrite legacy_get_public_ip_eq.
    destruct (legacy_public_ip_answer env) as [e|public_ip];
      unfold print; run_monad; cbn [Py.truthy];
      repeat (case_step; run_monad); try congruence;
      rewrite !requests_app; cbn [requests app];
      rewrite ?app_nil_r, <- ?app_assoc; reflexivity.
  - unfold print; run_monad.
    repeat (case_step; run_monad); try congruence;
      rewrite !requests_app; cbn [requests app];
      rewrite ?app_nil_r, <- ?app_assoc; reflexivity.
Qed.

(** X9: [get_geolocation_from_name] of geolocation.py never retries: it
    sends exactly one request (asking for one candidate), whatever the
    name and whatever the answer, and it returns a location only when that
    one answer has a first result. *)
Theorem legacy_geocoder_single_request (location_name : string) (tr : trace) :
  requests (snd (LegacyGeocoder.get_geolocation_from_name env location_name tr))
  = requests tr ++ [legacy_geocoding_request location_name]
  /\ (forall place,
         fst (LegacyGeocoder.get_geolocation_from_name env location_name tr)
         = Some place ->
         exists resp data results result,
           http_get env (legacy_geocoding_request location_name) = HttpResponse resp
           /\ is_success resp = true
           /\ json resp = Some data
           /\ Py.getitem data "results" = inr results
           /\ Py.first results = inr result
           /\ Py.get result "latitude" PNone = inr (LegacyPlace.latitude place)
           /\ Py.get result "longitude" PNone = inr (LegacyPlace.longitude place)).
Proof.
  unfold LegacyGeocoder.get_geolocation_from_name, LegacyGeocoder.geocode_try,
    legacy_geocoding_request, print.
  run_monad.
  destruct (http_get env _) as [e|resp] eqn:Hget; run_monad.
  { split; [|discriminate]. rewrite !requests_app. cbn [requests app].
    now rewrite app_nil_r. }
  unfold raise_for_status, response_json.
  destruct (is_success resp) eqn:Hok; run_monad.
  2:{ split; [|discriminate]. rewrite !requests_app. cbn [requests app].
      now rewrite app_nil_r. }
  destruct (json resp) as [data|] eqn:Hjson; run_monad.
  2:{ split; [|discriminate]. rewrite !requests_app. cbn [requests app].
      now rewrite app_nil_r. }
  destruct (has_results data) as [e|[|]]; run_monad.
  1,3: split; [|discriminate]; rewrite !requests_app; cbn [requests app];
       now rewrite app_nil_r.
  destruct (Py.getitem data "results") as [e|results] eqn:Hresults; run_monad.
  { split; [|discriminate]. rewrite !requests_app. cbn [requests app].
    now rewrite app_nil_r. }
  destruct (Py.first results) as [e|result] eqn:Hfirst; run_monad.
  { split; [|discriminate]. rewrite !requests_app. cbn [requests app].
    now rewrite app_nil_r. }
  destruct (Py.get result "name" PNone) as [e|name] eqn:Hn; run_monad.
  { split; [|discriminate]. rewrite !requests_app. cbn [requests app].
    now rewrite app_nil_r. }
  destruct result as [| | | | | |d]; try discriminate Hn.
  cbn [Py.get]. run_monad.
  split; [rewrite !requests_app; reflexivity|].
  intros place [= <-]. exists resp, data, results, (PDict d).
  cbn [LegacyPlace.latitude LegacyPlace.longitude Py.get].
  repeat split; auto.
Qed.

End LegacyFacts.

(* ------------------------------------------------------------------ *)
(** ** TimeService *)

Section TimeFacts.

Context (env : Env) (tenv : TimeEnv).

Lemma twelve_hour_range (hour : Z) :
  (0 <= hour < 24)%Z ->
  let (hour_12, period) := twelve_hour hour in
  (1 <= hour_12 <= 12)%Z
  /\ ((hour - hour_12) mod 12 = 0)%Z
  /\ ((period = "am" /\ (hour < 12)%Z) \/ (period = "pm" /\ (12 <= hour)%Z)).
Proof.
  intros Hrange. unfold twelve_hour.
  destruct (hour =? 0)%Z eqn:H0.
  { apply Z.eqb_eq in H0. subst. cbn. split; [lia|]. split; [reflexivity|].
    left. split; [reflexivity|lia]. }
  destruct (hour =? 12)%Z eqn:H12.
  { apply Z.eqb_eq in H12. subst. cbn. split; [lia|]. split; [reflexivity|].
    right. split; [reflexivity|lia]. }
  cbn [orb]. apply Z.eqb_neq in H0, H12.
  pose proof (Z.mod_pos_bound hour 12 ltac:(lia)) as Hmod.
  pose proof (Z.div_mod hour 12 ltac:(lia)) as Hdiv.
  assert (Hq : (hour / 12 = 0 \/ hour / 12 = 1)%Z) by lia.
  split; [lia|]. split.
  - replace (hour - hour mod 12)%Z with (hour / 12 * 12)%Z by lia.
    apply Z.mod_mul. lia.
  - destruct (hour <? 12)%Z eqn:Hlt;
      [left; apply Z.ltb_lt in Hlt | right; apply Z.ltb_ge in Hlt];
      split; [reflexivity|lia|reflexivity|lia].
Qed.

(** X10: for an hour of the day (0 to 23) [_format_time_words] speaks the
    hour of a twelve-hour clock: a number from 1 to 12 that differs from
    the hour by a multiple of 12, followed at the end by "am" before noon
    and "pm" from noon on; the minutes are left out when they are 0 and are
    introduced by "oh" when they are below 10. *)
Theorem format_time_words_twelve_hour
    (hour minute : Z) (language words : string) :
  (0 <= hour < 24)%Z ->
  _format_time_words tenv hour minute language = inr words ->
  exists hour_12 period hour_word,
    (1 <= hour_12 <= 12)%Z
    /\ ((hour - hour_12) mod 12 = 0)%Z
    /\ ((period = "am" /\ (hour < 12)%Z) \/ (period = "pm" /\ (12 <= hour)%Z))
    /\ num2words tenv hour_12 language = inr hour_word
    /\ ((minute = 0%Z /\ words = hour_word +++ " " +++ period)
        \/ (minute <> 0%Z
            /\ exists minute_word,
                 num2words tenv minute language = inr minute_word
                 /\ words = hour_word
                            +++ (if (minute <? 10)%Z then " oh " else " ")
                            +++ minute_word +++ " " +++ period)).
Proof.
  intros Hrange. pose proof (twelve_hour_range hour Hrange) as Hclock.
  unfold _format_time_words.
  destruct (twelve_hour hour) as [hour_12 period].
  destruct Hclock as [H12 [Hmod Hperiod]].
  destruct (num2words tenv hour_12 language) as [e|hour_word] eqn:Hhour;
    [discriminate|].
  destruct (minute =? 0)%Z eqn:Hzero.
  - intros [= <-]. apply Z.eqb_eq in Hzero.
    exists hour_12, period, hour_word.
    split; [exact H12|]. split; [exact Hmod|]. split; [exact Hperiod|].
    split; [exact Hhour|]. left. split; [exact Hzero | reflexivity].
  - apply Z.eqb_neq in Hzero.
    destruct (minute <? 10)%Z;
      destruct (num2words tenv minute language) as [e|minute_word] eqn:Hminute;
      try discriminate;
      intros [= <-]; exists hour_12, period, hour_word;
      (split; [exact H12|]); (split; [exact Hmod|]); (split; [exact Hperiod|]);
      (split; [exact Hhour|]); right; (split; [exact Hzero|]);
      exists minute_word; split; reflexivity.
Qed.

(** X11: [_get_month_name] gives the name of the month for 1 to 12; it
    indexes a list, so 0 gives "December" and -11 to -1 give "January" to
    "November" instead of an error; every other number raises
    [IndexError]. *)
Theorem month_name_index (month : Z) :
  ((1 <= month <= 12)%Z ->
   _get_month_name month = inr (nth (Z.to_nat (month - 1)) months EmptyString))
  /\ ((-11 <= month <= 0)%Z ->
      _get_month_name month = _get_month_name (month + 12))
  /\ ((month < -11)%Z \/ (12 < month)%Z ->
      _get_month_name month = inl IndexError).
Proof.
  unfold _get_month_name. split; [|split].
  - intros H.
    assert (Hcases : (month = 1 \/ month = 2 \/ month = 3 \/ month = 4
                      \/ month = 5 \/ month = 6 \/ month = 7 \/ month = 8
                      \/ month = 9 \/ month = 10 \/ month = 11 \/ month = 12)%Z)
      by lia.
    repeat (destruct Hcases as [-> | Hcases]; [reflexivity|]).
    subst. reflexivity.
  - intros H.
    assert (Hcases : (month = 0 \/ month = -1 \/ month = -2 \/ month = -3
                      \/ month = -4 \/ month = -5 \/ month = -6 \/ month = -7
                      \/ month = -8 \/ month = -9 \/ month = -10
                      \/ month = -11)%Z) by lia.
    repeat (destruct Hcases as [-> | Hcases]; [reflexivity|]).
    subst. reflexivity.
  - intros H. unfold PyMore.index. cbn [months List.length Z.of_nat].
    assert (Hlen : Z.of_nat 12 = 12%Z) by reflexivity.
    change (Z.pos (Pos.of_succ_nat 11)) with 12%Z.
    destruct (month - 1 <? 0)%Z eqn:Hneg.
    + apply Z.ltb_lt in Hneg.
      assert (Hout : (0 <=? 12 + (month - 1))%Z = false) by (apply Z.leb_gt; lia).
      rewrite Hout. reflexivity.
    + apply Z.ltb_ge in Hneg.
      assert (Hout : (month - 1 <? 12)%Z = false) by (apply Z.ltb_ge; lia).
      rewrite Hout, andb_false_r. reflexivity.
Qed.

End TimeFacts.

(** Five past two in the afternoon. *)
Lemma format_time_words_twelve_hour_witness :
  exists hour_12 period hour_word,
    (1 <= hour_12 <= 12)%Z
    /\ ((14 - hour_12) mod 12 = 0)%Z
    /\ ((period = "am" /\ (14 < 12)%Z) \/ (period = "pm" /\ (12 <= 14)%Z))
    /\ num2words TimeExample.tenv hour_12 "en" = inr hour_word
    /\ ((5%Z = 0%Z /\ "two oh five pm" = hour_word +++ " " +++ period)
        \/ (5%Z <> 0%Z
            /\ exists minute_word,
                 num2words TimeExample.tenv 5 "en" = inr minute_word
                 /\ "two oh five pm"
                    = hour_word +++ (if (5 <? 10)%Z then " oh " else " ")
                      +++ minute_word +++ " " +++ period)).
Proof.
  apply (format_time_words_twelve_hour TimeExample.tenv 14 5 "en" "two oh five pm").
  - lia.
  - reflexivity.
Defined.

Section DayOrdinal.

Context (tenv : TimeEnv).

Lemma small_mod_10 (day : Z) :
  (0 <= day <= 110)%Z ->
  ((11 <=? day mod 100) && (day mod 100 <=? 13))%Z
  = ((11 <=? day) && (day <=? 13))%Z.
Proof.
  intros Hrange.
  pose proof (Z.div_mod day 100 ltac:(lia)) as Hdiv.
  pose proof (Z.mod_pos_bound day 100 ltac:(lia)) as Hmod.
  assert (Hq : (day / 100 = 0 \/ day / 100 = 1)%Z) by lia.
  destruct Hq as [Hq|Hq]; rewrite Hq in Hdiv.
  - replace (day mod 100)%Z with day by lia. reflexivity.
  - assert (H1 : (11 <=? day mod 100)%Z = false) by (apply Z.leb_gt; lia).
    assert (H2 : (day <=? 13)%Z = false) by (apply Z.leb_gt; lia).
    rewrite H1, H2, andb_false_r. reflexivity.
Qed.

(** X12: [_get_day_ordinal] returns the words of [num2words] when it
    gives them; when it raises, the fallback writes the number followed by
    the English ordinal suffix ("th" for 11 to 13, otherwise "st", "nd",
    "rd" by the last digit), which is right for every day from 0 to 110,
    hence for every day of a month, and wrong from 111 on ("111st"). *)
Theorem day_ordinal_fallback (day : Z) :
  (forall words, num2words_ordinal tenv day = Some words ->
                 _get_day_ordinal tenv day = words)
  /\ (num2words_ordinal tenv day = None ->
      (0 <= day <= 110)%Z ->
      _get_day_ordinal tenv day
      = PyMore.str_of_int day +++ english_ordinal_suffix day)
  /\ (num2words_ordinal tenv 111 = None ->
      _get_day_ordinal tenv 111 = "111st"
      /\ english_ordinal_suffix 111 = "th").
Proof.
  unfold _get_day_ordinal. split; [|split].
  - intros words ->. reflexivity.
  - intros -> Hrange. unfold english_ordinal_suffix.
    rewrite (small_mod_10 day Hrange).
    destruct ((11 <=? day) && (day <=? 13))%Z; [reflexivity|].
    destruct (day mod 10 =? 1)%Z; [reflexivity|].
    destruct (day mod 10 =? 2)%Z; [reflexivity|].
    destruct (day mod 10 =? 3)%Z; reflexivity.
  - intros ->. split; reflexivity.
Qed.

End DayOrdinal.

(** The twenty-second. *)
Lemma day_ordinal_fallback_witness :
  _get_day_ordinal TimeExample.tenv 22 = "22nd".
Proof.
  exact (proj1 (proj2 (day_ordinal_fallback TimeExample.tenv 22)) eq_refl
           ltac:(lia)).
Defined.

Section CurrentTime.

Context (env : Env) (tenv : TimeEnv).

Lemma time_data_timezone (g : geolocation) (language : string) (td : TimeData.t) :
  time_data env tenv g language = inr td ->
  TimeData.timezone td = geolocation_timezone g
  /\ TimeData.hour td
     = dt_hour (datetime_now tenv
                  match pytz_timezone tenv (geolocation_timezone g) with
                  | Some zone => zone
                  | None => "UTC"
                  end)
  /\ TimeData.minute td
     = dt_minute (datetime_now tenv
                    match pytz_timezone tenv (geolocation_timezone g) with
                    | Some zone => zone
                    | None => "UTC"
                    end).
Proof.
  unfold time_data. cbv zeta.
  destruct (_format_time_words tenv _ _ language); [discriminate|].
  destruct (_get_month_name _); [discriminate|].
  destruct (if Py.truthy (geolocation_country g)
               && PyMore.ne_str (geolocation_country g) "Unknown"
            then _ else _); [discriminate|].
  intros [= <-]. repeat split; reflexivity.
Qed.

Lemma time_data_place_location (place : Place.t) (language : string)
    (td : TimeData.t) :
  time_data env tenv (GPlace place) language = inr td ->
  TimeData.location td
  = PStr ("Unknown"
            +++ (if Py.truthy (Place.country place)
                    && PyMore.ne_str (Place.country place) "Unknown"
                 then ", " +++ fmt env (Place.country place)
                 else EmptyString)).
Proof.
  unfold time_data. cbv zeta.
  destruct (_format_time_words tenv _ _ language); [discriminate|].
  destruct (_get_month_name _); [discriminate|].
  cbn [geolocation_city geolocation_country].
  destruct (Py.truthy (Place.country place)
            && PyMore.ne_str (Place.country place) "Unknown");
    cbn [PyMore.iadd_str]; intros [= <-]; reflexivity.
Qed.

(** The run of [get_current_time_for_location] up to the choice of the
    variable [geolocation]. *)
Lemma current_time_cases (location_name client_ip : option string)
    (language : string) (tr : trace) :
  fst (get_current_time_for_location env tenv location_name client_ip language tr)
  = match given_name location_name with
    | Some name =>
        match fst (get_geolocation_from_name env name []) with
        | Some place => time_data env tenv (GPlace place) language
        | None => inl (ValueError ("Could not find location: " +++ name))
        end
    | None =>
        match fst (get_geolocation_from_ip env client_ip []) with
        | Some location => time_data env tenv (GIp location) language
        | None => time_data env tenv GUnknown language
        end
    end.
Proof.
  unfold get_current_time_for_location. run_monad.
  destruct (given_name location_name) as [name|]; run_monad.
  - rewrite (appends_get_geolocation_from_name env name _).
    destruct (fst (get_geolocation_from_name env name [])); reflexivity.
  - rewrite (appends_get_geolocation_from_ip env client_ip _).
    destruct (fst (get_geolocation_from_ip env client_ip [])); reflexivity.
Qed.

(** X13: without a place name, [get_current_time_for_location] always
    reports the time zone "UTC" and the hour and minute of the UTC clock,
    wherever IP geolocation placed the caller: the Geolocator's dict has no
    [timezone] key. *)
Theorem ip_time_is_always_utc
    (location_name client_ip : option string) (language : string)
    (tr : trace) (td : TimeData.t) :
  given_name location_name = None ->
  fst (get_current_time_for_location env tenv location_name client_ip language tr)
  = inr td ->
  TimeData.timezone td = PStr "UTC"
  /\ TimeData.hour td
     = dt_hour (datetime_now tenv
                  match pytz_timezone tenv (PStr "UTC") with
                  | Some zone => zone
                  | None => "UTC"
                  end)
  /\ TimeData.minute td
     = dt_minute (datetime_now tenv
                    match pytz_timezone tenv (PStr "UTC") with
                    | Some zone => zone
                    | None => "UTC"
                    end).
Proof.
  intros Hname. rewrite current_time_cases, Hname.
  destruct (fst (get_geolocation_from_ip env client_ip [])) as [location|];
    intros Htd; exact (time_data_timezone _ _ _ Htd).
Qed.

(** X14: with a place name that the geocoder finds, the location
    [get_current_time_for_location] reports never holds the place's name:
    it is "Unknown", followed by ", <country>" when the match has a
    country other than "Unknown" (the geocoder's dict has no [city] key);
    the time zone reported is the match's own. *)
Theorem named_time_location_is_unknown
    (location_name client_ip : option string) (language name : string)
    (tr : trace) (td : TimeData.t) :
  given_name location_name = Some name ->
  fst (get_current_time_for_location env tenv location_name client_ip language tr)
  = inr td ->
  exists place,
    fst (get_geolocation_from_name env name []) = Some place
    /\ TimeData.timezone td = Place.timezone place
    /\ TimeData.location td
       = PStr ("Unknown"
                 +++ (if Py.truthy (Place.country place)
                         && PyMore.ne_str (Place.country place) "Unknown"
                      then ", " +++ fmt env (Place.country place)
                      else EmptyString)).
Proof.
  intros Hname. rewrite current_time_cases, Hname.
  destruct (fst (get_geolocation_from_name env name [])) as [place|];
    [|discriminate].
  intros Htd. exists place. split; [reflexivity|]. split.
  - exact (proj1 (time_data_timezone _ _ _ Htd)).
  - exact (time_data_place_location _ _ _ Htd).
Qed.

(** X15: with a place name the geocoder does not find,
    [get_current_time_for_location] raises "Could not find location:
    <name>"; it has then asked the geocoding service only, and it does not
    fall back to the caller's address. *)
Theorem unknown_place_time_raises
    (location_name client_ip : option string) (language name : string)
    (tr : trace) :
  given_name location_name = Some name ->
  fst (get_geolocation_from_name env name []) = None ->
  fst (get_current_time_for_location env tenv location_name client_ip language tr)
  = inl (ValueError ("Could not find location: " +++ name))
  /\ exists rqs,
       requests (snd (get_current_time_for_location env tenv location_name
                        client_ip language tr))
       = requests tr ++ rqs
       /\ Forall (fun rq => url rq = geocoding_url) rqs.
Proof.
  intros Hname Hnone. split.
  - rewrite current_time_cases, Hname, Hnone. reflexivity.
  - unfold get_current_time_for_location. run_monad. rewrite Hname. run_monad.
    destruct (geocoder_requests env name []) as [rqs [Hrqs Hall]].
    exists rqs. split; [|exact Hall].
    rewrite (appends_get_geolocation_from_name env name _).
    rewrite Hnone. run_monad.
    rewrite !requests_app, Hrqs. cbn [requests app]. now rewrite app_nil_r.
Qed.

End CurrentTime.

(** Located in Mountain View by IP: the zone reported is UTC. *)
Lemma ip_time_is_always_utc_witness :
  TimeData.timezone TimeRuns.by_ip = PStr "UTC".
Proof.
  exact (proj1 (ip_time_is_always_utc ChainExample.env TimeExample.tenv
                  None (Some "8.8.8.8") "en" [] TimeRuns.by_ip eq_refl eq_refl)).
Defined.

(** Asked for "Springfield": the location reported is "Unknown, United
    States". *)
Lemma named_time_location_is_unknown_witness :
  exists place,
    fst (get_geolocation_from_name SpringfieldExample.env "Springfield" [])
    = Some place
    /\ TimeData.timezone TimeRuns.by_name = Place.timezone place
    /\ TimeData.location TimeRuns.by_name
       = PStr ("Unknown"
                 +++ (if Py.truthy (Place.country place)
                         && PyMore.ne_str (Place.country place) "Unknown"
                      then ", " +++ fmt SpringfieldExample.env (Place.country place)
                      else EmptyString)).
Proof.
  exact (named_time_location_is_unknown SpringfieldExample.env TimeExample.tenv
           (Some "Springfield") None "en" "Springfield" [] TimeRuns.by_name
           eq_refl eq_refl).
Defined.

(** Asked for a name the service does not know. *)
Lemma unknown_place_time_raises_witness :
  fst (get_current_time_for_location SpringfieldExample.env TimeExample.tenv
         (Some "Zzqxnotarealplace") (Some "8.8.8.8") "en" [])
  = inl (ValueError ("Could not find location: " +++ "Zzqxnotarealplace")).
Proof.
  exact (proj1 (unknown_place_time_raises SpringfieldExample.env TimeExample.tenv
                  (Some "Zzqxnotarealplace") (Some "8.8.8.8") "en"
                  "Zzqxnotarealplace" [] eq_refl eq_refl)).
Defined.

(* ------------------------------------------------------------------ *)
(** ** WeatherService *)

Section ForecastFacts.

Lemma forecast_days_entries (daily daily_units : pyval) (indices : list nat) :
  forall days,
    forecast_days daily daily_units indices = inr days ->
    List.length days = List.length indices
    /\ forall k i day,
         nth_error indices k = Some i ->
         nth_error days k = Some day ->
         day_data daily daily_units i = inr day.
Proof.
  induction indices as [|i rest IH]; cbn [forecast_days]; intros days.
  - intros [= <-]. split; [reflexivity|]. intros [|k] j day; discriminate.
  - destruct (day_data daily daily_units i) as [e|day0] eqn:Hday; [discriminate|].
    destruct (forecast_days daily daily_units rest) as [e|days0]; [discriminate|].
    intros [= <-]. destruct (IH days0 eq_refl) as [Hlen Hnth].
    split; [cbn [List.length]; now rewrite Hlen|].
    intros [|k] j day; cbn [nth_error].
    + intros [= <-] [= <-]. exact Hday.
    + apply Hnth.
Qed.

Lemma forecast_days_fails (daily daily_units : pyval) (indices : list nat)
    (i : nat) (e : exn) :
  In i indices ->
  day_data daily daily_units i = inl e ->
  exists e', forecast_days daily daily_units indices = inl e'.
Proof.
  intros Hin Hday. induction indices as [|j rest IH]; [destruct Hin|].
  cbn [forecast_days].
  destruct (day_data daily daily_units j) as [e1|day] eqn:Hj; [now exists e1|].
  destruct Hin as [->|Hin]; [congruence|].
  destruct (IH Hin) as [e' ->]. now exists e'.
Qed.

Lemma day_data_date (daily daily_units : pyval) (i : nat) (day : pyval) :
  day_data daily daily_units i = inr day ->
  exists date,
    series_at daily "time" i = inr date
    /\ Py.get day "date" PNone = inr date.
Proof.
  unfold day_data.
  destruct (series_at daily "time" i) as [e|date]; [discriminate|].
  intros H. exists date. split; [reflexivity|]. revert H.
  repeat (case_step; try discriminate).
  all: intros [= <-]; reflexivity.
Qed.

Lemma day_data_requires (daily daily_units : pyval) (i : nat) (key : string)
    (e : exn) :
  In key required_series ->
  series_at daily key i = inl e ->
  exists e', day_data daily daily_units i = inl e'.
Proof.
  intros Hkey Hseries. unfold day_data.
  cbn [required_series In] in Hkey.
  repeat (destruct Hkey as [<-|Hkey];
          [rewrite Hseries; repeat (case_step; eauto); eauto|]).
  destruct Hkey.
Qed.

Lemma series_at_time (daily time : pyval) (i : nat) (date : pyval) :
  Py.get daily "time" (PList []) = inr time ->
  series_at daily "time" i = inr date ->
  PyDict.item time i = inr date.
Proof.
  unfold series_at, Py.get, Py.getitem.
  destruct daily as [| | | | | |d]; try discriminate.
  destruct (Py.assoc "time" d); [|discriminate].
  intros [= <-]. trivial.
Qed.

(** X16: whenever [_format_forecast] returns, its [forecast] list has
    exactly one entry for each element of the answer's [daily.time], in
    the same order, and the [date] of the i-th entry is the i-th element
    of [time]; an answer with no [time] gives the empty forecast. *)
Theorem forecast_one_entry_per_day (data out : pyval) :
  _format_forecast data = inr out ->
  exists daily time days,
    Py.get data "daily" (PDict []) = inr daily
    /\ Py.get daily "time" (PList []) = inr time
    /\ Py.get out "forecast" PNone = inr (PList days)
    /\ Py.len time = inr (Z.of_nat (List.length days))
    /\ forall i day,
         nth_error days i = Some day ->
         exists date,
           PyDict.item time i = inr date
           /\ Py.get day "date" PNone = inr date.
Proof.
  unfold _format_forecast.
  destruct (Py.get data "daily" (PDict [])) as [e|daily] eqn:Hdaily; [discriminate|].
  destruct (Py.get data "daily_units" (PDict [])) as [e|daily_units];
    [discriminate|].
  destruct (Py.get daily "time" (PList [])) as [e|time] eqn:Htime; [discriminate|].
  destruct (Py.len time) as [e|n] eqn:Hlen; [discriminate|].
  destruct (forecast_days daily daily_units (seq 0 (Z.to_nat n))) as [e|days] eqn:Hdays;
    [discriminate|].
  destruct (location_of data) as [e|location]; [discriminate|].
  intros [= <-]. exists daily, time, days.
  destruct (forecast_days_entries _ _ _ _ Hdays) as [Hcount Hnth].
  rewrite length_seq in Hcount.
  assert (Hn : (0 <= n)%Z).
  { destruct time; cbn in Hlen; try discriminate; injection Hlen as <-; lia. }
  repeat split; try reflexivity; try assumption.
  - rewrite Hlen, Hcount, Z2Nat.id by exact Hn. reflexivity.
  - intros i day Hday.
    assert (Hi : i < Z.to_nat n).
    { rewrite <- Hcount. apply nth_error_Some. congruence. }
    assert (Hseq : nth_error (seq 0 (Z.to_nat n)) i = Some i).
    { rewrite nth_error_seq. destruct (Nat.ltb_spec i (Z.to_nat n)); [reflexivity|lia]. }
    destruct (day_data_date _ _ _ _ (Hnth i i day Hseq Hday)) as [date [Hs Hd]].
    exists date. split; [exact (series_at_time _ _ _ _ Htime Hs) | exact Hd].
Qed.

(** X17: [_format_forecast] gives no partial forecast: when one of the
    series it needs ([weather_code], the temperatures, sunrise, sunset,
    ...) is missing or shorter than [time], so that it has no element for
    some day, formatting raises. *)
Theorem forecast_series_must_cover_time
    (data daily time : pyval) (n : Z) (key : string) (i : nat) (e : exn) :
  Py.get data "daily" (PDict []) = inr daily ->
  Py.get daily "time" (PList []) = inr time ->
  Py.len time = inr n ->
  (Z.of_nat i < n)%Z ->
  In key required_series ->
  series_at daily key i = inl e ->
  exists e', _format_forecast data = inl e'.
Proof.
  intros Hdaily Htime Hlen Hi Hkey Hseries. unfold _format_forecast.
  rewrite Hdaily.
  destruct (Py.get data "daily_units" (PDict [])) as [e1|daily_units];
    [now exists e1|].
  rewrite Htime, Hlen.
  destruct (day_data_requires daily daily_units i key e Hkey Hseries) as [e2 Hday].
  assert (Hin : In i (seq 0 (Z.to_nat n))).
  { apply in_seq. lia. }
  destruct (forecast_days_fails _ _ _ _ _ Hin Hday) as [e3 ->].
  now exists e3.
Qed.

End ForecastFacts.

(** The two-day answer of [WeatherExample]. *)
Lemma forecast_one_entry_per_day_witness :
  exists daily time days,
    Py.get WeatherExample.forecast_data "daily" (PDict []) = inr daily
    /\ Py.get daily "time" (PList []) = inr time
    /\ Py.get (match _format_forecast WeatherExample.forecast_data with
               | inr out => out
               | inl _ => PNone
               end) "forecast" PNone = inr (PList days)
    /\ Py.len time = inr (Z.of_nat (List.length days))
    /\ forall i day,
         nth_error days i = Some day ->
         exists date,
           PyDict.item time i = inr date
           /\ Py.get day "date" PNone = inr date.
Proof.
  exact (forecast_one_entry_per_day WeatherExample.forecast_data _ eq_refl).
Defined.

(** The answer whose [weather_code] has no element for the second day. *)
Lemma forecast_series_must_cover_time_witness :
  exists e, _format_forecast WeatherExample.short_data = inl e.
Proof.
  refine (forecast_series_must_cover_time WeatherExample.short_data _ _ 2
            "weather_code" 1 IndexError eq_refl eq_refl eq_refl _ _ eq_refl).
  - lia.
  - right. left. reflexivity.
Defined.

Section CurrentWeatherFacts.

(** X18: whenever [_format_current_weather] returns, the dict has exactly
    its twenty-two keys, in this order, and its [location] has the three
    keys [latitude], [longitude], [timezone]: the subscripts of the caller
    always find their key.  It raises only [AttributeError] (the answer, its
    [current] or its [current_units] is not an object) or [TypeError] (the
    weather code is a list or an object). *)
Theorem current_weather_has_all_keys (data : pyval) :
  (forall out,
      _format_current_weather data = inr out ->
      exists fields location,
        out = PDict fields
        /\ map fst fields = current_weather_keys
        /\ Py.assoc "location" fields = Some (PDict location)
        /\ map fst location = ["latitude"; "longitude"; "timezone"])
  /\ (forall e,
         _format_current_weather data = inl e ->
         e = AttributeError \/ e = TypeError).
Proof.
  assert (Hget : forall v key default e,
             Py.get v key default = inl e -> e = AttributeError).
  { intros v key default e. destruct v; cbn; congruence. }
  assert (Hdesc : forall code e,
             _get_weather_description code = inl e -> e = TypeError).
  { intros code e. unfold _get_weather_description.
    destruct code; cbn; congruence. }
  unfold _format_current_weather, location_of. split.
  - intros out.
    repeat (case_step; try discriminate).
    intros [= <-]. eexists. eexists. repeat split.
  - intros e.
    repeat (match goal with
            | |- context [match Py.get ?v ?k ?d with _ => _ end] =>
                let H := fresh "H" in
                destruct (Py.get v k d) eqn:H;
                [apply Hget in H; intros [= <-]; left; exact H|]
            | |- context [match _get_weather_description ?c with _ => _ end] =>
                let H := fresh "H" in
                destruct (_get_weather_description c) eqn:H;
                [apply Hdesc in H; intros [= <-]; right; exact H|]
            end).
    discriminate.
Qed.

End CurrentWeatherFacts.

Section WeatherRequests.

Context (env : Env).

(** X19: [get_forecast] and [get_current_weather] each send exactly one
    request, to the [/forecast] endpoint with a 10 s timeout, carrying the
    coordinates and [forecast_days] (the [days] asked for, respectively 1).
    They return the formatted answer, and [None] exactly when the request,
    the status check, the JSON decoding or the formatting raises. *)
Theorem weather_fetch_single_request
    (latitude longitude : pyval) (days : Z) (tr : trace) :
  (requests (snd (get_forecast env latitude longitude days tr))
   = requests tr ++ [forecast_request latitude longitude days]
   /\ fst (get_forecast env latitude longitude days tr)
      = match weather_answer env (forecast_request latitude longitude days) with
        | inr data => match _format_forecast data with
                      | inr formatted => Some formatted
                      | inl _ => None
                      end
        | inl _ => None
        end)
  /\ (requests (snd (get_current_weather env latitude longitude tr))
      = requests tr ++ [current_weather_request latitude longitude]
      /\ fst (get_current_weather env latitude longitude tr)
         = match weather_answer env (current_weather_request latitude longitude) with
           | inr data => match _format_current_weather data with
                         | inr formatted => Some formatted
                         | inl _ => None
                         end
           | inl _ => None
           end).
Proof.
  split.
  - unfold get_forecast, weather_answer, forecast_request. run_monad.
    destruct (http_get env _) as [e|resp]; run_monad.
    { split; [|reflexivity]. rewrite !requests_app. cbn [requests app].
      now rewrite !app_nil_r. }
    destruct (raise_for_status resp) as [e|[]]; run_monad.
    { split; [|reflexivity]. rewrite !requests_app. cbn [requests app].
      now rewrite !app_nil_r. }
    destruct (response_json resp) as [e|data]; run_monad.
    { split; [|reflexivity]. rewrite !requests_app. cbn [requests app].
      now rewrite !app_nil_r. }
    destruct (_format_forecast data) as [e|formatted]; run_monad;
      (split; [|reflexivity]); rewrite !requests_app; cbn [requests app];
      now rewrite ?app_nil_r.
  - unfold get_current_weather, weather_answer, current_weather_request. run_monad.
    destruct (http_get env _) as [e|resp]; run_monad.
    { split; [|reflexivity]. rewrite !requests_app. cbn [requests app].
      now rewrite !app_nil_r. }
    destruct (raise_for_status resp) as [e|[]]; run_monad.
    { split; [|reflexivity]. rewrite !requests_app. cbn [requests app].
      now rewrite !app_nil_r. }
    destruct (response_json resp) as [e|data]; run_monad.
    { split; [|reflexivity]. rewrite !requests_app. cbn [requests app].
      now rewrite !app_nil_r. }
    destruct (_format_current_weather data) as [e|formatted]; run_monad;
      (split; [|reflexivity]); rewrite !requests_app; cbn [requests app];
      now rewrite ?app_nil_r.
Qed.

End WeatherRequests.

(* ------------------------------------------------------------------ *)
(** ** call_tool *)

Section CallToolFacts.

Context (env : Env) (tenv : TimeEnv) (xenv : TextEnv).

Lemma appends_get_coordinates (arguments : Args.t) :
  appends (get_coordinates env arguments).
Proof.
  unfold get_coordinates, get_coordinates_tagged, retX.
  repeat first [ apply appends_place_name_tier | apply appends_ip_tier
               | appends_step ].
Qed.




Lemma get_current_weather_requests (latitude longitude : pyval) (tr : trace) :
  requests (snd (get_current_weather env latitude longitude tr))
  = requests tr ++ [current_weather_request latitude longitude].
Proof.
  unfold get_current_weather, current_weather_request. run_monad.
  destruct (http_get env _) as [e|resp]; run_monad.
  { rewrite !requests_app. cbn [requests app]. now rewrite !app_nil_r. }
  destruct (raise_for_status resp) as [e|[]]; run_monad.
  { rewrite !requests_app. cbn [requests app]. now rewrite !app_nil_r. }
  destruct (response_json resp) as [e|data]; run_monad.
  { rewrite !requests_app. cbn [requests app]. now rewrite !app_nil_r. }
  destruct (_format_current_weather data) as [e|formatted]; run_monad;
    rewrite !requests_app; cbn [requests app]; now rewrite ?app_nil_r.
Qed.

(** X21: an exception of [get_coordinates] does not leave [call_tool]: both
    weather tools answer with the text "Error getting ...: " followed by
    [str(e)], and send no request to the weather API (their requests are
    those [get_coordinates] had sent). *)
Theorem coordinates_error_is_answered
    (arguments : ToolArgs.t) (tr : trace) (e : exn) :
  fst (get_coordinates env (ToolArgs.location arguments) []) = inl e ->
  let current := call_tool env tenv xenv "get_current_weather" arguments tr in
  let forecast := call_tool env tenv xenv "get_weather_forecast" arguments tr in
  let located :=
    requests (snd (get_coordinates env (ToolArgs.location arguments) [])) in
  (fst current = "Error getting current weather: " +++ str_exn xenv e
   /\ requests (snd current) = requests tr ++ located)
  /\ (fst forecast = "Error getting weather forecast: " +++ str_exn xenv e
      /\ requests (snd forecast) = requests tr ++ located).
Proof.
  intros Hraises current forecast located. subst current forecast located.
  split.
  - unfold call_tool. cbn [String.eqb Ascii.eqb Bool.eqb].
    unfold reporting, current_weather_tool. run_monad.
    rewrite (appends_get_coordinates (ToolArgs.location arguments) _).
    rewrite Hraises. run_monad.
    split; [reflexivity|].
    rewrite !requests_app. cbn [requests app]. now rewrite !app_nil_r.
  - unfold call_tool. cbn [String.eqb Ascii.eqb Bool.eqb].
    unfold reporting, forecast_tool. run_monad.
    rewrite (appends_get_coordinates (ToolArgs.location arguments) _).
    rewrite Hraises. run_monad.
    split; [reflexivity|].
    rewrite !requests_app. cbn [requests app]. now rewrite !app_nil_r.
Qed.

(** The text of the time tool, from the run of
    [get_current_time_for_location] on the two arguments it reads. *)
Lemma time_tool_text (arguments : ToolArgs.t) (tr : trace) :
  fst (call_tool env tenv xenv "get_current_time" arguments tr)
  = match fst (get_current_time_for_location env tenv
                 (Args.location_name (ToolArgs.location arguments))
                 (Args.client_ip (ToolArgs.location arguments)) "en" []) with
    | inr time_data => time_text env xenv time_data
    | inl e => "Error getting current time: " +++ str_exn xenv e
    end.
Proof.
  unfold call_tool. cbn [String.eqb Ascii.eqb Bool.eqb].
  unfold reporting, current_time_tool. run_monad.
  rewrite (current_time_cases env tenv _ _ "en" []).
  match goal with
  | |- context [get_current_time_for_location env tenv ?n ?ip "en" ?t] =>
      pose proof (current_time_cases env tenv n ip "en" t) as Hrun;
      destruct (get_current_time_for_location env tenv n ip "en" t)
        as [[e|time_data] tr1]
  end; cbn [fst snd] in Hrun |- *; rewrite <- Hrun; reflexivity.
Qed.

(** X22: the time tool reads [location_name] and [client_ip] only.  Two
    calls that agree on these two arguments give the same text, whatever
    coordinates and [days] they carry: explicit coordinates, which decide
    the place for the weather tools, are not used for the time. *)
Theorem time_tool_ignores_coordinates
    (arguments arguments' : ToolArgs.t) (tr tr' : trace) :
  Args.location_name (ToolArgs.location arguments)
  = Args.location_name (ToolArgs.location arguments') ->
  Args.client_ip (ToolArgs.location arguments)
  = Args.client_ip (ToolArgs.location arguments') ->
  fst (call_tool env tenv xenv "get_current_time" arguments tr)
  = fst (call_tool env tenv xenv "get_current_time" arguments' tr').
Proof.
  intros Hname Hip.
  rewrite (time_tool_text arguments tr), (time_tool_text arguments' tr').
  rewrite Hname, Hip. reflexivity.
Qed.

End CallToolFacts.


(** A place the geocoder does not know, asked of the current-weather tool. *)
Lemma coordinates_error_is_answered_witness :
  fst (call_tool SpringfieldExample.env TimeExample.tenv TextExample.xenv
         "get_current_weather"
         (ToolArgs.mk (Args.mk (Some "Zzqxnotarealplace") None None (Some "8.8.8.8"))
            None) [])
  = "Error getting current weather: Could not find location: Zzqxnotarealplace".
Proof.
  refine (proj1 (proj1 (coordinates_error_is_answered SpringfieldExample.env
                          TimeExample.tenv TextExample.xenv
                          (ToolArgs.mk
                             (Args.mk (Some "Zzqxnotarealplace") None None
                                (Some "8.8.8.8")) None) []
                          (ValueError "Could not find location: Zzqxnotarealplace")
                          _))).
  vm_compute. reflexivity.
Defined.

(** The time in Springfield, asked with and without coordinates of Paris. *)
Lemma time_tool_ignores_coordinates_witness :
  fst (call_tool SpringfieldExample.env TimeExample.tenv TextExample.xenv
         "get_current_time"
         (ToolArgs.mk (Args.mk (Some "Springfield") (Some (NInt 48)) (Some (NInt 2)) None)
            (Some (PInt 5))) [])
  = fst (call_tool SpringfieldExample.env TimeExample.tenv TextExample.xenv
           "get_current_time"
           (ToolArgs.mk (Args.mk (Some "Springfield") None None None) None) []).
Proof.
  apply (time_tool_ignores_coordinates SpringfieldExample.env TimeExample.tenv
           TextExample.xenv
           (ToolArgs.mk (Args.mk (Some "Springfield") (Some (NInt 48)) (Some (NInt 2)) None)
              (Some (PInt 5)))
           (ToolArgs.mk (Args.mk (Some "Springfield") None None None) None) [] []);
    reflexivity.
Defined.
